(** * DeepQAgent: the deep Q-learning training loop of l2rpn-baselines

    A shallow embedding of [l2rpn_baselines/utils/DeepQAgent.py].  The agent is
    glue code between three collaborators that live outside the file: the
    grid2op environment, the Q-network ([deep_q]) and the replay buffer.  They
    are modelled as interfaces (type classes); the agent's own methods are
    translated one by one, in a state-and-exception monad, and every call that
    leaves the agent is recorded in a trace of events. *)

From Stdlib Require Import ZArith List Bool Ascii String Lia.
From Stdlib Require Import PrimFloat SpecFloat FloatOps.
Import ListNotations.

Set Implicit Arguments.
Local Open Scope Z_scope.

(** ** Python exceptions raised by the modelled code *)

Inductive exn : Type :=
| RuntimeError (msg : string)
| ZeroDivisionError
| ValueError
| IndexError
| TypeError
| AttributeError
| OutOfFuel.   (* not a Python exception: the model's loop ran out of fuel *)

(** ** Numbers

    Every number that flows through the loop (epsilon, rewards, losses, the
    cells of an observation vector) is a Python float.  The code is
    parametric in the operations it uses on them; [float_number] is IEEE
    binary64, which is what CPython and numpy compute with. *)

Class PyNumber (F : Type) : Type := {
  num_zero : F;                       (* 0. *)
  num_add : F -> F -> F;              (* x + y *)
  num_sub : F -> F -> F;              (* x - y *)
  num_quot : F -> F -> F;             (* x / y for y <> 0 *)
  num_is_zero : F -> bool;            (* y == 0 *)
  num_gtb : F -> F -> bool;           (* x > y *)
  num_isfinite : F -> bool;           (* np.isfinite *)
  num_of_Z : Z -> F;                  (* int -> float64 cast *)
  num_of_bool : bool -> F             (* bool -> float64 cast *)
}.

(** The cast of an integer to float64: the nearest binary64 number, ties to
    even, whatever the size of the integer (the cells that are cast here are
    numpy integers and Python counters, far inside the range where the cast
    is finite). *)
Definition float_of_Z (z : Z) : float :=
  SF2Prim (binary_normalize prec emax z 0 false).

#[export] Instance float_number : PyNumber float := {
  num_zero := PrimFloat.zero;
  num_add := PrimFloat.add;
  num_sub := PrimFloat.sub;
  num_quot := PrimFloat.div;
  num_is_zero := PrimFloat.is_zero;
  num_gtb := fun x y => PrimFloat.ltb y x;
  num_isfinite := PrimFloat.is_finite;
  num_of_Z := float_of_Z;
  num_of_bool := fun b => if b then PrimFloat.one else PrimFloat.zero
}.

(** ** A state-and-exception monad

    [M W A] is a computation over a world [W] that either returns a value or
    raises; the world at the point of the raise is kept, as the trace recorded
    so far is part of it. *)

Inductive Res (W A : Type) : Type :=
| Ok (a : A) (w : W)
| Raise (e : exn) (w : W).

Arguments Ok {W A} a w.
Arguments Raise {W A} e w.

Definition M (W A : Type) : Type := W -> Res W A.

Definition ret {W A} (a : A) : M W A := fun w => Ok a w.

Definition bind {W A B} (c : M W A) (k : A -> M W B) : M W B :=
  fun w => match c w with
           | Ok a w' => k a w'
           | Raise e w' => Raise e w'
           end.

Definition raise {W A} (e : exn) : M W A := fun w => Raise e w.

Definition gets {W A} (f : W -> A) : M W A := fun w => Ok (f w) w.

Definition modify {W} (f : W -> W) : M W unit := fun w => Ok tt (f w).

Declare Scope monad_scope.
Delimit Scope monad_scope with monad.

Notation "x <- c ;; k" := (bind c (fun x => k))
  (at level 61, c at next level, right associativity) : monad_scope.
Notation "' p <- c ;; k" := (bind c (fun x => match x with p => k end))
  (at level 61, p pattern, c at next level, right associativity) : monad_scope.
Notation "c ;; k" := (bind c (fun _ => k))
  (at level 61, right associativity) : monad_scope.

Definition world_of {W A} (r : Res W A) : W :=
  match r with Ok _ w => w | Raise _ w => w end.

(** ** Data model *)

(** The configuration bag [TrainingParam] (its class is outside this file;
    these are the attributes the agent reads). *)
Record TrainingParam (F : Type) : Type := {
  BUFFER_SIZE : Z;
  MINIBATCH_SIZE : Z;
  MIN_OBSERVATION : Z;
  INITIAL_EPSILON : F;
  FINAL_EPSILON : F;
  EPSILON_DECAY : F;
  NUM_FRAMES : Z
}.

(** The three observation attributes [convert_obs] reads: float line loading
    ratios, boolean line status, integer topology vector. *)
Record Observation (F : Type) : Type := {
  rho : list F;
  line_status : list bool;
  topo_vect : list Z
}.

(** A replay-buffer record, the five arguments of [replay_buffer.add]. *)
Record Transition (F : Type) : Type := {
  t_state : list F;
  t_action : list Z;
  t_reward : F;
  t_done : bool;
  t_next_state : list F
}.

(** What [env.step] receives: [_next_move] unwraps a one-element list of
    converted actions and passes any other list as it is. *)
Inductive ActArg (Action : Type) : Type :=
| OneAct (a : Action)
| ActList (l : list Action).

(** A numpy array as the network's constructor sees it: [my_act] hands
    [init_deep_q] the flat vector, [train] the [(1, n)] matrix. *)
Inductive ndarray (F : Type) : Type :=
| Vec (v : list F)
| Mat (rows : list (list F)).

(** ** Collaborators *)

(** The grid2op environment: [reset], [step], chunked loading, the number of
    chronics ([len(env.chronics_handler.real_data.subpaths)]) and the
    reshuffling hook. *)
Class Environment (F Action E : Type) : Type := {
  env_reset : E -> Observation F * E;
  env_step : ActArg Action -> E -> (Observation F * F * bool) * E;
  env_set_chunk_size : Z -> E -> E;
  env_subpaths_len : E -> Z;
  env_shuffle : E -> E
}.

(** The Q-network behind [self.deep_q]; [init_network] is what a subclass's
    [init_deep_q] stores there.  A minibatch is kept as the list of sampled
    records (the code carries it as five parallel arrays). *)
Class QNetwork (F N : Type) : Type := {
  init_network : ndarray F -> N;
  predict_movement : list (list F) -> F -> N -> (list Z * list F) * N;
  train_network : list (Transition F) -> Z -> N -> F * N;
  target_train : N -> N;
  save_network : string -> N -> N;
  load_network : string -> N -> N
}.

(** The replay buffer, through the three methods the agent calls. *)
Class ReplayBufferOps (F B : Type) : Type := {
  rb_new : Z -> B;
  rb_add : Transition F -> B -> B;
  rb_size : B -> Z;
  rb_sample : Z -> B -> list (Transition F) * B
}.

(** ** Paths: [posixpath.join] on two components *)

Fixpoint endswith_sep (s : string) : bool :=
  match s with
  | EmptyString => false
  | String c EmptyString => Ascii.eqb c "/"%char
  | String _ s' => endswith_sep s'
  end.

Definition os_path_join (a b : string) : string :=
  if String.prefix "/" b then b
  else if (String.eqb a EmptyString || endswith_sep a)%bool then (a ++ b)%string
  else (a ++ "/" ++ b)%string.

(** ** Python integer and indexing helpers *)

Definition py_mod {W} (a b : Z) : M W Z :=
  if b =? 0 then raise ZeroDivisionError else ret (a mod b).

Definition py_floordiv {W} (a b : Z) : M W Z :=
  if b =? 0 then raise ZeroDivisionError else ret (a / b).

Fixpoint set_nth {A} (l : list A) (n : nat) (v : A) : list A :=
  match l, n with
  | [], _ => []
  | _ :: t, O => v :: t
  | h :: t, S k => h :: set_nth t k v
  end.

(** [arr[i] = v] on a one-dimensional array: negative indices count from the
    end, anything outside [-len, len) raises. *)
Definition np_setitem {W A} (arr : list A) (i : Z) (v : A) : M W (list A) :=
  let n := Z.of_nat (List.length arr) in
  if (0 <=? i) && (i <? n) then ret (set_nth arr (Z.to_nat i) v)
  else if (- n <=? i) && (i <? 0) then ret (set_nth arr (Z.to_nat (n + i)) v)
  else raise IndexError.

(** [np.concatenate((a, b, c))] on a float, a boolean and an integer array:
    the result is float64, the other two arrays are cast. *)
Definition np_concatenate3 {F} `{PyNumber F} (a : list F) (b : list bool) (c : list Z)
  : list F :=
  a ++ map num_of_bool b ++ map num_of_Z c.

(** [np.zeros(n)]. *)
Definition np_zeros {W F} `{PyNumber F} (n : Z) : M W (list F) :=
  if n <? 0 then raise ValueError else ret (repeat num_zero (Z.to_nat n)).

(** [int(a)] on an integer array: only a size-1 array converts. *)
Definition py_int {W} (a : list Z) : M W Z :=
  match a with
  | [x] => ret x
  | _ => raise TypeError
  end.

(** ** The agent *)

(** Calls that leave the agent, in the order they happen.  [EvIter] is a
    marker written when the body of the [while] loop is entered. *)
Inductive Event (F Action : Type) : Type :=
| EvIter (observation_num : Z)
| EvMakedirs (path : string)
| EvSetChunk (nb : Z)
| EvReset
| EvShuffle
| EvInitDeepQ
| EvPredict (epsilon : F) (pm_i : list Z)
| EvStep (act : ActArg Action) (temp_reward : F) (temp_done : bool)
| EvStore (t : Transition F)
| EvSample (batch_size : Z)
| EvTrain (batch : list (Transition F)) (step : Z) (loss : F)
| EvTargetTrain
| EvPrint (msg : string)
| EvSaveNetwork (path : string)
| EvLoadNetwork (path : string)
| EvTensorboard (step epoch_num : Z) (epoch_rewards epoch_alive : list F).

Arguments EvIter {F Action} observation_num.
Arguments EvMakedirs {F Action} path.
Arguments EvSetChunk {F Action} nb.
Arguments EvReset {F Action}.
Arguments EvShuffle {F Action}.
Arguments EvInitDeepQ {F Action}.
Arguments EvPredict {F Action} epsilon pm_i.
Arguments EvStep {F Action} act temp_reward temp_done.
Arguments EvStore {F Action} t.
Arguments EvSample {F Action} batch_size.
Arguments EvTrain {F Action} batch step loss.
Arguments EvTargetTrain {F Action}.
Arguments EvPrint {F Action} msg.
Arguments EvSaveNetwork {F Action} path.
Arguments EvLoadNetwork {F Action} path.
Arguments EvTensorboard {F Action} step epoch_num epoch_rewards epoch_alive.

(** The attributes of [self] that the methods read or write ([lr] is stored by
    the constructor and never read here), the environment object handed to
    [train], and the trace. *)
Record World (F Action E N B : Type) : Type := {
  replay_buffer : option B;
  deep_q : option N;
  training_param : option (TrainingParam F);
  process_buffer : list (list F);
  tf_writer : option string;
  name : string;
  losses : option (list F);
  env : E;
  trace : list (Event F Action)
}.

(** The local variables of [train] that live across iterations. *)
Record Locals (F : Type) : Type := {
  lv_observation_num : Z;
  lv_epoch_num : Z;
  lv_epsilon : F;
  lv_alive_frame : Z;
  lv_total_reward : F;
  lv_reward : F;
  lv_done : bool;
  lv_alive_frames : list F;
  lv_total_rewards : list F
}.

(** How one pass through the loop body ends. *)
Inductive LoopCtl (F : Type) : Type :=
| Continue (lv : Locals F)
| Break (lv : Locals F).

Section Agent.

Context {F : Type} {num : PyNumber F}.
Context {Action E N B : Type}.
Context {env_ops : Environment F Action E}.
Context {net_ops : QNetwork F N}.
Context {rb_ops : ReplayBufferOps F B}.

(** [AgentWithConverter.convert_act] and [os.path.abspath]. *)
Variable convert_act : Z -> Action.
Variable os_path_abspath : string -> string.

Local Abbreviation world := (World F Action E N B).
Local Abbreviation event := (Event F Action).
Local Open Scope monad_scope.

(** *** Attribute writes *)

Definition set_replay_buffer (v : option B) (w : world) : world :=
  {| replay_buffer := v; deep_q := deep_q w; training_param := training_param w;
     process_buffer := process_buffer w; tf_writer := tf_writer w; name := name w;
     losses := losses w; env := env w; trace := trace w |}.

Definition set_deep_q (v : option N) (w : world) : world :=
  {| replay_buffer := replay_buffer w; deep_q := v; training_param := training_param w;
     process_buffer := process_buffer w; tf_writer := tf_writer w; name := name w;
     losses := losses w; env := env w; trace := trace w |}.

Definition set_training_param (v : option (TrainingParam F)) (w : world) : world :=
  {| replay_buffer := replay_buffer w; deep_q := deep_q w; training_param := v;
     process_buffer := process_buffer w; tf_writer := tf_writer w; name := name w;
     losses := losses w; env := env w; trace := trace w |}.

Definition set_process_buffer (v : list (list F)) (w : world) : world :=
  {| replay_buffer := replay_buffer w; deep_q := deep_q w; training_param := training_param w;
     process_buffer := v; tf_writer := tf_writer w; name := name w;
     losses := losses w; env := env w; trace := trace w |}.

Definition set_tf_writer (v : option string) (w : world) : world :=
  {| replay_buffer := replay_buffer w; deep_q := deep_q w; training_param := training_param w;
     process_buffer := process_buffer w; tf_writer := v; name := name w;
     losses := losses w; env := env w; trace := trace w |}.

Definition set_losses (v : option (list F)) (w : world) : world :=
  {| replay_buffer := replay_buffer w; deep_q := deep_q w; training_param := training_param w;
     process_buffer := process_buffer w; tf_writer := tf_writer w; name := name w;
     losses := v; env := env w; trace := trace w |}.

Definition set_env (v : E) (w : world) : world :=
  {| replay_buffer := replay_buffer w; deep_q := deep_q w; training_param := training_param w;
     process_buffer := process_buffer w; tf_writer := tf_writer w; name := name w;
     losses := losses w; env := v; trace := trace w |}.

Definition set_trace (v : list event) (w : world) : world :=
  {| replay_buffer := replay_buffer w; deep_q := deep_q w; training_param := training_param w;
     process_buffer := process_buffer w; tf_writer := tf_writer w; name := name w;
     losses := losses w; env := env w; trace := v |}.

Definition emit (e : event) : M world unit :=
  modify (fun w => set_trace (trace w ++ [e]) w).

(** Reading an attribute that is still [None] and calling a method on it
    raises. *)
Definition attr {A} (f : world -> option A) : M world A :=
  v <- gets f ;;
  match v with
  | Some a => ret a
  | None => raise AttributeError
  end.

(** *** Calls into the collaborators *)

Definition call_env_reset : M world (Observation F) :=
  e <- gets (@env _ _ _ _ _) ;;
  let '(obs, e') := env_reset e in
  modify (set_env e') ;; emit EvReset ;; ret obs.

Definition call_env_step (act : ActArg Action) : M world (Observation F * F * bool) :=
  e <- gets (@env _ _ _ _ _) ;;
  let '(obs, temp_reward, temp_done, e') := env_step act e in
  modify (set_env e') ;; emit (EvStep act temp_reward temp_done) ;;
  ret (obs, temp_reward, temp_done).

Definition call_env_shuffle : M world unit :=
  e <- gets (@env _ _ _ _ _) ;;
  modify (set_env (env_shuffle e)) ;; emit EvShuffle.

Definition call_predict_movement (data : list (list F)) (epsilon : F)
  : M world (list Z * list F) :=
  n <- attr (@deep_q _ _ _ _ _) ;;
  let '(pm_i, pq_v, n') := predict_movement data epsilon n in
  modify (set_deep_q (Some n')) ;; emit (EvPredict epsilon pm_i) ;;
  ret (pm_i, pq_v).

Definition call_train (batch : list (Transition F)) (step : Z) : M world F :=
  n <- attr (@deep_q _ _ _ _ _) ;;
  let '(loss, n') := train_network batch step n in
  modify (set_deep_q (Some n')) ;; emit (EvTrain batch step loss) ;;
  ret loss.

Definition call_target_train : M world unit :=
  n <- attr (@deep_q _ _ _ _ _) ;;
  modify (set_deep_q (Some (target_train n))) ;; emit EvTargetTrain.

Definition call_rb_add (t : Transition F) : M world unit :=
  b <- attr (@replay_buffer _ _ _ _ _) ;;
  modify (set_replay_buffer (Some (rb_add t b))) ;; emit (EvStore t).

Definition call_rb_size : M world Z :=
  b <- attr (@replay_buffer _ _ _ _ _) ;;
  ret (rb_size b).

Definition call_rb_sample (batch_size : Z) : M world (list (Transition F)) :=
  b <- attr (@replay_buffer _ _ _ _ _) ;;
  let '(batch, b') := rb_sample batch_size b in
  modify (set_replay_buffer (Some b')) ;; emit (EvSample batch_size) ;;
  ret batch.

(** *** Methods of [DeepQAgent] *)

(** The abstract [init_deep_q]: a subclass builds the network from the shape
    of its argument and stores it in [self.deep_q]. *)
Definition init_deep_q (transformed_observation : ndarray F) : M world unit :=
  modify (set_deep_q (Some (init_network transformed_observation))) ;;
  emit EvInitDeepQ.

Definition convert_obs (observation : Observation F) : M world (list F) :=
  ret (np_concatenate3 (rho observation) (line_status observation) (topo_vect observation)).

(** The vector [convert_obs] returns. *)
Definition obs_vector (observation : Observation F) : list F :=
  np_concatenate3 (rho observation) (line_status observation) (topo_vect observation).

Definition my_act (transformed_observation : list F) (reward : F) (done : bool)
  : M world Z :=
  dq <- gets (@deep_q _ _ _ _ _) ;;
  match dq with
  | None => init_deep_q (Vec transformed_observation)
  | Some _ => ret tt
  end ;;
  ' (predict_movement_int, _) <-
      call_predict_movement [transformed_observation] num_zero ;;
  py_int predict_movement_int.

Definition load (path : string) : M world unit :=
  n <- attr (@deep_q _ _ _ _ _) ;;
  modify (set_deep_q (Some (load_network path n))) ;; emit (EvLoadNetwork path).

Definition save (path : option string) : M world unit :=
  match path with
  | Some p =>
      n <- attr (@deep_q _ _ _ _ _) ;;
      nm <- gets (@name _ _ _ _ _) ;;
      let target := os_path_join p nm in
      modify (set_deep_q (Some (save_network target n))) ;;
      emit (EvSaveNetwork target)
  | None => ret tt
  end.

Definition set_chunk (nb : Z) : M world unit :=
  e <- gets (@env _ _ _ _ _) ;;
  let size := Z.max 100 nb in
  modify (set_env (env_set_chunk_size size e)) ;; emit (EvSetChunk size).

Definition _convert_all_act (act_as_integer : list Z) : list Action :=
  map convert_act act_as_integer.

Definition _reset_process_buffer : M world unit :=
  modify (set_process_buffer []).

Definition _need_reset (observation_num epoch_num : Z) (done : bool) : M world Z :=
  if (done || (observation_num =? 0))%bool then
    _reset_process_buffer ;;
    obs <- call_env_reset ;;
    tmp_obs <- convert_obs obs ;;
    modify (fun w => set_process_buffer (process_buffer w ++ [tmp_obs]) w) ;;
    let epoch_num := epoch_num + 1 in
    e <- gets (@env _ _ _ _ _) ;;
    r <- py_mod epoch_num (env_subpaths_len e) ;;
    (if r =? 0 then call_env_shuffle else ret tt) ;;
    ret epoch_num
  else ret epoch_num.

Definition _init_replay_buffer : M world unit :=
  tp <- attr (@training_param _ _ _ _ _) ;;
  modify (set_replay_buffer (Some (rb_new (BUFFER_SIZE tp)))).

(** The result has shape [(1, n)]: one row.  [np.concatenate] refuses an empty
    list of arrays. *)
Definition _convert_process_buffer : M world (list (list F)) :=
  tp <- attr (@training_param _ _ _ _ _) ;;
  if negb (NUM_FRAMES tp =? 1) then
    raise (RuntimeError "This h_need_resetas not been tested with self.training_param.NUM_FRAMES != 1 for now")
  else
    pb <- gets (@process_buffer _ _ _ _ _) ;;
    match pb with
    | [] => raise ValueError
    | _ => ret [List.concat pb]
    end.

Definition _update_process_buffer (temp_observation_obj : Observation F) : M world unit :=
  o <- convert_obs temp_observation_obj ;;
  modify (fun w => set_process_buffer (process_buffer w ++ [o]) w).

(** [reshape(-1)] flattens the one-row matrices. *)
Definition _store_new_state (initial_state : list (list F)) (predict_movement_int : list Z)
    (reward : F) (done : bool) : M world unit :=
  new_state <- _convert_process_buffer ;;
  call_rb_add {| t_state := List.concat initial_state;
                 t_action := predict_movement_int;
                 t_reward := reward;
                 t_done := done;
                 t_next_state := List.concat new_state |}.

Definition _next_move (curr_state : list (list F)) (epsilon : F)
  : M world (list Z * list F * ActArg Action) :=
  ' (pm_i, pq_v) <- call_predict_movement curr_state epsilon ;;
  let act := _convert_all_act pm_i in
  let act := match act with
             | [a] => OneAct a
             | _ => ActList act
             end in
  ret (pm_i, pq_v, act).

Definition _init_global_train_loop : Z * F := (0, num_zero).

Definition _update_loop (done : bool) (temp_reward : F) (temp_done : bool)
    (alive_frame : Z) (total_reward : F) (reward : F) : bool * F * F * Z :=
  let total_reward := num_add total_reward temp_reward in
  let done := temp_done in
  let alive_frame := alive_frame + 1 in
  let alive_frame := if done then 0 else alive_frame in
  (done, reward, total_reward, alive_frame).

Definition _init_local_train_loop : F * bool := (num_zero, false).

(** The six scalars written are means over slices of the two arrays; the event
    keeps the arguments they are computed from. *)
Definition _save_tensorboard (step epoch_num UPDATE_FREQ : Z)
    (epoch_rewards epoch_alive : list F) : M world unit :=
  tw <- gets (@tf_writer _ _ _ _ _) ;;
  match tw with
  | None => ret tt
  | Some _ =>
      r <- py_mod step UPDATE_FREQ ;;
      if r =? 0 then emit (EvTensorboard step epoch_num epoch_rewards epoch_alive)
      else ret tt
  end.

(** *** [train]

    The body of the [while] loop is cut into the blocks below, each named
    after what its lines do. *)

(** Lines 87-88. *)
Definition UPDATE_FREQ : Z := 100.
Definition SAVING_NUM : Z := 1000.

(** Lines 106-110: switch to chunked loading every thousandth pass. *)
Definition chunk_block (iterations observation_num : Z) : M world unit :=
  if observation_num mod 1000 =? 999 then
    q <- py_floordiv iterations observation_num ;;
    let tmp := Z.min (10000 * q) 10000 in
    set_chunk (Z.max 10 tmp)
  else ret tt.

(** Lines 116-117: the epsilon schedule.  True division raises on a zero
    divisor. *)
Definition decay_epsilon (tp : TrainingParam F) (epsilon : F) : M world F :=
  if num_gtb epsilon (FINAL_EPSILON tp) then
    if num_is_zero (EPSILON_DECAY tp) then raise ZeroDivisionError
    else ret (num_sub epsilon
                (num_quot (num_sub (INITIAL_EPSILON tp) (FINAL_EPSILON tp))
                          (EPSILON_DECAY tp)))
  else ret epsilon.

(** Lines 129-136: [for i in range(NUM_FRAMES)]. *)
Fixpoint frame_loop (n : nat) (act : ActArg Action) (st : bool * F * F * Z)
  : M world (bool * F * F * Z) :=
  match n with
  | O => ret st
  | S k =>
      ' (temp_observation_obj, temp_reward, temp_done) <- call_env_step act ;;
      _update_process_buffer temp_observation_obj ;;
      let '(done, reward, total_reward, alive_frame) := st in
      frame_loop k act
        (_update_loop done temp_reward temp_done alive_frame total_reward reward)
  end.

(** Lines 140-149: one learning step once the buffer is large enough; the
    result says whether the loop is left ([break]). *)
Definition learn_block (tp : TrainingParam F) (observation_num : Z) : M world bool :=
  size <- call_rb_size ;;
  if size >? MIN_OBSERVATION tp then
    batch <- call_rb_sample (MINIBATCH_SIZE tp) ;;
    loss <- call_train batch observation_num ;;
    call_target_train ;;
    ls <- attr (@losses _ _ _ _ _) ;;
    ls' <- np_setitem ls observation_num loss ;;
    modify (set_losses (Some ls')) ;;
    if negb (num_isfinite loss) then
      emit (EvPrint "ERROR INFINITE LOSS") ;; ret true
    else ret false
  else ret false.

(** Lines 152-154. *)
Definition save_block (iterations observation_num : Z)
    (save_path : option string) : M world unit :=
  if ((observation_num mod SAVING_NUM =? 0) || (observation_num =? iterations - 1))%bool then
    emit (EvPrint "Saving Network") ;;
    save save_path
  else ret tt.

(** Lines 157-159. *)
Definition epoch_block (alive_frame epoch_num : Z) (total_reward : F)
    (alive_frames total_rewards : list F) : M world (list F * list F) :=
  if negb (alive_frame =? 0) then
    alive_frames <- np_setitem alive_frames epoch_num (num_of_Z alive_frame) ;;
    total_rewards <- np_setitem total_rewards epoch_num total_reward ;;
    ret (alive_frames, total_rewards)
  else ret (alive_frames, total_rewards).

Definition loop_body (iterations : Z) (save_path : option string)
    (tp : TrainingParam F) (lv : Locals F) : M world (LoopCtl F) :=
  let observation_num := lv_observation_num lv in
  emit (EvIter observation_num) ;;
  chunk_block iterations observation_num ;;
  epoch_num <- _need_reset observation_num (lv_epoch_num lv) (lv_done lv) ;;
  epsilon <- decay_epsilon tp (lv_epsilon lv) ;;
  initial_state <- _convert_process_buffer ;;
  (if observation_num =? 0 then init_deep_q (Mat initial_state) else ret tt) ;;
  _reset_process_buffer ;;
  ' (pm_i, pq_v, act) <- _next_move initial_state epsilon ;;
  let '(reward, done) := _init_local_train_loop in
  ' (done, reward, total_reward, alive_frame) <-
      frame_loop (Z.to_nat (NUM_FRAMES tp)) act
        (done, reward, lv_total_reward lv, lv_alive_frame lv) ;;
  _store_new_state initial_state pm_i reward done ;;
  stop <- learn_block tp observation_num ;;
  if stop : bool then
    ret (Break {| lv_observation_num := observation_num; lv_epoch_num := epoch_num;
                  lv_epsilon := epsilon; lv_alive_frame := alive_frame;
                  lv_total_reward := total_reward; lv_reward := reward;
                  lv_done := done; lv_alive_frames := lv_alive_frames lv;
                  lv_total_rewards := lv_total_rewards lv |})
  else
    save_block iterations observation_num save_path ;;
    ' (alive_frames, total_rewards) <-
        epoch_block alive_frame epoch_num total_reward
          (lv_alive_frames lv) (lv_total_rewards lv) ;;
    _save_tensorboard observation_num epoch_num UPDATE_FREQ total_rewards alive_frames ;;
    ret (Continue {| lv_observation_num := observation_num + 1; lv_epoch_num := epoch_num;
                     lv_epsilon := epsilon; lv_alive_frame := alive_frame;
                     lv_total_reward := total_reward; lv_reward := reward;
                     lv_done := done; lv_alive_frames := alive_frames;
                     lv_total_rewards := total_rewards |}).

(** [while observation_num < iterations]: the counter grows by one per pass,
    so [iterations] passes of fuel are enough ([train_loop_fuel] below). *)
Fixpoint train_loop (fuel : nat) (iterations : Z) (save_path : option string)
    (tp : TrainingParam F) (lv : Locals F) : M world (Locals F) :=
  if lv_observation_num lv <? iterations then
    match fuel with
    | O => raise OutOfFuel
    | S fuel' =>
        r <- loop_body iterations save_path tp lv ;;
        match r with
        | Continue lv' => train_loop fuel' iterations save_path tp lv'
        | Break lv' => ret lv'
        end
    end
  else ret lv.

(** Lines 73-103: what [train] does before the loop; the result is the
    absolute save path and the loop's initial variables. *)
Definition train_prelude (iterations : Z) (save_path logdir : option string)
    (tp : TrainingParam F) : M world (option string * Locals F) :=
  modify (set_training_param (Some tp)) ;;
  _init_replay_buffer ;;
  save_path <- match save_path with
               | Some p =>
                   let p := os_path_abspath p in
                   emit (EvMakedirs p) ;; ret (Some p)
               | None => ret None
               end ;;
  nm <- gets (@name _ _ _ _ _) ;;
  modify (set_tf_writer (match logdir with
                         | Some d => Some (os_path_join d nm)
                         | None => None
                         end)) ;;
  let observation_num := 0 in
  let epsilon := INITIAL_EPSILON tp in
  let '(alive_frame, total_reward) := _init_global_train_loop in
  let '(reward, done) := _init_local_train_loop in
  let epoch_num := 0 in
  ls <- np_zeros iterations ;;
  modify (set_losses (Some ls)) ;;
  alive_frames <- np_zeros iterations ;;
  total_rewards <- np_zeros iterations ;;
  ret (save_path,
       {| lv_observation_num := observation_num; lv_epoch_num := epoch_num;
          lv_epsilon := epsilon; lv_alive_frame := alive_frame;
          lv_total_reward := total_reward; lv_reward := reward; lv_done := done;
          lv_alive_frames := alive_frames; lv_total_rewards := total_rewards |}).

Definition train (iterations : Z) (save_path logdir : option string)
    (tp : TrainingParam F) : M world (Locals F) :=
  ' (save_path, lv) <- train_prelude iterations save_path logdir tp ;;
  train_loop (Z.to_nat iterations) iterations save_path tp lv.

(** *** The passes of a run

    [passes] lists, for every pass through the loop body that a run of the
    loop makes, the variables and the world the pass starts from and how it
    ends.  It unfolds the loop exactly as [train_loop] does. *)
Record Pass : Type := {
  p_locals : Locals F;
  p_world : world;
  p_result : Res world (LoopCtl F)
}.

Fixpoint passes (fuel : nat) (iterations : Z) (save_path : option string)
    (tp : TrainingParam F) (lv : Locals F) (w : world) : list Pass :=
  if lv_observation_num lv <? iterations then
    match fuel with
    | O => []
    | S fuel' =>
        let r := loop_body iterations save_path tp lv w in
        {| p_locals := lv; p_world := w; p_result := r |}
        :: match r with
           | Ok (Continue lv') w' => passes fuel' iterations save_path tp lv' w'
           | _ => []
           end
    end
  else [].

(** The passes of [train] started in world [w]. *)
Definition train_passes (iterations : Z) (save_path logdir : option string)
    (tp : TrainingParam F) (w : world) : list Pass :=
  match train_prelude iterations save_path logdir tp w with
  | Ok (save_path, lv) w' => passes (Z.to_nat iterations) iterations save_path tp lv w'
  | Raise _ _ => []
  end.

(** The events a pass wrote: the part of the trace after the one it started
    with. *)
Definition p_events (p : Pass) : list event :=
  skipn (List.length (trace (p_world p))) (trace (world_of (p_result p))).

(** *** What the blocks of a pass write to the trace

    These lists state, block by block, the events a pass through the loop
    body appends; [loop_body_ok] proves that a pass that ends without an
    exception writes exactly them. *)

Definition chunk_size (iterations n : Z) : Z :=
  Z.max 100 (Z.max 10 (Z.min (10000 * (iterations / n)) 10000)).

Definition chunk_events (iterations n : Z) : list event :=
  if n mod 1000 =? 999 then [EvSetChunk (chunk_size iterations n)] else [].

(** The environment as [_need_reset] finds it. *)
Definition env_at_reset (iterations n : Z) (e : E) : E :=
  if n mod 1000 =? 999 then env_set_chunk_size (chunk_size iterations n) e else e.

Definition reset_events (done : bool) (n epoch_num len : Z) : list event :=
  if (done || (n =? 0))%bool
  then EvReset :: (if (epoch_num + 1) mod len =? 0 then [EvShuffle] else [])
  else [].

Definition init_events (n : Z) : list event :=
  if n =? 0 then [EvInitDeepQ] else [].

Definition learn_events (tp : TrainingParam F) (n size : Z)
    (batch : list (Transition F)) (loss : F) : list event :=
  if size >? MIN_OBSERVATION tp
  then [EvSample (MINIBATCH_SIZE tp); EvTrain batch n loss; EvTargetTrain]
       ++ (if num_isfinite loss then [] else [EvPrint "ERROR INFINITE LOSS"])
  else [].

Definition save_events (iterations n : Z) (save_path : option string) (nm : string)
  : list event :=
  if ((n mod SAVING_NUM =? 0) || (n =? iterations - 1))%bool
  then EvPrint "Saving Network"
       :: match save_path with
          | Some p => [EvSaveNetwork (os_path_join p nm)]
          | None => []
          end
  else [].

Definition tensorboard_events (writer : option string) (n epoch_num : Z)
    (epoch_rewards epoch_alive : list F) : list event :=
  match writer with
  | None => []
  | Some _ => if n mod UPDATE_FREQ =? 0
              then [EvTensorboard n epoch_num epoch_rewards epoch_alive]
              else []
  end.

(** Lines 116-117 as a function of the current epsilon, for a non-zero
    [EPSILON_DECAY]. *)
Definition epsilon_step (tp : TrainingParam F) (epsilon : F) : F :=
  if num_gtb epsilon (FINAL_EPSILON tp)
  then num_sub epsilon
         (num_quot (num_sub (INITIAL_EPSILON tp) (FINAL_EPSILON tp)) (EPSILON_DECAY tp))
  else epsilon.

(** Epsilon as pass number [k] (counting from 0) finds it. *)
Definition epsilon_at (tp : TrainingParam F) (k : nat) : F :=
  Nat.iter k (epsilon_step tp) (INITIAL_EPSILON tp).

(** What [_next_move] hands to [env.step]. *)
Definition act_of (pm_i : list Z) : ActArg Action :=
  match _convert_all_act pm_i with
  | [a] => OneAct a
  | l => ActList l
  end.

(** What a pass that returns has observed: the network's choice, the
    environment's answer to the one step, the record stored and the buffer
    it went into, the loss (if a training step ran) and the two epoch arrays
    the pass leaves. *)
Record PassData : Type := {
  pd_pm_i : list Z;
  pd_reward : F;
  pd_done : bool;
  pd_stored : Transition F;
  pd_buffer : B;
  pd_loss : F;
  pd_alive_frames : list F;
  pd_total_rewards : list F
}.

(** Whether the pass leaves the loop: a training step ran and its loss is not
    finite. *)
Definition pass_stop (tp : TrainingParam F) (pd : PassData) : bool :=
  ((rb_size (pd_buffer pd) >? MIN_OBSERVATION tp) && negb (num_isfinite (pd_loss pd)))%bool.

Definition pass_epoch (lv : Locals F) : Z :=
  if (lv_done lv || (lv_observation_num lv =? 0))%bool
  then lv_epoch_num lv + 1 else lv_epoch_num lv.

Definition pass_events (iterations : Z) (save_path : option string)
    (tp : TrainingParam F) (lv : Locals F) (w : world) (pd : PassData) : list event :=
  let n := lv_observation_num lv in
  EvIter n
  :: chunk_events iterations n
  ++ reset_events (lv_done lv) n (lv_epoch_num lv)
       (env_subpaths_len (snd (env_reset (env_at_reset iterations n (env w)))))
  ++ init_events n
  ++ [EvPredict (epsilon_step tp (lv_epsilon lv)) (pd_pm_i pd);
      EvStep (act_of (pd_pm_i pd)) (pd_reward pd) (pd_done pd);
      EvStore (pd_stored pd)]
  ++ learn_events tp n (rb_size (pd_buffer pd))
       (fst (rb_sample (MINIBATCH_SIZE tp) (pd_buffer pd))) (pd_loss pd)
  ++ (if pass_stop tp pd then []
      else save_events iterations n save_path (name w)
           ++ tensorboard_events (tf_writer w) n (pass_epoch lv)
                (pd_total_rewards pd) (pd_alive_frames pd)).

Definition pass_locals (tp : TrainingParam F) (lv : Locals F) (pd : PassData) : Locals F :=
  {| lv_observation_num := if pass_stop tp pd then lv_observation_num lv
                           else lv_observation_num lv + 1;
     lv_epoch_num := pass_epoch lv;
     lv_epsilon := epsilon_step tp (lv_epsilon lv);
     lv_alive_frame := if pd_done pd then 0 else lv_alive_frame lv + 1;
     lv_total_reward := num_add (lv_total_reward lv) (pd_reward pd);
     lv_reward := num_zero;
     lv_done := pd_done pd;
     lv_alive_frames := pd_alive_frames pd;
     lv_total_rewards := pd_total_rewards pd |}.

Definition pass_ctl (tp : TrainingParam F) (lv : Locals F) (pd : PassData) : LoopCtl F :=
  if pass_stop tp pd then Break (pass_locals tp lv pd) else Continue (pass_locals tp lv pd).

End Agent.

(** ** Collaborators for concrete runs *)

(** Modelled from the spec: the replay buffer, whose class is outside this
    file.  "Fixed-capacity collection of transition records; evicts oldest on
    overflow; sampled uniformly at random for minibatches", and "sampling
    never returns more items than stored".  The random choice is driven by a
    seed kept in the buffer: a sample is a run of distinct stored records
    starting at a seed-chosen position. *)
Record ReplayBuffer (F : Type) : Type := {
  rb_capacity : Z;
  rb_items : list (Transition F);
  rb_seed : nat
}.

Definition ReplayBuffer_add {F} (t : Transition F) (b : ReplayBuffer F) : ReplayBuffer F :=
  let items := if Z.of_nat (List.length (rb_items b)) <? rb_capacity b
               then rb_items b
               else tl (rb_items b) in
  {| rb_capacity := rb_capacity b; rb_items := items ++ [t]; rb_seed := rb_seed b |}.

Definition ReplayBuffer_sample {F} (batch_size : Z) (b : ReplayBuffer F)
  : list (Transition F) * ReplayBuffer F :=
  let n := List.length (rb_items b) in
  let k := Nat.min (Z.to_nat batch_size) n in
  let start := match n with O => O | _ => Nat.modulo (rb_seed b) n end in
  (firstn k (skipn start (rb_items b) ++ firstn start (rb_items b)),
   {| rb_capacity := rb_capacity b; rb_items := rb_items b;
      rb_seed := S (rb_seed b * 7) |}).

#[export] Instance ReplayBuffer_ops (F : Type) : ReplayBufferOps F (ReplayBuffer F) := {
  rb_new := fun size => {| rb_capacity := size; rb_items := []; rb_seed := O |};
  rb_add := ReplayBuffer_add;
  rb_size := fun b => Z.of_nat (List.length (rb_items b));
  rb_sample := ReplayBuffer_sample
}.

(** A scripted environment: [step] answers with the next (reward, done) pair
    of a script (and with reward zero, not done, once the script is used up);
    every observation is the same; [se_subpaths] chronics. *)
Record ScriptEnv (F : Type) : Type := {
  se_script : list (F * bool);
  se_obs : Observation F;
  se_subpaths : Z
}.

Definition ScriptEnv_step {F} `{PyNumber F} (e : ScriptEnv F)
  : (Observation F * F * bool) * ScriptEnv F :=
  match se_script e with
  | [] => (se_obs e, num_zero, false, e)
  | (r, d) :: rest =>
      (se_obs e, r, d,
       {| se_script := rest; se_obs := se_obs e; se_subpaths := se_subpaths e |})
  end.

#[export] Instance ScriptEnv_ops (F Action : Type) `{PyNumber F}
  : Environment F Action (ScriptEnv F) := {
  env_reset := fun e => (se_obs e, e);
  env_step := fun _ e => ScriptEnv_step e;
  env_set_chunk_size := fun _ e => e;
  env_subpaths_len := fun e => se_subpaths e;
  env_shuffle := fun e => e
}.

(** A scripted network: it always proposes action 0, and its training steps
    report the losses of a script (zero once the script is used up). *)
Record ScriptNet (F : Type) : Type := {
  sn_losses : list F
}.

Definition ScriptNet_train {F} `{PyNumber F} (n : ScriptNet F) : F * ScriptNet F :=
  match sn_losses n with
  | [] => (num_zero, n)
  | l :: rest => (l, {| sn_losses := rest |})
  end.

Definition ScriptNet_ops_with (F : Type) `{PyNumber F} (losses : list F)
  : QNetwork F (ScriptNet F) := {|
  init_network := fun _ => {| sn_losses := losses |};
  predict_movement := fun data _ n => (map (fun _ => 0) data, map (fun _ => num_zero) data, n);
  train_network := fun _ _ n => ScriptNet_train n;
  target_train := fun n => n;
  save_network := fun _ n => n;
  load_network := fun _ n => n
|}.

(** Modelled from the spec: the network component's action selection, whose
    class is outside this file.  "Given a state vector and exploration rate
    epsilon, with probability epsilon choose a uniformly random discrete
    action index, otherwise choose the action maximizing the network's
    predicted value".  The network keeps its value function and the random
    draws still to come: a uniform draw from [0, 1) to compare with epsilon,
    and the random action index to use if the draw falls below it (no draw
    left: the greedy action). *)
Record EpsGreedyNet (F : Type) : Type := {
  eg_values : list F -> list F;
  eg_draws : list (F * Z)
}.

(** [np.argmax]: the first index of a largest value. *)
Fixpoint argmax_from {F} `{PyNumber F} (best : F) (best_i i : Z) (l : list F) : Z :=
  match l with
  | [] => best_i
  | x :: t => if num_gtb x best then argmax_from x i (i + 1) t
              else argmax_from best best_i (i + 1) t
  end.

Definition argmax {F} `{PyNumber F} (l : list F) : Z :=
  match l with
  | [] => 0
  | x :: t => argmax_from x 0 1 t
  end.

Fixpoint EpsGreedy_select {F} `{PyNumber F} (values : list F -> list F)
    (data : list (list F)) (epsilon : F) (draws : list (F * Z))
  : list Z * list (F * Z) :=
  match data with
  | [] => ([], draws)
  | row :: rest =>
      let choice := match draws with
                    | [] => argmax (values row)
                    | (u, a) :: _ => if num_gtb epsilon u then a else argmax (values row)
                    end in
      let '(more, draws') := EpsGreedy_select values rest epsilon (tl draws) in
      (choice :: more, draws')
  end.

Definition EpsGreedy_predict {F} `{PyNumber F} (data : list (list F)) (epsilon : F)
    (n : EpsGreedyNet F) : (list Z * list F) * EpsGreedyNet F :=
  let '(pm_i, draws') := EpsGreedy_select (eg_values n) data epsilon (eg_draws n) in
  (pm_i, List.concat (map (eg_values n) data),
   {| eg_values := eg_values n; eg_draws := draws' |}).

Definition EpsGreedy_ops (F : Type) `{PyNumber F} (n0 : EpsGreedyNet F)
  : QNetwork F (EpsGreedyNet F) := {|
  init_network := fun _ => n0;
  predict_movement := EpsGreedy_predict;
  train_network := fun _ _ n => (num_zero, n);
  target_train := fun n => n;
  save_network := fun _ n => n;
  load_network := fun _ n => n
|}.

(** ** Reading a trace *)

Section Reading.

Context {F Action : Type}.

(** The reward fields of the records handed to [replay_buffer.add]. *)
Fixpoint stored_rewards (evs : list (Event F Action)) : list F :=
  match evs with
  | [] => []
  | EvStore t :: rest => t_reward t :: stored_rewards rest
  | _ :: rest => stored_rewards rest
  end.

(** The rewards [env.step] returned. *)
Fixpoint step_rewards (evs : list (Event F Action)) : list F :=
  match evs with
  | [] => []
  | EvStep _ r _ :: rest => r :: step_rewards rest
  | _ :: rest => step_rewards rest
  end.

(** The [done] flag of the last [env.step] ([false] when there is none). *)
Fixpoint last_step_done (evs : list (Event F Action)) : bool :=
  match evs with
  | [] => false
  | EvStep _ _ d :: rest =>
      if existsb (fun e => match e with EvStep _ _ _ => true | _ => false end) rest
      then last_step_done rest else d
  | _ :: rest => last_step_done rest
  end.

(** The epsilons handed to [predict_movement]. *)
Fixpoint predict_epsilons (evs : list (Event F Action)) : list F :=
  match evs with
  | [] => []
  | EvPredict eps _ :: rest => eps :: predict_epsilons rest
  | _ :: rest => predict_epsilons rest
  end.

(** The events of the learning step: sampling, training, target update. *)
Definition is_learn_event (e : Event F Action) : bool :=
  match e with
  | EvSample _ | EvTrain _ _ _ | EvTargetTrain => true
  | _ => false
  end.

Definition is_save_event (e : Event F Action) : bool :=
  match e with
  | EvSaveNetwork _ => true
  | _ => false
  end.

(** The [done] flags [env.step] returned. *)
Fixpoint step_dones (evs : list (Event F Action)) : list bool :=
  match evs with
  | [] => []
  | EvStep _ _ d :: rest => d :: step_dones rest
  | _ :: rest => step_dones rest
  end.

(** The records handed to [replay_buffer.add]. *)
Fixpoint stored (evs : list (Event F Action)) : list (Transition F) :=
  match evs with
  | [] => []
  | EvStore t :: rest => t :: stored rest
  | _ :: rest => stored rest
  end.

Definition is_reset_event (e : Event F Action) : bool :=
  match e with
  | EvReset => true
  | _ => false
  end.

(** How many times [env.reset] was called. *)
Definition count_resets (evs : list (Event F Action)) : Z :=
  Z.of_nat (List.length (filter is_reset_event evs)).

(** The calls of one pass that make up the interaction with the environment:
    the prediction, the step, the store. *)
Definition is_interaction_event (e : Event F Action) : bool :=
  match e with
  | EvPredict _ _ | EvStep _ _ _ | EvStore _ => true
  | _ => false
  end.

(** The values of [observation_num] with which the body of the loop was
    entered. *)
Fixpoint iter_marks (evs : list (Event F Action)) : list Z :=
  match evs with
  | [] => []
  | EvIter n :: rest => n :: iter_marks rest
  | _ :: rest => iter_marks rest
  end.

Definition is_tensorboard_event (e : Event F Action) : bool :=
  match e with
  | EvTensorboard _ _ _ _ => true
  | _ => false
  end.

End Reading.

(** The number of flags at the head of a list that are [false]. *)
Fixpoint leading_alive (dones : list bool) : nat :=
  match dones with
  | false :: rest => S (leading_alive rest)
  | _ => O
  end.

(** The number of steps made since the last one that reported [done] (since
    the beginning when none did). *)
Definition steps_since_done (dones : list bool) : Z :=
  Z.of_nat (leading_alive (rev dones)).

(** [DeepQAgent.__init__] (lines 24-39), with the environment the agent will
    be trained on and an empty trace. *)
Definition DeepQAgent_init {F Action E N B : Type} (nm : string) (e : E)
  : World F Action E N B :=
  {| replay_buffer := None; deep_q := None; training_param := None;
     process_buffer := []; tf_writer := None; name := nm; losses := None;
     env := e; trace := [] |}.

(** ** Concrete runs, in binary64 *)

Definition demo_obs : Observation float :=
  {| rho := [0.5%float]; line_status := [true]; topo_vect := [1] |}.

Definition demo_param (min_observation : Z) (epsilon_decay : float)
  : TrainingParam float :=
  {| BUFFER_SIZE := 100; MINIBATCH_SIZE := 2; MIN_OBSERVATION := min_observation;
     INITIAL_EPSILON := 1%float; FINAL_EPSILON := 0%float;
     EPSILON_DECAY := epsilon_decay; NUM_FRAMES := 1 |}.

(** A freshly built agent called "DeepQAgent" and a scripted environment with
    [chronics] chronics. *)
Definition demo_world (script : list (float * bool)) (chronics : Z)
  : World float Z (ScriptEnv float) (ScriptNet float) (ReplayBuffer float) :=
  DeepQAgent_init "DeepQAgent"
    {| se_script := script; se_obs := demo_obs; se_subpaths := chronics |}.

(** [train] on that world with a scripted network; actions are their own
    indices and paths are already absolute. *)
Definition demo_train (script : list (float * bool)) (chronics : Z) (losses : list float)
    (iterations : Z) (save_path : option string) (tp : TrainingParam float)
  : Res (World float Z (ScriptEnv float) (ScriptNet float) (ReplayBuffer float))
        (Locals float) :=
  @train float _ Z _ _ _ (@ScriptEnv_ops float Z _) (@ScriptNet_ops_with float _ losses) _
    (fun i => i) (fun path => path) iterations save_path None tp
    (demo_world script chronics).

Definition demo_trace (script : list (float * bool)) (chronics : Z) (losses : list float)
    (iterations : Z) (save_path : option string) (tp : TrainingParam float)
  : list (Event float Z) :=
  trace (world_of (demo_train script chronics losses iterations save_path tp)).

Definition demo_passes (script : list (float * bool)) (chronics : Z) (losses : list float)
    (iterations : Z) (save_path : option string) (tp : TrainingParam float)
  : list (@Pass float Z (ScriptEnv float) (ScriptNet float) (ReplayBuffer float)) :=
  @train_passes float _ Z _ _ _ (@ScriptEnv_ops float Z _) (@ScriptNet_ops_with float _ losses) _
    (fun i => i) (fun path => path) iterations save_path None tp
    (demo_world script chronics).

(** The same run, logging to a directory. *)
Definition demo_passes_logged (script : list (float * bool)) (chronics : Z)
    (losses : list float) (iterations : Z) (logdir : option string) (tp : TrainingParam float)
  : list (@Pass float Z (ScriptEnv float) (ScriptNet float) (ReplayBuffer float)) :=
  @train_passes float _ Z _ _ _ (@ScriptEnv_ops float Z _) (@ScriptNet_ops_with float _ losses) _
    (fun i => i) (fun path => path) iterations None logdir tp
    (demo_world script chronics).

(** A configuration that asks for four frames per pass. *)
Definition four_frames_param : TrainingParam float :=
  {| BUFFER_SIZE := 100; MINIBATCH_SIZE := 2; MIN_OBSERVATION := 50;
     INITIAL_EPSILON := 1%float; FINAL_EPSILON := 0%float;
     EPSILON_DECAY := 3%float; NUM_FRAMES := 4 |}.

(** Whether a computation ended without an exception. *)
Definition returns {W A} (r : Res W A) : bool :=
  match r with Ok _ _ => true | Raise _ _ => false end.

(** An epsilon-greedy network that values three actions 1.0, 3.0 and 2.0 and
    whose next draw is 0.25 (with random action 2). *)
Definition greedy_net : EpsGreedyNet float :=
  {| eg_values := fun _ => [1%float; 3%float; 2%float];
     eg_draws := [(0.25%float, 2)] |}.

(** ** Relating the world before and after

    [stable R c]: wherever [c] is run and however it ends, the world it
    leaves is related by [R] to the one it started in. *)
Definition stable {W : Type} (R : W -> W -> Prop) {A : Type} (c : M W A) : Prop :=
  forall w, R w (world_of (c w)).

(** The trace only grows, by events of a given kind. *)
Definition grows {F Action E N B : Type} (K : Event F Action -> Prop)
    (w w' : World F Action E N B) : Prop :=
  exists evs, trace w' = trace w ++ evs /\ Forall K evs.

(** The configuration of the agent is the same in two worlds; and so is its
    replay buffer. *)
Definition same_cfg {F Action E N B : Type} (w w' : World F Action E N B) : Prop :=
  name w' = name w /\ training_param w' = training_param w /\ tf_writer w' = tf_writer w.

Definition same_cfg_buffer {F Action E N B : Type} (w w' : World F Action E N B) : Prop :=
  same_cfg w w' /\ replay_buffer w' = replay_buffer w.

(** ** Reading a run of [train] *)

(** What a run has written to the trace before a pass starts; [w] is the
    world [train] was called in. *)
Definition events_before {F Action E N B : Type} (w : World F Action E N B)
    (p : @Pass F Action E N B) : list (Event F Action) :=
  skipn (List.length (trace w)) (trace (p_world p)).

(** The process buffer is the same in two worlds. *)
Definition same_process_buffer {F Action E N B : Type} (w w' : World F Action E N B) : Prop :=
  process_buffer w' = process_buffer w.

(** What holds whenever the condition of the [while] loop is tested in a run
    of [train] that was started in world [w]: [k] passes have been made,
    [evs] is what the run has written so far, and the counters say what
    happened in it. *)
Definition loop_head {F : Type} `{PyNumber F} {Action E N B : Type}
    (iterations : Z) (logdir : option string) (tp : TrainingParam F)
    (w : World F Action E N B) (k : nat) (lv : Locals F) (w1 : World F Action E N B)
  : Prop :=
  exists evs,
    trace w1 = trace w ++ evs /\
    training_param w1 = Some tp /\
    lv_observation_num lv = Z.of_nat k /\
    lv_total_reward lv = fold_left num_add (step_rewards evs) num_zero /\
    lv_alive_frame lv = steps_since_done (step_dones evs) /\
    lv_epoch_num lv = count_resets evs /\
    (1 <= Z.of_nat k -> 1 <= lv_epoch_num lv) /\
    List.length (lv_alive_frames lv) = Z.to_nat iterations /\
    List.length (lv_total_rewards lv) = Z.to_nat iterations /\
    nth_error (lv_alive_frames lv) 0 = Some num_zero /\
    nth_error (lv_total_rewards lv) 0 = Some num_zero /\
    tf_writer w1 = option_map (fun d => os_path_join d (name w)) logdir /\
    exists ls, losses w1 = Some ls /\ List.length ls = Z.to_nat iterations.

(** Events other than a training step. *)
Definition not_train {F Action : Type} (e : Event F Action) : Prop :=
  match e with
  | EvTrain _ _ _ => False
  | _ => True
  end.

(** From one world to the other [self.losses] is untouched and no training
    step is made. *)
Definition quiet {F Action E N B : Type} (w w' : World F Action E N B) : Prop :=
  losses w' = losses w /\ grows not_train w w'.

(** What the pass of index [n] may write of saves and of logs, for an agent
    called [nm] whose tensorboard writer is [tw]: a save only when [n] is a
    multiple of 1000 or [iterations - 1], to the join of the save path and
    the name; a log only when there is a writer and [n] is a multiple of 100,
    with [n] as its step. *)
Definition may_write {F Action : Type} (iterations n : Z) (save_path : option string)
    (nm : string) (tw : option string) (e : Event F Action) : Prop :=
  match e with
  | EvSaveNetwork path =>
      (n mod 1000 = 0 \/ n = iterations - 1) /\
      exists sp, save_path = Some sp /\ path = os_path_join sp nm
  | EvTensorboard step _ _ _ => tw <> None /\ n mod 100 = 0 /\ step = n
  | _ => True
  end.

(** From one world to the other the agent keeps its name and its writer, and
    the trace grows by events that [may_write] allows. *)
Definition writes_only {F Action E N B : Type} (iterations n : Z)
    (save_path : option string) (w w' : World F Action E N B) : Prop :=
  name w' = name w /\ tf_writer w' = tf_writer w /\
  exists evs, trace w' = trace w ++ evs /\
              Forall (may_write iterations n save_path (name w) (tf_writer w)) evs.

(** * Facts *)

(** ** How computations move the world

    For a preorder [R], [stable R] is closed under sequencing, which is all
    the proofs below need to carry a fact across the blocks of the loop
    body. *)

Section Stable.

Context {W : Type}.
Variable R : W -> W -> Prop.
Hypothesis R_refl : forall w, R w w.
Hypothesis R_trans : forall a b c, R a b -> R b c -> R a c.

Lemma stable_ret {A} (a : A) : stable R (ret a).
Proof. intro w; apply R_refl. Qed.

Lemma stable_raise {A} (e : exn) : stable R (@raise W A e).
Proof. intro w; apply R_refl. Qed.

Lemma stable_gets {A} (f : W -> A) : stable R (gets f).
Proof. intro w; apply R_refl. Qed.

Lemma stable_modify (f : W -> W) : (forall w, R w (f w)) -> stable R (modify f).
Proof. intros H w; apply H. Qed.

Lemma stable_bind {A B} (c : M W A) (k : A -> M W B) :
  stable R c -> (forall a, stable R (k a)) -> stable R (bind c k).
Proof.
  intros Hc Hk w. unfold bind.
  specialize (Hc w). destruct (c w) as [a w1 | e w1]; simpl in *.
  - eapply R_trans; [exact Hc | apply Hk].
  - exact Hc.
Qed.

Lemma stable_py_mod (a b : Z) : stable R (py_mod a b).
Proof. unfold py_mod; destruct (b =? 0); [apply stable_raise | apply stable_ret]. Qed.

Lemma stable_py_floordiv (a b : Z) : stable R (py_floordiv a b).
Proof. unfold py_floordiv; destruct (b =? 0); [apply stable_raise | apply stable_ret]. Qed.

Lemma stable_np_setitem {A} (arr : list A) (i : Z) (v : A) : stable R (np_setitem arr i v).
Proof.
  unfold np_setitem.
  destruct ((0 <=? i) && (i <? Z.of_nat (List.length arr)))%bool; [apply stable_ret |].
  destruct ((- Z.of_nat (List.length arr) <=? i) && (i <? 0))%bool;
    [apply stable_ret | apply stable_raise].
Qed.

Lemma stable_py_int (a : list Z) : stable R (py_int a).
Proof.
  unfold py_int. destruct a as [| x [| y t]];
    [apply stable_raise | apply stable_ret | apply stable_raise].
Qed.

End Stable.

Lemma grows_refl {F Action E N B} (K : Event F Action -> Prop) (w : World F Action E N B) :
  grows K w w.
Proof. exists []; split; [now rewrite app_nil_r | constructor]. Qed.

Lemma grows_trans {F Action E N B} (K : Event F Action -> Prop)
    (a b c : World F Action E N B) :
  grows K a b -> grows K b c -> grows K a c.
Proof.
  intros [e1 [H1 F1]] [e2 [H2 F2]]. exists (e1 ++ e2). split.
  - now rewrite H2, H1, app_assoc.
  - apply Forall_app; split; assumption.
Qed.

Lemma grows_emit {F Action E N B} (K : Event F Action -> Prop)
    (e : Event F Action) (w : World F Action E N B) :
  K e -> grows K w (set_trace (trace w ++ [e]) w).
Proof. intro H. exists [e]. split; [reflexivity | auto]. Qed.

Lemma grows_same {F Action E N B} (K : Event F Action -> Prop)
    (w w' : World F Action E N B) :
  trace w' = trace w -> grows K w w'.
Proof. intro H. exists []. split; [now rewrite app_nil_r | constructor]. Qed.

Ltac grows_solve :=
  cbv beta; first [ apply grows_same; reflexivity | apply grows_emit; simpl; tauto ].

Lemma bind_ok_inv {W A C} (c : M W A) (k : A -> M W C) (w w' : W) (b : C) :
  bind c k w = Ok b w' -> exists a w1, c w = Ok a w1 /\ k a w1 = Ok b w'.
Proof.
  unfold bind. destruct (c w) as [a w1 | e w1]; [| discriminate].
  intro H. exists a, w1. auto.
Qed.

Lemma skipn_app_exact {A} (l evs : list A) : skipn (List.length l) (l ++ evs) = evs.
Proof. induction l; simpl; auto. Qed.

(** One step of a stability proof: split a sequence, close a primitive, or
    open a block; [solveR] settles the relation at an attribute write. *)
Ltac stable_step Hr Ht solveR :=
  lazymatch goal with
  | |- stable _ (ret _) => apply (stable_ret _ Hr)
  | |- stable _ (raise _) => apply (stable_raise _ Hr)
  | |- stable _ (gets _) => apply (stable_gets _ Hr)
  | |- stable _ (py_mod _ _) => apply (stable_py_mod _ Hr)
  | |- stable _ (py_floordiv _ _) => apply (stable_py_floordiv _ Hr)
  | |- stable _ (np_setitem _ _ _) => apply (stable_np_setitem _ Hr)
  | |- stable _ (py_int _) => apply (stable_py_int _ Hr)
  | |- stable _ (bind _ _) => apply (stable_bind Ht); [ | intro ]
  | |- stable _ (modify _) => apply stable_modify; intro; solveR
  | |- stable _ (if ?b then _ else _) => destruct b
  | |- stable _ (match ?x with _ => _ end) => destruct x
  | |- stable _ _ =>
      progress unfold emit, attr, np_zeros,
        call_env_reset, call_env_step, call_env_shuffle, call_predict_movement,
        call_train, call_target_train, call_rb_add, call_rb_size, call_rb_sample,
        init_deep_q, convert_obs, save, set_chunk, _reset_process_buffer,
        _need_reset, _init_replay_buffer, _convert_process_buffer,
        _update_process_buffer, _store_new_state, _next_move, _save_tensorboard,
        chunk_block, decay_epsilon, learn_block, save_block, epoch_block
  end.

Ltac stable_tac Hr Ht solveR := repeat (stable_step Hr Ht solveR).

Section AgentFacts.

Context {F : Type} {num : PyNumber F}.
Context {Action E N B : Type}.
Context {env_ops : Environment F Action E}.
Context {net_ops : QNetwork F N}.
Context {rb_ops : ReplayBufferOps F B}.
Variable convert_act : Z -> Action.
Variable os_path_abspath : string -> string.

Local Abbreviation world := (World F Action E N B).
Local Abbreviation event := (Event F Action).
Local Open Scope monad_scope.

(** Every block of the loop body only appends to the trace. *)
Lemma frame_loop_grows (n : nat) (act : ActArg Action) (st : bool * F * F * Z) :
  stable (@grows F Action E N B (fun _ => True)) (frame_loop n act st).
Proof.
  revert st. induction n as [| n IH]; intro st; simpl.
  - apply stable_ret, grows_refl.
  - stable_tac (@grows_refl F Action E N B (fun _ => True))
               (@grows_trans F Action E N B (fun _ => True))
               grows_solve.
    apply IH.
Qed.

Lemma loop_body_grows (iterations : Z) (save_path : option string)
    (tp : TrainingParam F) (lv : Locals F) :
  stable (@grows F Action E N B (fun _ => True))
         (loop_body convert_act iterations save_path tp lv).
Proof.
  unfold loop_body.
  stable_tac (@grows_refl F Action E N B (fun _ => True))
             (@grows_trans F Action E N B (fun _ => True))
             grows_solve.
  all: apply frame_loop_grows.
Qed.

(** *** Block by block: what a block that returns has done *)

Ltac wsimpl :=
  cbn [trace env replay_buffer deep_q training_param process_buffer tf_writer name losses
       set_trace set_env set_deep_q set_replay_buffer set_process_buffer set_losses
       set_tf_writer set_training_param world_of fst snd] in *.

(** Run a computation that is known to return: open its binds and split on
    every scrutinee, innermost first, dropping the branches that raise. *)
Ltac run_inv H :=
  unfold bind, ret, raise, gets, modify in H; wsimpl;
  repeat match type of H with
         | context [match ?x with _ => _ end] =>
             lazymatch x with
             | context [match _ with _ => _ end] => fail
             | _ => destruct x eqn:?; try discriminate H; wsimpl
             end
         end;
  try (inversion H; subst; clear H);
  repeat match goal with
         | E : Some _ = Some _ |- _ => injection E as E; subst
         end;
  wsimpl.

Ltac run_done :=
  repeat (progress (repeat match goal with
                           | E : ?x = _ |- context [?x] => rewrite E
                           end; wsimpl));
  rewrite <- ?app_assoc, ?app_nil_r; auto.

Lemma chunk_block_ok (iterations n : Z) (w w2 : world) (u : unit) :
  chunk_block iterations n w = Ok u w2 ->
  trace w2 = trace w ++ chunk_events iterations n /\
  env w2 = env_at_reset iterations n (env w).
Proof.
  unfold chunk_block, chunk_events, env_at_reset, chunk_size, set_chunk, py_floordiv, emit.
  intro H. run_inv H; run_done.
Qed.

Lemma _need_reset_ok (n ep : Z) (d : bool) (w w3 : world) (ep' : Z) :
  _need_reset n ep d w = Ok ep' w3 ->
  ep' = (if (d || (n =? 0))%bool then ep + 1 else ep) /\
  trace w3 = trace w ++
    reset_events d n ep (env_subpaths_len (snd (env_reset (env w)))) /\
  ((d || (n =? 0))%bool = true ->
   process_buffer w3 = [obs_vector (fst (env_reset (env w)))]).
Proof.
  unfold _need_reset, reset_events, _reset_process_buffer, call_env_reset, call_env_shuffle,
    convert_obs, obs_vector, py_mod, emit.
  intro H. run_inv H; run_done.
  all: repeat split; auto; discriminate.
Qed.

Lemma decay_epsilon_ok (tp : TrainingParam F) (eps eps' : F) (w w4 : world) :
  decay_epsilon tp eps w = Ok eps' w4 ->
  w4 = w /\ eps' = epsilon_step tp eps.
Proof.
  unfold decay_epsilon, epsilon_step. intro H. run_inv H; run_done.
Qed.

Lemma _convert_process_buffer_ok (w w5 : world) (st : list (list F)) :
  _convert_process_buffer w = Ok st w5 ->
  w5 = w /\ st = [List.concat (process_buffer w)] /\ process_buffer w <> [] /\
  exists tp0, training_param w = Some tp0 /\ NUM_FRAMES tp0 = 1.
Proof.
  unfold _convert_process_buffer, attr. intro H. run_inv H.
  all: repeat split; try congruence.
  all: eexists; split; [reflexivity |].
  all: match goal with E : negb _ = false |- _ => apply negb_false_iff, Z.eqb_eq in E; exact E end.
Qed.

Lemma init_block_ok (n : Z) (x : ndarray F) (w w6 : world) (u : unit) :
  (if n =? 0 then init_deep_q x else ret tt) w = Ok u w6 ->
  trace w6 = trace w ++ init_events n.
Proof.
  unfold init_events, init_deep_q, emit. intro H.
  destruct (n =? 0); run_inv H; run_done.
Qed.

Lemma _next_move_ok (st : list (list F)) (eps : F) (w w8 : world)
    (pm_i : list Z) (pq_v : list F) (act : ActArg Action) :
  _next_move convert_act st eps w = Ok (pm_i, pq_v, act) w8 ->
  trace w8 = trace w ++ [EvPredict eps pm_i] /\ act = act_of convert_act pm_i.
Proof.
  unfold _next_move, act_of, call_predict_movement, attr, emit. intro H.
  run_inv H; run_done.
Qed.

Lemma _store_new_state_ok (st : list (list F)) (pm_i : list Z) (r : F) (d : bool)
    (w w10 : world) (u : unit) :
  _store_new_state st pm_i r d w = Ok u w10 ->
  exists b t,
    replay_buffer w = Some b /\ replay_buffer w10 = Some (rb_add t b) /\
    trace w10 = trace w ++ [EvStore t] /\
    t_state t = List.concat st /\ t_action t = pm_i /\ t_reward t = r /\ t_done t = d /\
    t_next_state t = List.concat (process_buffer w).
Proof.
  unfold _store_new_state, _convert_process_buffer, call_rb_add, attr, emit. intro H.
  run_inv H.
  all: eexists; eexists; repeat split; try reflexivity; simpl; rewrite ?app_nil_r; auto.
Qed.

Lemma learn_block_ok (tp : TrainingParam F) (n : Z) (w w11 : world) (stop : bool) :
  learn_block tp n w = Ok stop w11 ->
  exists b batch loss,
    replay_buffer w = Some b /\
    batch = fst (rb_sample (MINIBATCH_SIZE tp) b) /\
    trace w11 = trace w ++ learn_events tp n (rb_size b) batch loss /\
    stop = ((rb_size b >? MIN_OBSERVATION tp) && negb (num_isfinite loss))%bool.
Proof.
  unfold learn_block, learn_events, call_rb_size, call_rb_sample, call_train,
    call_target_train, np_setitem, attr, emit. intro H.
  run_inv H.
  all: repeat match goal with
              | E : negb _ = true |- _ => apply negb_true_iff in E
              | E : negb _ = false |- _ => apply negb_false_iff in E
              end.
  all: match goal with
       | E : train_network ?l _ _ = (?f, _) |- _ => eexists; exists l, f
       | _ => eexists; eexists; exists num_zero
       end.
  all: split; [reflexivity |]; split; [run_done |]; run_done.
Qed.

Lemma save_block_ok (iterations n : Z) (sp : option string) (w w12 : world) (u : unit) :
  save_block iterations n sp w = Ok u w12 ->
  trace w12 = trace w ++ save_events iterations n sp (name w).
Proof.
  unfold save_block, save_events, save, attr, emit. intro H.
  run_inv H; run_done.
Qed.

Lemma epoch_block_ok (af ep : Z) (tr : F) (l1 l2 : list F) (w w13 : world)
    (r : list F * list F) :
  epoch_block af ep tr l1 l2 w = Ok r w13 -> w13 = w.
Proof.
  unfold epoch_block, np_setitem. intro H. run_inv H; reflexivity.
Qed.

Lemma _save_tensorboard_ok (n ep : Z) (l1 l2 : list F) (w w14 : world) (u : unit) :
  _save_tensorboard n ep UPDATE_FREQ l1 l2 w = Ok u w14 ->
  trace w14 = trace w ++ tensorboard_events (tf_writer w) n ep l1 l2.
Proof.
  unfold _save_tensorboard, tensorboard_events, py_mod, emit. intro H.
  run_inv H; run_done.
Qed.

(** [reward] goes through the frame loop untouched; with one frame the loop
    makes one step and takes [done] from it. *)
Lemma frame_loop_reward (k : nat) (act : ActArg Action) (d0 d : bool) (r0 r t0 t : F)
    (a0 a : Z) (w w9 : world) :
  frame_loop k act (d0, r0, t0, a0) w = Ok (d, r, t, a) w9 -> r = r0.
Proof.
  revert d0 t0 a0 w. induction k as [| k IH]; intros d0 t0 a0 w H; simpl in H.
  - inversion H; reflexivity.
  - unfold call_env_step, _update_process_buffer, convert_obs, _update_loop, emit in H.
    unfold bind, ret, gets, modify in H.
    destruct (env_step act (env w)) as [[[o tr] td] e'].
    apply IH in H. exact H.
Qed.

Lemma frame_loop_one (act : ActArg Action) (d0 d : bool) (r0 r t0 t : F)
    (a0 a : Z) (w w9 : world) :
  frame_loop 1 act (d0, r0, t0, a0) w = Ok (d, r, t, a) w9 ->
  exists temp_reward,
    trace w9 = trace w ++ [EvStep act temp_reward d] /\
    temp_reward = snd (fst (fst (env_step act (env w)))) /\
    d = snd (fst (env_step act (env w))) /\
    r = r0 /\ t = num_add t0 temp_reward /\ a = (if d then 0 else a0 + 1) /\
    replay_buffer w9 = replay_buffer w /\ name w9 = name w /\
    training_param w9 = training_param w /\ tf_writer w9 = tf_writer w.
Proof.
  simpl. unfold call_env_step, _update_process_buffer, convert_obs, _update_loop, emit.
  intro H. run_inv H; eexists; repeat split; reflexivity.
Qed.
(** *** Attributes a pass leaves alone *)

Lemma same_cfg_refl (w : world) : same_cfg w w.
Proof. repeat split. Qed.

Lemma same_cfg_trans (a b c : world) : same_cfg a b -> same_cfg b c -> same_cfg a c.
Proof. unfold same_cfg. intuition congruence. Qed.

Lemma same_cfg_buffer_refl (w : world) : same_cfg_buffer w w.
Proof. repeat split. Qed.

Lemma same_cfg_buffer_trans (a b c : world) :
  same_cfg_buffer a b -> same_cfg_buffer b c -> same_cfg_buffer a c.
Proof. unfold same_cfg_buffer, same_cfg. intuition congruence. Qed.

Lemma stable_ok {A} {R : world -> world -> Prop} {c : M world A} {w w' : world} {a : A} :
  stable R c -> c w = Ok a w' -> R w w'.
Proof. intros H Hc. specialize (H w). rewrite Hc in H. exact H. Qed.

Ltac cfg_tac := stable_tac same_cfg_refl same_cfg_trans ltac:(repeat split; reflexivity).
Ltac cfgb_tac :=
  stable_tac same_cfg_buffer_refl same_cfg_buffer_trans ltac:(repeat split; reflexivity).

Lemma frame_loop_cfg (k : nat) (act : ActArg Action) (st : bool * F * F * Z) :
  stable (@same_cfg_buffer F Action E N B) (frame_loop k act st).
Proof.
  revert st. induction k as [| k IH]; intro st; simpl.
  - apply stable_ret, same_cfg_buffer_refl.
  - cfgb_tac. apply IH.
Qed.

(** Up to the store, a pass touches neither the configuration nor the replay
    buffer. *)
Lemma chunk_block_cfg (iterations n : Z) : stable (@same_cfg_buffer F Action E N B) (chunk_block iterations n).
Proof. cfgb_tac. Qed.

Lemma _need_reset_cfg (n ep : Z) (d : bool) : stable (@same_cfg_buffer F Action E N B) (_need_reset n ep d).
Proof. cfgb_tac. Qed.

Lemma init_block_cfg (n : Z) (x : ndarray F) :
  stable (@same_cfg_buffer F Action E N B) (if n =? 0 then init_deep_q x else ret tt).
Proof. cfgb_tac. Qed.

Lemma _reset_process_buffer_cfg : stable (@same_cfg_buffer F Action E N B) (@_reset_process_buffer F Action E N B).
Proof. cfgb_tac. Qed.

Lemma _next_move_cfg (st : list (list F)) (eps : F) :
  stable (@same_cfg_buffer F Action E N B) (_next_move convert_act st eps).
Proof. cfgb_tac. Qed.

Lemma _store_new_state_cfg (st : list (list F)) (pm_i : list Z) (r : F) (d : bool) :
  stable (@same_cfg F Action E N B) (_store_new_state st pm_i r d).
Proof. cfg_tac. Qed.

Lemma learn_block_cfg (tp : TrainingParam F) (n : Z) : stable (@same_cfg F Action E N B) (learn_block tp n).
Proof. cfg_tac. Qed.

Lemma save_block_cfg (iterations n : Z) (sp : option string) :
  stable (@same_cfg F Action E N B) (save_block iterations n sp).
Proof. cfg_tac. Qed.

Lemma loop_body_cfg (iterations : Z) (save_path : option string)
    (tp : TrainingParam F) (lv : Locals F) :
  stable (@same_cfg F Action E N B) (loop_body convert_act iterations save_path tp lv).
Proof.
  unfold loop_body. cfg_tac.
  all: try (intro w0; apply (frame_loop_cfg _ _ _ w0)).
Qed.

(** *** A pass that returns

    With [self.training_param] the parameters the loop runs on (as [train]
    sets it), a pass that ends without an exception has made exactly one
    environment step, stored one record whose reward is the 0.0 that
    [_init_local_train_loop] gave, and written [pass_events]. *)
Lemma loop_body_ok (iterations : Z) (save_path : option string) (tp : TrainingParam F)
    (lv : Locals F) (w w' : world) (ctl : LoopCtl F) :
  training_param w = Some tp ->
  loop_body convert_act iterations save_path tp lv w = Ok ctl w' ->
  exists pd b0,
    NUM_FRAMES tp = 1 /\
    replay_buffer w = Some b0 /\
    pd_buffer pd = rb_add (pd_stored pd) b0 /\
    t_action (pd_stored pd) = pd_pm_i pd /\
    t_reward (pd_stored pd) = num_zero /\
    t_done (pd_stored pd) = pd_done pd /\
    ((lv_done lv || (lv_observation_num lv =? 0))%bool = true ->
     t_state (pd_stored pd) =
     obs_vector (fst (env_reset
                        (env_at_reset iterations (lv_observation_num lv) (env w))))) /\
    trace w' = trace w ++ pass_events convert_act iterations save_path tp lv w pd /\
    ctl = pass_ctl tp lv pd.
Proof.
  intros Htp H. unfold loop_body in H.
  apply bind_ok_inv in H as (u1 & w1 & H1 & H).
  apply bind_ok_inv in H as (u2 & w2 & H2 & H).
  apply bind_ok_inv in H as (ep' & w3 & H3 & H).
  apply bind_ok_inv in H as (eps & w4 & H4 & H).
  apply bind_ok_inv in H as (st & w5 & H5 & H).
  apply bind_ok_inv in H as (u6 & w6 & H6 & H).
  apply bind_ok_inv in H as (u7 & w7 & H7 & H).
  apply bind_ok_inv in H as ([[pm_i pq_v] act] & w8 & H8 & H).
  unfold _init_local_train_loop in H.
  apply bind_ok_inv in H as ([[[d r] tr] af] & w9 & H9 & H).
  apply bind_ok_inv in H as (u10 & w10 & H10 & H).
  apply bind_ok_inv in H as (stop & w11 & H11 & H).
  (* the blocks before the frame loop *)
  assert (E1 : w1 = set_trace (trace w ++ [EvIter (lv_observation_num lv)]) w)
    by (unfold emit, modify in H1; congruence).
  pose proof (stable_ok (chunk_block_cfg _ _) H2) as [[C2n [C2t C2w]] C2b].
  pose proof (stable_ok (_need_reset_cfg _ _ _) H3) as [[C3n [C3t C3w]] C3b].
  pose proof (stable_ok (init_block_cfg _ _) H6) as [[C6n [C6t C6w]] C6b].
  pose proof (stable_ok _reset_process_buffer_cfg H7) as [[C7n [C7t C7w]] C7b].
  pose proof (stable_ok (_next_move_cfg _ _) H8) as [[C8n [C8t C8w]] C8b].
  apply chunk_block_ok in H2 as [T2 V2].
  apply _need_reset_ok in H3 as (Hep & T3 & P3).
  apply decay_epsilon_ok in H4 as [E4 Heps].
  apply _convert_process_buffer_ok in H5 as (E5 & Hst & _ & tp0 & Htp0 & Hnf).
  apply init_block_ok in H6 as T6.
  assert (T7 : trace w7 = trace w6)
    by (unfold _reset_process_buffer, modify in H7; inversion H7; reflexivity).
  apply _next_move_ok in H8 as [T8 Hact].
  subst w1 w4 w5. wsimpl.
  assert (tp0 = tp) by congruence. subst tp0.
  rewrite Hnf in H9. change (Z.to_nat 1) with 1%nat in H9.
  apply frame_loop_one in H9
    as (temp_reward & T9 & _ & _ & Hr & Htr & Haf & C9b & C9n & C9t & C9w).
  pose proof (stable_ok (_store_new_state_cfg _ _ _ _) H10) as [C10n [C10t C10w]].
  pose proof (stable_ok (learn_block_cfg _ _) H11) as [C11n [C11t C11w]].
  apply _store_new_state_ok in H10
    as (b & t & Hb & Hb' & T10 & Hts & Hta & Htr' & Htd & _).
  apply learn_block_ok in H11 as (b1 & batch & loss & Hb1 & Hbatch & T11 & Hstop).
  assert (b1 = rb_add t b) by congruence. subst b1.
  assert (Hb0 : replay_buffer w = Some b) by congruence.
  assert (Hname : name w11 = name w) by congruence.
  assert (Hwriter : tf_writer w11 = tf_writer w) by congruence.
  destruct stop.
  - (* break *)
    unfold ret in H. inversion H; subst ctl w'. clear H.
    exists {| pd_pm_i := pm_i; pd_reward := temp_reward; pd_done := d; pd_stored := t;
              pd_buffer := rb_add t b; pd_loss := loss;
              pd_alive_frames := lv_alive_frames lv;
              pd_total_rewards := lv_total_rewards lv |}, b.
    unfold pass_events, pass_ctl, pass_locals, pass_stop, pass_epoch. cbn [pd_pm_i pd_reward pd_done pd_stored pd_buffer pd_loss pd_alive_frames pd_total_rewards].
    rewrite <- Hstop.
    split; [exact Hnf |]. split; [exact Hb0 |]. split; [reflexivity |].
    split; [exact Hta |]. split; [congruence |]. split; [exact Htd |].
    split; [intro Hc; rewrite Hts, Hst, (P3 Hc), V2; simpl; rewrite !app_nil_r; reflexivity |].
    split.
    + rewrite T11, T10, T9, T8, T7, T6, T3, T2. wsimpl.
      rewrite V2. subst. rewrite <- !app_assoc, ?app_nil_r. cbn [app]. reflexivity.
    + subst. reflexivity.
  - (* the pass goes on *)
    apply bind_ok_inv in H as (u12 & w12 & H12 & H).
    apply bind_ok_inv in H as ([alive rewards] & w13 & H13 & H).
    apply bind_ok_inv in H as (u14 & w14 & H14 & H).
    pose proof (stable_ok (save_block_cfg _ _ _) H12) as [C12n [C12t C12w]].
    apply save_block_ok in H12 as T12.
    apply epoch_block_ok in H13 as E13. subst w13.
    apply _save_tensorboard_ok in H14 as T14.
    unfold ret in H. inversion H; subst ctl w'. clear H.
    exists {| pd_pm_i := pm_i; pd_reward := temp_reward; pd_done := d; pd_stored := t;
              pd_buffer := rb_add t b; pd_loss := loss;
              pd_alive_frames := alive; pd_total_rewards := rewards |}, b.
    unfold pass_events, pass_ctl, pass_locals, pass_stop, pass_epoch. cbn [pd_pm_i pd_reward pd_done pd_stored pd_buffer pd_loss pd_alive_frames pd_total_rewards].
    rewrite <- Hstop.
    split; [exact Hnf |]. split; [exact Hb0 |]. split; [reflexivity |].
    split; [exact Hta |]. split; [congruence |]. split; [exact Htd |].
    split; [intro Hc; rewrite Hts, Hst, (P3 Hc), V2; simpl; rewrite !app_nil_r; reflexivity |].
    split.
    + rewrite T14, T12, T11, T10, T9, T8, T7, T6, T3, T2. wsimpl.
      rewrite V2, C12w, Hwriter, Hname. subst. rewrite <- !app_assoc, ?app_nil_r. cbn [app]. reflexivity.
    + subst. reflexivity.
Qed.
(** *** The passes of a run *)

Lemma loop_body_continue_num (iterations : Z) (save_path : option string)
    (tp : TrainingParam F) (lv lv' : Locals F) (w w' : world) :
  loop_body convert_act iterations save_path tp lv w = Ok (Continue lv') w' ->
  lv_observation_num lv' = lv_observation_num lv + 1.
Proof.
  intro H. unfold loop_body in H.
  repeat (apply bind_ok_inv in H as (? & ? & _ & H);
          repeat match type of H with
                 | context [match ?x with _ => _ end] =>
                     lazymatch x with
                     | context [match _ with _ => _ end] => fail
                     | _ => is_var x; destruct x
                     end
                 end;
          unfold _init_local_train_loop in H).
  all: unfold ret in H; inversion H; reflexivity.
Qed.

(** Each pass is the loop body run on its own start, and the next pass
    starts where it handed over. *)
Lemma passes_result (fuel : nat) (iterations : Z) (save_path : option string)
    (tp : TrainingParam F) (lv : Locals F) (w : world) (p : Pass) :
  In p (passes convert_act fuel iterations save_path tp lv w) ->
  p_result p = loop_body convert_act iterations save_path tp (p_locals p) (p_world p) /\
  lv_observation_num (p_locals p) < iterations.
Proof.
  revert lv w. induction fuel as [| fuel IH]; intros lv w; simpl.
  - destruct (lv_observation_num lv <? iterations); intros [].
  - destruct (lv_observation_num lv <? iterations) eqn:G; [| intros []].
    intros [E0 | Hin].
    + subst p. simpl. split; [reflexivity | now apply Z.ltb_lt].
    + destruct (loop_body convert_act iterations save_path tp lv w) as [[lv' | lv'] w' | e w'];
        try contradiction.
      eapply IH; eassumption.
Qed.

Lemma passes_step (fuel : nat) (iterations : Z) (save_path : option string)
    (tp : TrainingParam F) (lv : Locals F) (w : world) (k : nat) (p q : Pass) :
  nth_error (passes convert_act fuel iterations save_path tp lv w) k = Some p ->
  nth_error (passes convert_act fuel iterations save_path tp lv w) (S k) = Some q ->
  p_result p = Ok (Continue (p_locals q)) (p_world q).
Proof.
  revert lv w k. induction fuel as [| fuel IH]; intros lv w k; simpl.
  - destruct (lv_observation_num lv <? iterations); destruct k; discriminate.
  - destruct (lv_observation_num lv <? iterations); [| destruct k; discriminate].
    destruct k as [| k]; simpl.
    + intros E0 E1. inversion E0; subst p; clear E0. simpl.
      destruct (loop_body convert_act iterations save_path tp lv w) as [[lv' | lv'] w' | e w'];
        try discriminate.
      destruct fuel as [| fuel]; simpl in E1.
      * destruct (lv_observation_num lv' <? iterations); discriminate.
      * destruct (lv_observation_num lv' <? iterations); [| discriminate].
        inversion E1; reflexivity.
    + destruct (loop_body convert_act iterations save_path tp lv w) as [[lv' | lv'] w' | e w'];
        try (destruct k; discriminate).
      apply IH.
Qed.

(** An invariant of the loop head holds at the start of every pass. *)
Lemma passes_invariant (I : nat -> Locals F -> world -> Prop)
    (iterations : Z) (save_path : option string) (tp : TrainingParam F) :
  (forall k lv w lv' w',
      I k lv w ->
      loop_body convert_act iterations save_path tp lv w = Ok (Continue lv') w' ->
      I (S k) lv' w') ->
  forall fuel lv w k0 k p,
    I k0 lv w ->
    nth_error (passes convert_act fuel iterations save_path tp lv w) k = Some p ->
    I (k0 + k)%nat (p_locals p) (p_world p).
Proof.
  intros Hstep. induction fuel as [| fuel IH]; intros lv w k0 k p H0; simpl.
  - destruct (lv_observation_num lv <? iterations); destruct k; discriminate.
  - destruct (lv_observation_num lv <? iterations); [| destruct k; discriminate].
    destruct k as [| k]; simpl.
    + intro E0. inversion E0; subst p. simpl. now rewrite Nat.add_0_r.
    + destruct (loop_body convert_act iterations save_path tp lv w)
        as [[lv' | lv'] w' | e w'] eqn:Hb; try (destruct k; discriminate).
      intro Hk. replace (k0 + S k)%nat with (S k0 + k)%nat by lia.
      eapply IH; [| exact Hk]. eapply Hstep; eassumption.
Qed.

(** The fuel [train] gives the loop is never the reason a run stops: one
    more unit of it changes nothing. *)
Lemma passes_fuel (fuel : nat) (iterations : Z) (save_path : option string)
    (tp : TrainingParam F) (lv : Locals F) (w : world) :
  iterations - lv_observation_num lv <= Z.of_nat fuel ->
  passes convert_act (S fuel) iterations save_path tp lv w
  = passes convert_act fuel iterations save_path tp lv w.
Proof.
  revert lv w. induction fuel as [| fuel IH]; intros lv w Hf.
  - simpl. destruct (lv_observation_num lv <? iterations) eqn:G; [| reflexivity].
    apply Z.ltb_lt in G. simpl in Hf. lia.
  - change (passes convert_act (S (S fuel)) iterations save_path tp lv w)
      with (if lv_observation_num lv <? iterations
            then {| p_locals := lv; p_world := w;
                    p_result := loop_body convert_act iterations save_path tp lv w |}
                 :: match loop_body convert_act iterations save_path tp lv w with
                    | Ok (Continue lv') w' =>
                        passes convert_act (S fuel) iterations save_path tp lv' w'
                    | _ => []
                    end
            else []).
    change (passes convert_act (S fuel) iterations save_path tp lv w)
      with (if lv_observation_num lv <? iterations
            then {| p_locals := lv; p_world := w;
                    p_result := loop_body convert_act iterations save_path tp lv w |}
                 :: match loop_body convert_act iterations save_path tp lv w with
                    | Ok (Continue lv') w' =>
                        passes convert_act fuel iterations save_path tp lv' w'
                    | _ => []
                    end
            else []).
    destruct (lv_observation_num lv <? iterations); [| reflexivity].
    destruct (loop_body convert_act iterations save_path tp lv w)
      as [[lv' | lv'] w' | e w'] eqn:Hb; try reflexivity.
    f_equal. apply IH. apply loop_body_continue_num in Hb. lia.
Qed.

Lemma train_loop_unfold (fuel : nat) (iterations : Z) (save_path : option string)
    (tp : TrainingParam F) (lv : Locals F) (w : world) :
  train_loop convert_act (S fuel) iterations save_path tp lv w
  = if lv_observation_num lv <? iterations
    then match loop_body convert_act iterations save_path tp lv w with
         | Ok (Continue lv') w' =>
             train_loop convert_act fuel iterations save_path tp lv' w'
         | Ok (Break lv') w' => Ok lv' w'
         | Raise e w' => Raise e w'
         end
    else Ok lv w.
Proof.
  simpl. unfold bind, ret.
  destruct (lv_observation_num lv <? iterations); [| reflexivity].
  destruct (loop_body convert_act iterations save_path tp lv w) as [[lv' | lv'] w' | e w'];
    reflexivity.
Qed.

Lemma train_loop_fuel (fuel : nat) (iterations : Z) (save_path : option string)
    (tp : TrainingParam F) (lv : Locals F) (w : world) :
  iterations - lv_observation_num lv <= Z.of_nat fuel ->
  train_loop convert_act (S fuel) iterations save_path tp lv w
  = train_loop convert_act fuel iterations save_path tp lv w.
Proof.
  revert lv w. induction fuel as [| fuel IH]; intros lv w Hf.
  - simpl. destruct (lv_observation_num lv <? iterations) eqn:G; [| reflexivity].
    apply Z.ltb_lt in G. simpl in Hf. lia.
  - rewrite (train_loop_unfold (S fuel)), (train_loop_unfold fuel).
    destruct (lv_observation_num lv <? iterations); [| reflexivity].
    destruct (loop_body convert_act iterations save_path tp lv w)
      as [[lv' | lv'] w' | e w'] eqn:Hb; try reflexivity.
    apply IH. apply loop_body_continue_num in Hb. lia.
Qed.

(** So the loop of [train], which starts at 0 with [iterations] units of
    fuel, behaves the same with any larger amount. *)
Lemma train_loop_enough_fuel (extra : nat) (iterations : Z) (save_path : option string)
    (tp : TrainingParam F) (lv : Locals F) (w : world) :
  lv_observation_num lv = 0 ->
  train_loop convert_act (Z.to_nat iterations + extra) iterations save_path tp lv w
  = train_loop convert_act (Z.to_nat iterations) iterations save_path tp lv w /\
  passes convert_act (Z.to_nat iterations + extra) iterations save_path tp lv w
  = passes convert_act (Z.to_nat iterations) iterations save_path tp lv w.
Proof.
  intro H0. induction extra as [| extra [IH1 IH2]].
  - rewrite Nat.add_0_r. split; reflexivity.
  - rewrite Nat.add_succ_r. split.
    + rewrite train_loop_fuel by lia. exact IH1.
    + rewrite passes_fuel by lia. exact IH2.
Qed.

Lemma last_default {A} (l : list A) (x d d' : A) : last (x :: l) d = last (x :: l) d'.
Proof.
  revert x. induction l as [| y l IH]; intro x; [reflexivity |].
  change (last (x :: y :: l) d) with (last (y :: l) d).
  change (last (x :: y :: l) d') with (last (y :: l) d').
  apply IH.
Qed.

Lemma last_cons {A} (l : list A) (x d : A) : last (x :: l) d = last l x.
Proof.
  destruct l as [| y l]; [reflexivity |].
  change (last (x :: y :: l) d) with (last (y :: l) d). apply last_default.
Qed.

(** [train_loop] ends in the world its last pass leaves. *)
Lemma train_loop_world (fuel : nat) (iterations : Z) (save_path : option string)
    (tp : TrainingParam F) (lv : Locals F) (w : world) :
  world_of (train_loop convert_act fuel iterations save_path tp lv w)
  = match passes convert_act fuel iterations save_path tp lv w with
    | [] => w
    | p :: ps => world_of (p_result (last ps p))
    end.
Proof.
  revert lv w. induction fuel as [| fuel IH]; intros lv w; simpl.
  - destruct (lv_observation_num lv <? iterations); reflexivity.
  - destruct (lv_observation_num lv <? iterations); [| reflexivity].
    unfold bind.
    destruct (loop_body convert_act iterations save_path tp lv w)
      as [[lv' | lv'] w' | e w'] eqn:Hb; try reflexivity.
    rewrite IH.
    destruct (passes convert_act fuel iterations save_path tp lv' w') as [| q qs] eqn:Hp.
    + reflexivity.
    + now rewrite last_cons.
Qed.
(** *** Runs of [train] *)

Lemma train_prelude_ok (iterations : Z) (save_path logdir : option string)
    (tp : TrainingParam F) (w w0 : world) (sp : option string) (lv : Locals F) :
  train_prelude os_path_abspath iterations save_path logdir tp w = Ok (sp, lv) w0 ->
  sp = option_map os_path_abspath save_path /\
  lv_observation_num lv = 0 /\ lv_epoch_num lv = 0 /\
  lv_epsilon lv = INITIAL_EPSILON tp /\ lv_done lv = false /\
  training_param w0 = Some tp /\ name w0 = name w /\
  replay_buffer w0 = Some (rb_new (BUFFER_SIZE tp)).
Proof.
  unfold train_prelude, _init_replay_buffer, np_zeros, attr, emit,
    _init_global_train_loop, _init_local_train_loop.
  intro H. run_inv H; repeat split; reflexivity.
Qed.

(** The state every pass of a run starts in. *)
Lemma train_passes_nth (iterations : Z) (save_path logdir : option string)
    (tp : TrainingParam F) (w : world) (k : nat) (p : Pass) :
  nth_error (train_passes convert_act os_path_abspath iterations save_path logdir tp w) k
  = Some p ->
  training_param (p_world p) = Some tp /\
  name (p_world p) = name w /\
  lv_observation_num (p_locals p) = Z.of_nat k /\
  lv_epsilon (p_locals p) = epsilon_at tp k /\
  (k = O -> lv_done (p_locals p) = false) /\
  Z.of_nat k < iterations /\
  p_result p = loop_body convert_act iterations (option_map os_path_abspath save_path) tp
                 (p_locals p) (p_world p).
Proof.
  unfold train_passes.
  destruct (train_prelude os_path_abspath iterations save_path logdir tp w)
    as [[sp lv] w0 | e w0] eqn:Hpre; [| destruct k; discriminate].
  apply train_prelude_ok in Hpre as (Hsp & Hn & _ & Heps & Hd & Htp & Hnm & _).
  subst sp. intro Hk.
  pose proof (nth_error_In _ _ Hk) as Hin.
  apply passes_result in Hin as [Hres Hlt].
  pose proof (passes_invariant
    (fun k lv w1 => training_param w1 = Some tp /\ name w1 = name w /\
                    lv_observation_num lv = Z.of_nat k /\
                    lv_epsilon lv = epsilon_at tp k)) as Hinv.
  specialize (Hinv iterations (option_map os_path_abspath save_path) tp).
  assert (Hstep : forall k lv w1 lv' w',
             (training_param w1 = Some tp /\ name w1 = name w /\
              lv_observation_num lv = Z.of_nat k /\ lv_epsilon lv = epsilon_at tp k) ->
             loop_body convert_act iterations (option_map os_path_abspath save_path) tp lv w1
             = Ok (Continue lv') w' ->
             training_param w' = Some tp /\ name w' = name w /\
             lv_observation_num lv' = Z.of_nat (S k) /\ lv_epsilon lv' = epsilon_at tp (S k)).
  { intros j lv1 w1 lv' w' (I1 & I2 & I3 & I4) Hb.
    pose proof (stable_ok (loop_body_cfg _ _ _ _) Hb) as (C1 & C2 & _).
    pose proof (loop_body_continue_num _ _ _ _ _ Hb) as Hnum.
    apply loop_body_ok in Hb as (pd & b0 & _ & _ & _ & _ & _ & _ & _ & _ & Hctl); [| exact I1].
    unfold pass_ctl in Hctl. destruct (pass_stop tp pd); [discriminate |].
    inversion Hctl; subst lv'. simpl.
    repeat split; try congruence.
    all: try (simpl in Hnum; lia).
    all: try (rewrite I4; reflexivity).
    }
  specialize (Hinv Hstep _ _ _ O k p (conj Htp (conj Hnm (conj Hn Heps))) Hk).
  simpl in Hinv. destruct Hinv as (J1 & J2 & J3 & J4).
  repeat split; auto.
  - intro Hk0. subst k.
    destruct (Z.to_nat iterations); simpl in Hk;
      destruct (lv_observation_num lv <? iterations); try discriminate.
    inversion Hk; subst p. exact Hd.
  - lia.
Qed.

(** A pass of a run that ends without an exception wrote [pass_events]. *)
Lemma train_pass_ok (iterations : Z) (save_path logdir : option string)
    (tp : TrainingParam F) (w : world) (k : nat) (p : Pass) (ctl : LoopCtl F) (w' : world) :
  nth_error (train_passes convert_act os_path_abspath iterations save_path logdir tp w) k
  = Some p ->
  p_result p = Ok ctl w' ->
  exists pd b0,
    NUM_FRAMES tp = 1 /\
    replay_buffer (p_world p) = Some b0 /\
    pd_buffer pd = rb_add (pd_stored pd) b0 /\
    t_action (pd_stored pd) = pd_pm_i pd /\
    t_reward (pd_stored pd) = num_zero /\
    t_done (pd_stored pd) = pd_done pd /\
    ((lv_done (p_locals p) || (lv_observation_num (p_locals p) =? 0))%bool = true ->
     t_state (pd_stored pd) =
     obs_vector (fst (env_reset (env_at_reset iterations (lv_observation_num (p_locals p))
                                   (env (p_world p)))))) /\
    p_events p = pass_events convert_act iterations (option_map os_path_abspath save_path)
                   tp (p_locals p) (p_world p) pd /\
    ctl = pass_ctl tp (p_locals p) pd.
Proof.
  intros Hk Hres.
  apply train_passes_nth in Hk as (Htp & _ & _ & _ & _ & _ & Hbody).
  rewrite Hbody in Hres.
  pose proof Hres as Hok.
  apply loop_body_ok in Hok
    as (pd & b0 & A1 & A2 & A3 & A4 & A5 & A6 & A7 & A8 & A9); [| exact Htp].
  exists pd, b0. repeat split; auto.
  unfold p_events. rewrite Hbody, Hres. simpl. rewrite A8. apply skipn_app_exact.
Qed.
(** ** The training loop, pass by pass *)

(** Membership in a list of events built from the blocks' lists: open every
    append and every conditional. *)
Ltac in_events H :=
  repeat match type of H with
         | In _ (_ ++ _) => apply in_app_or in H; destruct H as [H | H]
         | In _ (_ :: _) => destruct H as [H | H]
         | In _ [] => destruct H
         | In _ (if ?c then _ else _) => destruct c eqn:?
         | In _ (match ?x with _ => _ end) => destruct x eqn:?
         | _ = _ => first [discriminate H | inversion H; subst; clear H]
         end.

Lemma in_pass_events_train (iterations : Z) (save_path : option string)
    (tp : TrainingParam F) (lv : Locals F) (w : world) (pd : PassData)
    (batch : list (Transition F)) (step : Z) (loss : F) :
  In (EvTrain batch step loss)
     (pass_events convert_act iterations save_path tp lv w pd) ->
  loss = pd_loss pd /\ (rb_size (pd_buffer pd) >? MIN_OBSERVATION tp) = true /\
  batch = fst (rb_sample (MINIBATCH_SIZE tp) (pd_buffer pd)) /\
  step = lv_observation_num lv.
Proof.
  unfold pass_events, chunk_events, reset_events, init_events, learn_events, save_events,
    tensorboard_events.
  intro H. in_events H; auto.
Qed.

Lemma nth_error_last {A} (l : list A) (k : nat) (x d : A) :
  nth_error l k = Some x -> nth_error l (S k) = None -> last l d = x.
Proof.
  revert k. induction l as [| y l IH]; intros k H1 H2.
  - destruct k; discriminate.
  - destruct k as [| k]; simpl in H1, H2.
    + inversion H1; subst. destruct l; [reflexivity | discriminate].
    + rewrite last_cons. destruct l as [| z l]; [destruct k; discriminate |].
      rewrite (last_default l z y d). eapply IH; eassumption.
Qed.

Lemma train_passes_step (iterations : Z) (save_path logdir : option string)
    (tp : TrainingParam F) (w : world) (k : nat) (p q : Pass) :
  nth_error (train_passes convert_act os_path_abspath iterations save_path logdir tp w) k
  = Some p ->
  nth_error (train_passes convert_act os_path_abspath iterations save_path logdir tp w) (S k)
  = Some q ->
  p_result p = Ok (Continue (p_locals q)) (p_world q).
Proof.
  unfold train_passes.
  destruct (train_prelude os_path_abspath iterations save_path logdir tp w)
    as [[sp lv] w0 | e w0]; [| destruct k; discriminate].
  apply passes_step.
Qed.

Lemma train_world (iterations : Z) (save_path logdir : option string)
    (tp : TrainingParam F) (w : world) (p : Pass) (ps : list Pass) :
  train_passes convert_act os_path_abspath iterations save_path logdir tp w = p :: ps ->
  world_of (train convert_act os_path_abspath iterations save_path logdir tp w)
  = world_of (p_result (last ps p)).
Proof.
  unfold train_passes, train, bind.
  destruct (train_prelude os_path_abspath iterations save_path logdir tp w)
    as [[sp lv] w0 | e w0]; [| discriminate].
  intro Hps. rewrite train_loop_world, Hps. reflexivity.
Qed.

(** C3. Whenever a training step of the loop reports a loss that is not
    finite, the loop ends with the pass that made it: that pass does not hand
    over to a next one, it is the last pass of the run, and [train] ends in
    the world it leaves; all that the pass still does after the training step
    is the target update and the error message. *)
Theorem C3_nonfinite_loss_ends_the_loop (iterations : Z) (save_path logdir : option string)
    (tp : TrainingParam F) (w : world) (k : nat) (p : Pass)
    (batch : list (Transition F)) (step : Z) (loss : F) :
  nth_error (train_passes convert_act os_path_abspath iterations save_path logdir tp w) k
  = Some p ->
  In (EvTrain batch step loss) (p_events p) ->
  num_isfinite loss = false ->
  (forall lv' w', p_result p <> Ok (Continue lv') w') /\
  nth_error (train_passes convert_act os_path_abspath iterations save_path logdir tp w) (S k)
  = None /\
  world_of (train convert_act os_path_abspath iterations save_path logdir tp w)
  = world_of (p_result p) /\
  (forall ctl w', p_result p = Ok ctl w' ->
                  exists pre,
                    p_events p = pre ++ [EvTrain batch step loss; EvTargetTrain;
                                         EvPrint "ERROR INFINITE LOSS"]).
Proof.
  intros Hk Hin Hloss.
  assert (Hstop : forall lv' w', p_result p <> Ok (Continue lv') w').
  { intros lv' w' Hres.
    destruct (train_pass_ok _ _ _ _ _ _ Hk Hres)
      as (pd & b0 & _ & _ & _ & _ & _ & _ & _ & Hev & Hctl).
    rewrite Hev in Hin. apply in_pass_events_train in Hin as (Hl & Hsize & _).
    unfold pass_ctl, pass_stop in Hctl. rewrite Hsize, <- Hl, Hloss in Hctl.
    discriminate. }
  assert (Hlast : nth_error (train_passes convert_act os_path_abspath iterations
                               save_path logdir tp w) (S k) = None).
  { destruct (nth_error _ (S k)) as [q |] eqn:Hq; [| reflexivity].
    exfalso. eapply Hstop. eapply train_passes_step; eassumption. }
  split; [exact Hstop |]. split; [exact Hlast |]. split.
  - destruct (train_passes convert_act os_path_abspath iterations save_path logdir tp w)
      as [| p0 ps] eqn:Hps; [destruct k; discriminate |].
    rewrite (train_world _ _ _ _ _ Hps).
    rewrite <- (last_cons ps p0 p0).
    f_equal. f_equal. eapply nth_error_last; eassumption.
  - intros ctl w' Hres.
    destruct (train_pass_ok _ _ _ _ _ _ Hk Hres)
      as (pd & b0 & _ & _ & _ & _ & _ & _ & _ & Hev & _).
    rewrite Hev in Hin. apply in_pass_events_train in Hin as (Hl & Hsize & Hb & Hs).
    rewrite Hev. unfold pass_events, learn_events, pass_stop.
    rewrite Hsize, <- Hl, Hloss, <- Hb, <- Hs. cbn [negb andb].
    exists (EvIter (lv_observation_num (p_locals p))
            :: chunk_events iterations (lv_observation_num (p_locals p))
            ++ reset_events (lv_done (p_locals p)) (lv_observation_num (p_locals p))
                 (lv_epoch_num (p_locals p))
                 (env_subpaths_len
                    (snd (env_reset
                            (env_at_reset iterations (lv_observation_num (p_locals p))
                               (env (p_world p))))))
            ++ init_events (lv_observation_num (p_locals p))
            ++ [EvPredict (epsilon_step tp (lv_epsilon (p_locals p))) (pd_pm_i pd);
                EvStep (act_of convert_act (pd_pm_i pd)) (pd_reward pd) (pd_done pd);
                EvStore (pd_stored pd);
                EvSample (MINIBATCH_SIZE tp)]).
    cbn [app]. rewrite <- !app_assoc. cbn [app]. rewrite Hs. reflexivity.
Qed.
(** Find an event in a list of events built from the blocks' lists. *)
Ltac in_find :=
  solve [ repeat first [ left; reflexivity
                       | right
                       | apply in_or_app; left; solve [in_find]
                       | apply in_or_app; right ] ].

(** C4 (amended). At every pass that finds the episode ended ([done]) or is
    the first of the run, and that ends without an exception, the loop resets
    the environment; it reshuffles the chronics at that pass exactly when the
    epoch counter it has just incremented is a multiple of the number of
    chronics the environment has. *)
Theorem C4_reset_then_reshuffle_every_len_epochs
    (iterations : Z) (save_path logdir : option string)
    (tp : TrainingParam F) (w : world) (k : nat) (p : Pass) (ctl : LoopCtl F) (w' : world) :
  nth_error (train_passes convert_act os_path_abspath iterations save_path logdir tp w) k
  = Some p ->
  p_result p = Ok ctl w' ->
  lv_done (p_locals p) = true \/ lv_observation_num (p_locals p) = 0 ->
  In EvReset (p_events p) /\
  (In EvShuffle (p_events p) <->
   (lv_epoch_num (p_locals p) + 1)
     mod env_subpaths_len
           (snd (env_reset (env_at_reset iterations (lv_observation_num (p_locals p))
                              (env (p_world p))))) = 0).
Proof.
  intros Hk Hres Hcond.
  destruct (train_pass_ok _ _ _ _ _ _ Hk Hres)
    as (pd & b0 & _ & _ & _ & _ & _ & _ & _ & Hev & _).
  rewrite Hev. clear Hev.
  assert (Hc : (lv_done (p_locals p) || (lv_observation_num (p_locals p) =? 0))%bool = true).
  { destruct Hcond as [Hd | Hn]; [rewrite Hd; reflexivity |].
    rewrite Hn. apply orb_true_r. }
  unfold pass_events, reset_events. rewrite Hc.
  split; [in_find |].
  split.
  - unfold chunk_events, init_events, learn_events, save_events, tensorboard_events.
    intro H. in_events H. now apply Z.eqb_eq.
  - intro Hm. apply Z.eqb_eq in Hm. rewrite Hm. in_find.
Qed.

Lemma last_step_done_pass_events (iterations : Z) (save_path : option string)
    (tp : TrainingParam F) (lv : Locals F) (w : world) (pd : PassData) :
  last_step_done (pass_events convert_act iterations save_path tp lv w pd) = pd_done pd.
Proof.
  unfold pass_events, chunk_events, reset_events, init_events, learn_events, save_events,
    tensorboard_events, pass_stop.
  repeat match goal with
         | |- context [if ?c then _ else _] => destruct c
         | |- context [match ?x with _ => _ end] => destruct x
         end; reflexivity.
Qed.

Lemma in_pass_events_reset (iterations : Z) (save_path : option string)
    (tp : TrainingParam F) (lv : Locals F) (w : world) (pd : PassData) :
  In EvReset (pass_events convert_act iterations save_path tp lv w pd) <->
  (lv_done lv || (lv_observation_num lv =? 0))%bool = true.
Proof.
  unfold pass_events, reset_events. split.
  - unfold chunk_events, init_events, learn_events, save_events, tensorboard_events.
    intro H. in_events H; reflexivity.
  - intro Hc. rewrite Hc. in_find.
Qed.

(** C5. At every pass of the loop that ends without an exception, the
    environment is reset if and only if the pass is the first one
    ([observation_num == 0]) or the last [env.step] of the previous pass
    reported [done]; and on a reset the process buffer holds exactly the
    converted new observation: it is the state the pass stores. *)
Theorem C5_reset_iff_done_or_first
    (iterations : Z) (save_path logdir : option string)
    (tp : TrainingParam F) (w : world) (k : nat) (p : Pass) (ctl : LoopCtl F) (w' : world) :
  nth_error (train_passes convert_act os_path_abspath iterations save_path logdir tp w) k
  = Some p ->
  p_result p = Ok ctl w' ->
  lv_observation_num (p_locals p) = Z.of_nat k /\
  (In EvReset (p_events p) <->
   k = O \/
   exists q,
     nth_error (train_passes convert_act os_path_abspath iterations save_path logdir tp w)
       (Nat.pred k) = Some q /\
     k <> O /\ last_step_done (p_events q) = true) /\
  (In EvReset (p_events p) ->
   exists t,
     In (EvStore t) (p_events p) /\
     t_state t =
     obs_vector (fst (env_reset (env_at_reset iterations (Z.of_nat k) (env (p_world p)))))).
Proof.
  intros Hk Hres.
  destruct (train_pass_ok _ _ _ _ _ _ Hk Hres)
    as (pd & b0 & _ & _ & _ & _ & _ & _ & Hstate & Hev & _).
  destruct (train_passes_nth _ _ _ _ _ _ Hk) as (_ & _ & Hn & _ & Hd0 & _ & _).
  rewrite Hev, in_pass_events_reset.
  split; [exact Hn |]. split.
  - rewrite Hn. destruct k as [| j].
    + simpl. rewrite orb_true_r. split; auto.
    + replace (Z.of_nat (S j) =? 0) with false by (symmetry; apply Z.eqb_neq; lia).
      rewrite orb_false_r. simpl Nat.pred.
      destruct (nth_error (train_passes convert_act os_path_abspath iterations
                             save_path logdir tp w) j) as [q |] eqn:Hq.
      * pose proof (train_passes_step _ _ _ _ _ _ Hq Hk) as Hqres.
        destruct (train_pass_ok _ _ _ _ _ _ Hq Hqres)
          as (pdq & bq & _ & _ & _ & _ & _ & _ & _ & Hevq & Hctlq).
        unfold pass_ctl in Hctlq. destruct (pass_stop tp pdq); [discriminate |].
        inversion Hctlq as [Hlv].
        assert (Hp_done : lv_done (p_locals p) = pd_done pdq) by (rewrite Hlv; reflexivity).
        assert (Hq_done : last_step_done (p_events q) = pd_done pdq)
          by (rewrite Hevq; apply last_step_done_pass_events).
        split.
        -- intro Hd. right. exists q. repeat split; auto. congruence.
        -- intros [Hz | (q' & Hq' & _ & Hd)]; [discriminate |].
           inversion Hq'; subst q'. congruence.
      * exfalso. assert (Hlen : (j < S j)%nat) by lia.
        apply nth_error_None in Hq.
        assert (Hsome : nth_error (train_passes convert_act os_path_abspath iterations
                                     save_path logdir tp w) (S j) <> None) by congruence.
        apply nth_error_Some in Hsome. lia.
  - intro Hc. exists (pd_stored pd). split.
    + unfold pass_events. in_find.
    + rewrite <- Hn. apply Hstate. exact Hc.
Qed.
(** C6 (amended). At every pass that ends without an exception the buffer is
    compared with [MIN_OBSERVATION] right after the pass has stored its
    record: when its size is above the threshold, exactly one minibatch is
    requested with batch size [MINIBATCH_SIZE], one training step is made on
    the batch the buffer returns (however many records that is), and the
    target network is updated immediately after it; when it is not, the pass
    samples nothing, trains nothing and does not touch the target network. *)
Theorem C6_one_learning_step_when_buffer_large_enough
    (iterations : Z) (save_path logdir : option string)
    (tp : TrainingParam F) (w : world) (k : nat) (p : Pass) (ctl : LoopCtl F) (w' : world) :
  nth_error (train_passes convert_act os_path_abspath iterations save_path logdir tp w) k
  = Some p ->
  p_result p = Ok ctl w' ->
  exists b0 t loss pre post,
    replay_buffer (p_world p) = Some b0 /\
    p_events p
    = pre ++ EvStore t
          :: (if rb_size (rb_add t b0) >? MIN_OBSERVATION tp
              then [EvSample (MINIBATCH_SIZE tp);
                    EvTrain (fst (rb_sample (MINIBATCH_SIZE tp) (rb_add t b0)))
                            (Z.of_nat k) loss;
                    EvTargetTrain]
              else [])
          ++ post /\
    forallb (fun e => negb (is_learn_event e)) pre = true /\
    forallb (fun e => negb (is_learn_event e)) post = true.
Proof.
  intros Hk Hres.
  destruct (train_pass_ok _ _ _ _ _ _ Hk Hres)
    as (pd & b0 & _ & Hb0 & Hbuf & _ & _ & _ & _ & Hev & _).
  destruct (train_passes_nth _ _ _ _ _ _ Hk) as (_ & _ & Hn & _).
  exists b0, (pd_stored pd), (pd_loss pd).
  exists (EvIter (Z.of_nat k)
          :: chunk_events iterations (Z.of_nat k)
          ++ reset_events (lv_done (p_locals p)) (Z.of_nat k) (lv_epoch_num (p_locals p))
               (env_subpaths_len
                  (snd (env_reset (env_at_reset iterations (Z.of_nat k) (env (p_world p))))))
          ++ init_events (Z.of_nat k)
          ++ [EvPredict (epsilon_step tp (lv_epsilon (p_locals p))) (pd_pm_i pd);
              EvStep (act_of convert_act (pd_pm_i pd)) (pd_reward pd) (pd_done pd)]).
  exists ((if rb_size (pd_buffer pd) >? MIN_OBSERVATION tp
           then if num_isfinite (pd_loss pd) then [] else [EvPrint "ERROR INFINITE LOSS"]
           else [])
          ++ (if pass_stop tp pd then []
              else save_events iterations (Z.of_nat k) (option_map os_path_abspath save_path)
                     (name (p_world p))
                   ++ tensorboard_events (tf_writer (p_world p)) (Z.of_nat k)
                        (pass_epoch (p_locals p)) (pd_total_rewards pd)
                        (pd_alive_frames pd))).
  split; [exact Hb0 |].
  rewrite Hev, <- Hbuf. unfold pass_events, learn_events. rewrite Hn.
  split; [| split].
  - destruct (rb_size (pd_buffer pd) >? MIN_OBSERVATION tp);
      cbn [app]; rewrite <- ?app_assoc; cbn [app]; reflexivity.
  - unfold chunk_events, reset_events, init_events.
    repeat match goal with
           | |- context [if ?c then _ else _] => destruct c
           end; reflexivity.
  - unfold save_events, tensorboard_events.
    repeat match goal with
           | |- context [if ?c then _ else _] => destruct c
           | |- context [match ?x with _ => _ end] => destruct x
           end; reflexivity.
Qed.

Lemma in_pass_events_save (iterations : Z) (save_path : option string)
    (tp : TrainingParam F) (lv : Locals F) (w : world) (pd : PassData) (path : string) :
  In (EvSaveNetwork path) (pass_events convert_act iterations save_path tp lv w pd) <->
  pass_stop tp pd = false /\
  ((lv_observation_num lv mod SAVING_NUM =? 0)
   || (lv_observation_num lv =? iterations - 1))%bool = true /\
  exists sp, save_path = Some sp /\ path = os_path_join sp (name w).
Proof.
  unfold pass_events. split.
  - unfold chunk_events, reset_events, init_events, learn_events, save_events,
      tensorboard_events.
    intro H. in_events H. repeat split; auto. eexists; split; reflexivity.
  - intros (Hs & Hc & sp & Hsp & Hpath). subst save_path path.
    rewrite Hs. unfold save_events. rewrite Hc. in_find.
Qed.

(** The defect behind C1, in general: whatever rewards the environment
    returns, every record a pass stores has reward [0.]. *)
Lemma stored_reward_is_always_zero
    (iterations : Z) (save_path logdir : option string)
    (tp : TrainingParam F) (w : world) (k : nat) (p : Pass) (ctl : LoopCtl F) (w' : world) :
  nth_error (train_passes convert_act os_path_abspath iterations save_path logdir tp w) k
  = Some p ->
  p_result p = Ok ctl w' ->
  exists temp_reward,
    step_rewards (p_events p) = [temp_reward] /\
    stored_rewards (p_events p) = [num_zero].
Proof.
  intros Hk Hres.
  destruct (train_pass_ok _ _ _ _ _ _ Hk Hres)
    as (pd & b0 & _ & _ & _ & _ & Hr & _ & _ & Hev & _).
  exists (pd_reward pd). rewrite Hev, <- Hr.
  unfold pass_events, chunk_events, reset_events, init_events, learn_events, save_events,
    tensorboard_events, pass_stop.
  split;
    repeat match goal with
           | |- context [if ?c then _ else _] => destruct c
           | |- context [match ?x with _ => _ end] => destruct x
           end; reflexivity.
Qed.
(** C8. For every observation, [convert_obs] returns the line loading ratios,
    then the line status, then the topology vector, as one flat float array
    (the cells of the last two cast to float), and leaves the world as it
    found it. *)
Theorem C8_convert_obs_concatenates_in_order (observation : Observation F) (w : world) :
  let v := rho observation
           ++ map num_of_bool (line_status observation)
           ++ map num_of_Z (topo_vect observation) in
  convert_obs observation w = Ok v w /\
  List.length v = (List.length (rho observation) + List.length (line_status observation)
                   + List.length (topo_vect observation))%nat /\
  (forall i, (i < List.length (rho observation))%nat ->
             nth_error v i = nth_error (rho observation) i) /\
  (forall i, (i < List.length (line_status observation))%nat ->
             nth_error v (List.length (rho observation) + i)
             = option_map num_of_bool (nth_error (line_status observation) i)) /\
  (forall i, nth_error v (List.length (rho observation)
                          + List.length (line_status observation) + i)
             = option_map num_of_Z (nth_error (topo_vect observation) i)).
Proof.
  intro v. subst v. split; [reflexivity |]. split; [| split; [| split]].
  - rewrite !length_app, !length_map. lia.
  - intros i Hi. now rewrite nth_error_app1.
  - intros i Hi. rewrite nth_error_app2 by lia.
    replace (List.length (rho observation) + i - List.length (rho observation))%nat
      with i by lia.
    rewrite nth_error_app1 by (rewrite length_map; exact Hi).
    apply nth_error_map.
  - intro i. rewrite nth_error_app2 by lia.
    rewrite nth_error_app2 by (rewrite length_map; lia).
    rewrite length_map.
    replace (List.length (rho observation) + List.length (line_status observation) + i
             - List.length (rho observation) - List.length (line_status observation))%nat
      with i by lia.
    apply nth_error_map.
Qed.

(** C9. With [NUM_FRAMES] different from 1 [_convert_process_buffer] raises a
    [RuntimeError]; with [NUM_FRAMES] equal to 1 it returns the one-row matrix
    of the concatenated process buffer whenever that buffer is not empty; so
    no pass of the training loop ends without an exception unless
    [NUM_FRAMES] is 1. *)
Theorem C9_only_one_frame_is_supported :
  (forall (w : world) (tp : TrainingParam F),
      training_param w = Some tp -> NUM_FRAMES tp <> 1 ->
      exists msg, _convert_process_buffer w = Raise (RuntimeError msg) w) /\
  (forall (w : world) (tp : TrainingParam F),
      training_param w = Some tp -> NUM_FRAMES tp = 1 -> process_buffer w <> [] ->
      _convert_process_buffer w = Ok [List.concat (process_buffer w)] w) /\
  (forall (iterations : Z) (save_path logdir : option string) (tp : TrainingParam F)
          (w : world) (p : Pass) (ctl : LoopCtl F) (w' : world),
      In p (train_passes convert_act os_path_abspath iterations save_path logdir tp w) ->
      p_result p = Ok ctl w' -> NUM_FRAMES tp = 1).
Proof.
  split; [| split].
  - intros w tp Htp Hn. unfold _convert_process_buffer, attr, bind, gets.
    rewrite Htp. apply Z.eqb_neq in Hn. unfold ret at 1. rewrite Hn. simpl.
    eexists. reflexivity.
  - intros w tp Htp Hn Hpb. unfold _convert_process_buffer, attr, bind, gets.
    rewrite Htp. unfold ret at 1. rewrite Hn. simpl.
    destruct (process_buffer w); [contradiction | reflexivity].
  - intros iterations save_path logdir tp w p ctl w' Hin Hres.
    apply In_nth_error in Hin as [k Hk].
    destruct (train_pass_ok _ _ _ _ _ _ Hk Hres) as (pd & b0 & Hnf & _). exact Hnf.
Qed.

(** Epsilon along a run: every pass finds the epsilon [epsilon_at] gives for
    its index, and hands [predict_movement] the next one. *)
Lemma epsilon_of_passes (iterations : Z) (save_path logdir : option string)
    (tp : TrainingParam F) (w : world) (k : nat) (p : Pass) :
  nth_error (train_passes convert_act os_path_abspath iterations save_path logdir tp w) k
  = Some p ->
  lv_epsilon (p_locals p) = epsilon_at tp k /\
  (forall ctl w', p_result p = Ok ctl w' ->
                  predict_epsilons (p_events p) = [epsilon_at tp (S k)]).
Proof.
  intro Hk.
  destruct (train_passes_nth _ _ _ _ _ _ Hk) as (_ & _ & _ & Heps & _).
  split; [exact Heps |].
  intros ctl w' Hres.
  destruct (train_pass_ok _ _ _ _ _ _ Hk Hres)
    as (pd & b0 & _ & _ & _ & _ & _ & _ & _ & Hev & _).
  rewrite Hev. unfold pass_events. rewrite Heps.
  unfold chunk_events, reset_events, init_events, learn_events, save_events,
    tensorboard_events, pass_stop.
  repeat match goal with
         | |- context [if ?c then _ else _] => destruct c
         | |- context [match ?x with _ => _ end] => destruct x
         end; reflexivity.
Qed.

(** [my_act] asks the network once, with epsilon 0.0, and returns the one
    index the network chose. *)
Lemma my_act_ok (transformed_observation : list F) (reward : F) (done : bool)
    (w w' : world) (a : Z) :
  my_act transformed_observation reward done w = Ok a w' ->
  trace w' = trace w
             ++ match deep_q w with None => [EvInitDeepQ] | Some _ => [] end
             ++ [EvPredict num_zero [a]].
Proof.
  unfold my_act, init_deep_q, call_predict_movement, py_int, attr, emit.
  intro H. run_inv H; run_done.
Qed.
(** ** The bookkeeping of a run

    What the loop's counters mean, read off the trace of the run so far. *)

Lemma step_rewards_app (a b : list event) :
  step_rewards (a ++ b) = step_rewards a ++ step_rewards b.
Proof.
  induction a as [| e a IH]; [reflexivity |].
  destruct e; simpl; rewrite ?IH; reflexivity.
Qed.

Lemma step_dones_app (a b : list event) :
  step_dones (a ++ b) = step_dones a ++ step_dones b.
Proof.
  induction a as [| e a IH]; [reflexivity |].
  destruct e; simpl; rewrite ?IH; reflexivity.
Qed.

Lemma count_resets_app (a b : list event) :
  count_resets (a ++ b) = count_resets a + count_resets b.
Proof. unfold count_resets. rewrite filter_app, length_app. lia. Qed.

Lemma count_resets_nonneg (a : list event) : 0 <= count_resets a.
Proof. unfold count_resets. lia. Qed.

Lemma steps_since_done_snoc (dones : list bool) (d : bool) :
  steps_since_done (dones ++ [d]) = if d then 0 else steps_since_done dones + 1.
Proof.
  unfold steps_since_done. rewrite rev_app_distr. simpl.
  destruct d; [reflexivity | lia].
Qed.

Lemma steps_since_done_nonneg (dones : list bool) : 0 <= steps_since_done dones.
Proof. unfold steps_since_done. lia. Qed.

(** What the readers find in the events of one pass. *)
Lemma pass_events_readers (iterations : Z) (save_path : option string)
    (tp : TrainingParam F) (lv : Locals F) (w : world) (pd : PassData) :
  step_rewards (pass_events convert_act iterations save_path tp lv w pd) = [pd_reward pd] /\
  step_dones (pass_events convert_act iterations save_path tp lv w pd) = [pd_done pd] /\
  stored (pass_events convert_act iterations save_path tp lv w pd) = [pd_stored pd] /\
  count_resets (pass_events convert_act iterations save_path tp lv w pd)
  = (if (lv_done lv || (lv_observation_num lv =? 0))%bool then 1 else 0).
Proof.
  unfold pass_events, chunk_events, reset_events, init_events, learn_events, save_events,
    tensorboard_events, pass_stop, count_resets.
  repeat match goal with
         | |- context [if ?c then _ else _] => destruct c
         | |- context [match ?x with _ => _ end] => destruct x
         end; repeat split; reflexivity.
Qed.

Lemma set_nth_length {A} (l : list A) (n : nat) (v : A) :
  List.length (set_nth l n v) = List.length l.
Proof.
  revert n. induction l as [| h t IH]; intro n; [reflexivity |].
  destruct n; simpl; [reflexivity | now rewrite IH].
Qed.

Lemma set_nth_head {A} (l : list A) (n : nat) (v : A) :
  n <> O -> nth_error (set_nth l n v) 0 = nth_error l 0.
Proof. intro Hn. destruct l, n; try reflexivity. contradiction. Qed.

(** Lines 157-159 when they return: the two arrays are written at
    [epoch_num] when the episode is alive, and only then; the index must lie
    within both arrays. *)
Lemma epoch_block_inv (af ep : Z) (tr : F) (l1 l2 a r : list F) (w w13 : world) :
  0 <= ep ->
  epoch_block af ep tr l1 l2 w = Ok (a, r) w13 ->
  (af = 0 /\ a = l1 /\ r = l2) \/
  (af <> 0 /\ ep < Z.of_nat (List.length l1) /\ ep < Z.of_nat (List.length l2) /\
   a = set_nth l1 (Z.to_nat ep) (num_of_Z af) /\ r = set_nth l2 (Z.to_nat ep) tr).
Proof.
  intros Hep H. unfold epoch_block, np_setitem in H.
  destruct (af =? 0) eqn:Haf; cbn [negb] in H.
  - apply Z.eqb_eq in Haf. unfold ret in H. inversion H. left. auto.
  - apply Z.eqb_neq in Haf. right.
    unfold bind, ret, raise in H.
    destruct ((0 <=? ep) && (ep <? Z.of_nat (List.length l1)))%bool eqn:G1.
    + destruct ((0 <=? ep) && (ep <? Z.of_nat (List.length l2)))%bool eqn:G2.
      * inversion H. apply andb_true_iff in G1 as [_ G1], G2 as [_ G2].
        apply Z.ltb_lt in G1, G2. auto.
      * destruct ((- Z.of_nat (List.length l2) <=? ep) && (ep <? 0))%bool eqn:G3;
          [| discriminate].
        apply andb_true_iff in G3 as [_ G3]. apply Z.ltb_lt in G3. lia.
    + destruct ((- Z.of_nat (List.length l1) <=? ep) && (ep <? 0))%bool eqn:G3;
        [| discriminate].
      apply andb_true_iff in G3 as [_ G3]. apply Z.ltb_lt in G3. lia.
Qed.

(** The arrays a pass hands over are those lines 157-159 made from the
    counters it hands over. *)
Lemma loop_body_continue_epoch (iterations : Z) (save_path : option string)
    (tp : TrainingParam F) (lv lv' : Locals F) (w w' : world) :
  loop_body convert_act iterations save_path tp lv w = Ok (Continue lv') w' ->
  exists w1 : world,
    epoch_block (lv_alive_frame lv') (lv_epoch_num lv') (lv_total_reward lv')
      (lv_alive_frames lv) (lv_total_rewards lv) w1
    = Ok (lv_alive_frames lv', lv_total_rewards lv') w1.
Proof.
  intro H. unfold loop_body in H.
  apply bind_ok_inv in H as (u1 & w1 & _ & H).
  apply bind_ok_inv in H as (u2 & w2 & _ & H).
  apply bind_ok_inv in H as (ep' & w3 & _ & H).
  apply bind_ok_inv in H as (eps & w4 & _ & H).
  apply bind_ok_inv in H as (st & w5 & _ & H).
  apply bind_ok_inv in H as (u6 & w6 & _ & H).
  apply bind_ok_inv in H as (u7 & w7 & _ & H).
  apply bind_ok_inv in H as ([[pm_i pq_v] act] & w8 & _ & H).
  unfold _init_local_train_loop in H.
  apply bind_ok_inv in H as ([[[d r] tr] af] & w9 & _ & H).
  apply bind_ok_inv in H as (u10 & w10 & _ & H).
  apply bind_ok_inv in H as (stop & w11 & _ & H).
  destruct stop; [unfold ret in H; discriminate |].
  apply bind_ok_inv in H as (u12 & w12 & _ & H).
  apply bind_ok_inv in H as ([alive rewards] & w13 & H13 & H).
  apply bind_ok_inv in H as (u14 & w14 & _ & H).
  unfold ret in H. inversion H; subst lv' w'. simpl.
  pose proof (epoch_block_ok _ _ _ _ _ _ H13) as E13. subst w13.
  exists w12. exact H13.
Qed.

(** What [train] has done when the loop starts. *)
Lemma train_prelude_start (iterations : Z) (save_path logdir : option string)
    (tp : TrainingParam F) (w w0 : world) (sp : option string) (lv : Locals F) :
  train_prelude os_path_abspath iterations save_path logdir tp w = Ok (sp, lv) w0 ->
  0 <= iterations /\
  trace w0 = trace w ++ match save_path with
                        | Some p => [EvMakedirs (os_path_abspath p)]
                        | None => []
                        end /\
  tf_writer w0 = option_map (fun d => os_path_join d (name w)) logdir /\
  env w0 = env w /\
  lv_alive_frame lv = 0 /\ lv_total_reward lv = num_zero /\
  lv_alive_frames lv = repeat num_zero (Z.to_nat iterations) /\
  lv_total_rewards lv = repeat num_zero (Z.to_nat iterations) /\
  losses w0 = Some (repeat num_zero (Z.to_nat iterations)).
Proof.
  unfold train_prelude, _init_replay_buffer, np_zeros, attr, emit,
    _init_global_train_loop, _init_local_train_loop.
  intro H. run_inv H.
  all: match goal with E : (_ <? 0) = false |- _ => apply Z.ltb_ge in E end.
  all: repeat split; rewrite ?app_nil_r; auto.
Qed.

(** ** The losses array *)

Lemma set_nth_same {A} (l : list A) (n : nat) (v : A) :
  (n < List.length l)%nat -> nth_error (set_nth l n v) n = Some v.
Proof.
  revert n. induction l as [| h t IH]; intros n Hn; simpl in Hn; [lia |].
  destruct n; simpl; [reflexivity | apply IH; lia].
Qed.

Lemma set_nth_other {A} (l : list A) (n j : nat) (v : A) :
  j <> n -> nth_error (set_nth l n v) j = nth_error l j.
Proof.
  revert n j. induction l as [| h t IH]; intros n j Hj; [destruct n; reflexivity |].
  destruct n, j; simpl; try reflexivity; [contradiction | apply IH; lia].
Qed.

Lemma quiet_refl (w : world) : quiet w w.
Proof. split; [reflexivity | apply grows_refl]. Qed.

Lemma quiet_trans (a b c : world) : quiet a b -> quiet b c -> quiet a c.
Proof.
  intros [L1 G1] [L2 G2]. split; [congruence | eapply grows_trans; eassumption].
Qed.

Ltac quiet_tac :=
  stable_tac quiet_refl quiet_trans
             ltac:(cbv beta; split;
                   [ reflexivity
                   | first [ apply grows_same; reflexivity
                           | apply grows_emit; exact I ] ]).

Lemma frame_loop_quiet (n : nat) (act : ActArg Action) (st : bool * F * F * Z) :
  stable (@quiet F Action E N B) (frame_loop n act st).
Proof.
  revert st. induction n as [| n IH]; intro st; simpl.
  - apply stable_ret, quiet_refl.
  - quiet_tac. apply IH.
Qed.

(** Lines 140-149 when they return: either no training step is made and
    [self.losses] is untouched, or one is made and its loss is written at
    index [observation_num]. *)
Lemma learn_block_losses (tp : TrainingParam F) (n : Z) (w w11 : world) (stop : bool)
    (ls : list F) :
  0 <= n ->
  losses w = Some ls ->
  learn_block tp n w = Ok stop w11 ->
  (losses w11 = Some ls /\ trace w11 = trace w) \/
  (exists batch loss post,
      n < Z.of_nat (List.length ls) /\
      losses w11 = Some (set_nth ls (Z.to_nat n) loss) /\
      trace w11 = trace w ++ EvSample (MINIBATCH_SIZE tp) :: EvTrain batch n loss :: post /\
      Forall not_train post).
Proof.
  intros Hn Hls H.
  unfold learn_block, call_rb_size, call_rb_sample, call_train,
    call_target_train, np_setitem, attr, emit in H.
  run_inv H.
  all: try (left; split; [assumption | reflexivity]).
  all: repeat match goal with
              | E : (_ && _)%bool = true |- _ => apply andb_true_iff in E as [? ?]
              | E : (_ <? _) = true |- _ => apply Z.ltb_lt in E
              end; try lia.
  all: right; eexists; eexists; eexists.
  all: split; [assumption |].
  all: split; [reflexivity |].
  all: split; [rewrite <- !app_assoc; cbn [app]; reflexivity | repeat constructor].
Qed.

(** A pass that returns either makes no training step and leaves
    [self.losses] as it is, or makes one and writes its loss at the index of
    the pass. *)
Lemma loop_body_losses (iterations : Z) (save_path : option string) (tp : TrainingParam F)
    (lv : Locals F) (w w' : world) (ctl : LoopCtl F) (ls : list F) :
  0 <= lv_observation_num lv ->
  losses w = Some ls ->
  loop_body convert_act iterations save_path tp lv w = Ok ctl w' ->
  (losses w' = Some ls /\ Forall not_train (skipn (List.length (trace w)) (trace w'))) \/
  (exists batch loss pre post,
      lv_observation_num lv < Z.of_nat (List.length ls) /\
      losses w' = Some (set_nth ls (Z.to_nat (lv_observation_num lv)) loss) /\
      skipn (List.length (trace w)) (trace w')
      = pre ++ EvTrain batch (lv_observation_num lv) loss :: post /\
      Forall not_train pre /\ Forall not_train post).
Proof.
  intros Hn Hls H. unfold loop_body in H.
  apply bind_ok_inv in H as (u1 & w1 & H1 & H).
  apply bind_ok_inv in H as (u2 & w2 & H2 & H).
  apply bind_ok_inv in H as (ep' & w3 & H3 & H).
  apply bind_ok_inv in H as (eps & w4 & H4 & H).
  apply bind_ok_inv in H as (st & w5 & H5 & H).
  apply bind_ok_inv in H as (u6 & w6 & H6 & H).
  apply bind_ok_inv in H as (u7 & w7 & H7 & H).
  apply bind_ok_inv in H as ([[pm_i pq_v] act] & w8 & H8 & H).
  unfold _init_local_train_loop in H.
  apply bind_ok_inv in H as ([[[d r] tr] af] & w9 & H9 & H).
  apply bind_ok_inv in H as (u10 & w10 & H10 & H).
  apply bind_ok_inv in H as (stop & w11 & H11 & H).
  assert (Q1 : quiet w w1)
    by (refine (stable_ok (R := @quiet F Action E N B) _ H1); quiet_tac).
  assert (Q2 : quiet w1 w2)
    by (refine (stable_ok (R := @quiet F Action E N B) _ H2); quiet_tac).
  assert (Q3 : quiet w2 w3)
    by (refine (stable_ok (R := @quiet F Action E N B) _ H3); quiet_tac).
  assert (Q4 : quiet w3 w4)
    by (refine (stable_ok (R := @quiet F Action E N B) _ H4); quiet_tac).
  assert (Q5 : quiet w4 w5)
    by (refine (stable_ok (R := @quiet F Action E N B) _ H5); quiet_tac).
  assert (Q6 : quiet w5 w6)
    by (refine (stable_ok (R := @quiet F Action E N B) _ H6); quiet_tac).
  assert (Q7 : quiet w6 w7)
    by (refine (stable_ok (R := @quiet F Action E N B) _ H7); quiet_tac).
  assert (Q8 : quiet w7 w8)
    by (refine (stable_ok (R := @quiet F Action E N B) _ H8); quiet_tac).
  assert (Q9 : quiet w8 w9) by (exact (stable_ok (frame_loop_quiet _ _ _) H9)).
  assert (Q10 : quiet w9 w10)
    by (refine (stable_ok (R := @quiet F Action E N B) _ H10); quiet_tac).
  assert (Qt : quiet w11 w').
  { refine (stable_ok (R := @quiet F Action E N B) _ H). quiet_tac. }
  assert (Qpre : quiet w w10).
  { do 9 (eapply quiet_trans; [eassumption |]). exact Q10. }
  destruct Qpre as (Lpre & e1 & Te1 & Fe1). destruct Qt as (Lt & e2 & Te2 & Fe2).
  rewrite Hls in Lpre.
  apply (@learn_block_losses tp _ _ _ _ ls) in H11 as [(L11 & T11) | (batch & loss & post & Hlt & L11 & T11 & Fp)];
    [| | exact Hn | exact Lpre].
  - left. split; [congruence |].
    rewrite Te2, T11, Te1, <- app_assoc, skipn_app_exact.
    apply Forall_app. split; assumption.
  - right. exists batch, loss, (e1 ++ [EvSample (MINIBATCH_SIZE tp)]), (post ++ e2).
    split; [exact Hlt |]. split; [congruence |]. split; [| split].
    + rewrite Te2, T11, Te1, <- !app_assoc, skipn_app_exact. reflexivity.
    + apply Forall_app. split; [exact Fe1 | repeat constructor].
    + apply Forall_app. split; assumption.
Qed.

(** One pass that hands over takes the loop head invariant to the next pass;
    and it can only hand over with the episode alive when [epoch_num] is
    still an index of the two epoch arrays. *)
Lemma loop_head_step (iterations : Z) (save_path logdir : option string)
    (tp : TrainingParam F) (w : world) (k : nat) (lv lv' : Locals F) (w1 w' : world) :
  loop_head iterations logdir tp w k lv w1 ->
  loop_body convert_act iterations save_path tp lv w1 = Ok (Continue lv') w' ->
  loop_head iterations logdir tp w (S k) lv' w' /\
  (lv_done lv' = false -> lv_epoch_num lv' < iterations).
Proof.
  intros (evs & I1 & I2 & I3 & I4 & I5 & I6 & I7 & I8 & I9 & I10 & I11 & I12 & ls & I13 & I14)
         Hb.
  assert (Hlosses : exists ls', losses w' = Some ls' /\
                                List.length ls' = Z.to_nat iterations).
  { pose proof Hb as Hb'. apply (@loop_body_losses _ _ _ _ _ _ _ ls) in Hb';
      [| lia | exact I13].
    destruct Hb' as [(L & _) | (batch & loss & pre & post & _ & L & _)].
    - exists ls. auto.
    - eexists. split; [exact L |]. rewrite set_nth_length. exact I14. }
  pose proof (stable_ok (loop_body_cfg _ _ _ _) Hb) as (_ & C2 & C3).
  pose proof (loop_body_continue_epoch _ _ _ _ _ Hb) as (wx & Hepoch).
  apply loop_body_ok in Hb as (pd & b0 & _ & _ & _ & _ & _ & _ & _ & Htr & Hctl);
    [| exact I2].
  unfold pass_ctl in Hctl. destruct (pass_stop tp pd) eqn:Hstop; [discriminate |].
  inversion Hctl; subst lv'. clear Hctl.
  destruct (pass_events_readers iterations save_path tp lv w1 pd) as (R1 & R2 & _ & R4).
  assert (Hnew : 1 <= pass_epoch lv).
  { unfold pass_epoch. pose proof (count_resets_nonneg evs).
    destruct (lv_done lv); cbn [orb]; [lia |].
    destruct (lv_observation_num lv =? 0) eqn:G; [lia |].
    apply Z.eqb_neq in G. lia. }
  pose proof (steps_since_done_nonneg (step_dones evs)) as Hpos.
  cbn [pass_locals lv_alive_frame lv_epoch_num lv_total_reward lv_alive_frames
       lv_total_rewards lv_done] in Hepoch |- *.
  apply epoch_block_inv in Hepoch; [| lia].
  split.
  - exists (evs ++ pass_events convert_act iterations save_path tp lv w1 pd).
    rewrite step_rewards_app, step_dones_app, count_resets_app, R1, R2, R4.
    rewrite fold_left_app, steps_since_done_snoc.
    cbn [pass_locals lv_observation_num lv_epoch_num lv_alive_frame lv_total_reward
         lv_alive_frames lv_total_rewards fold_left].
    rewrite Hstop.
    split; [rewrite Htr, I1, app_assoc; reflexivity |].
    split; [congruence |].
    split; [lia |].
    split; [rewrite I4; reflexivity |].
    split; [rewrite I5; reflexivity |].
    split; [unfold pass_epoch; rewrite I6; destruct (_ || _)%bool; lia |].
    split; [intros _; exact Hnew |].
    destruct Hepoch as [(_ & Ea & Er) | (_ & _ & _ & Ea & Er)]; rewrite Ea, Er.
    + split; [exact I8 |]. split; [exact I9 |]. split; [exact I10 |].
      split; [exact I11 |]. split; [congruence | exact Hlosses].
    + rewrite !set_nth_length.
      unfold pass_epoch in Hnew |- *.
      rewrite !set_nth_head by lia.
      split; [exact I8 |]. split; [exact I9 |]. split; [exact I10 |].
      split; [exact I11 |]. split; [congruence | exact Hlosses].
  - intro Hd. rewrite Hd in Hepoch.
    destruct Hepoch as [(Haf & _) | (_ & Hlt & _)]; lia.
Qed.

(** The invariant holds at the start of every pass of a run. *)
Lemma train_loop_head (iterations : Z) (save_path logdir : option string)
    (tp : TrainingParam F) (w : world) (k : nat) (p : Pass) :
  nth_error (train_passes convert_act os_path_abspath iterations save_path logdir tp w) k
  = Some p ->
  loop_head iterations logdir tp w k (p_locals p) (p_world p).
Proof.
  intro Hk.
  pose proof (train_passes_nth _ _ _ _ _ _ Hk) as (_ & _ & _ & _ & _ & Hlt & _).
  revert Hk. unfold train_passes.
  destruct (train_prelude os_path_abspath iterations save_path logdir tp w)
    as [[sp lv] w0 | e w0] eqn:Hpre; [| destruct k; discriminate].
  pose proof (train_prelude_ok _ _ _ _ _ Hpre) as (Hsp & Hn & Hep & _ & Hd & Htp & _ & _).
  apply train_prelude_start in Hpre as (Hit & T0 & W0 & _ & A0 & R0 & L1 & L2 & L3).
  intro Hk.
  assert (H0 : loop_head iterations logdir tp w O lv w0).
  { exists (match save_path with
            | Some p => [EvMakedirs (os_path_abspath p)]
            | None => []
            end).
    rewrite A0, R0, Hep, Hn, L1, L2, !repeat_length.
    assert (Hz : nth_error (repeat (@num_zero F num) (Z.to_nat iterations)) 0 = Some num_zero).
    { destruct (Z.to_nat iterations) eqn:Hz; [lia | reflexivity]. }
    assert (Hl : exists ls, losses w0 = Some ls /\ List.length ls = Z.to_nat iterations)
      by (eexists; split; [exact L3 | apply repeat_length]).
    split; [exact T0 |]. split; [exact Htp |]. split; [reflexivity |].
    split; [destruct save_path; reflexivity |]. split; [destruct save_path; reflexivity |].
    split; [destruct save_path; reflexivity |]. split; [lia |].
    split; [reflexivity |]. split; [reflexivity |]. split; [exact Hz |].
    split; [exact Hz |]. split; [exact W0 | exact Hl]. }
  pose proof (passes_invariant (loop_head iterations logdir tp w)) as Hinv.
  assert (Hstep : forall (k : nat) (lv : Locals F) (w1 : world) lv' (w' : world),
             loop_head iterations logdir tp w k lv w1 ->
             loop_body convert_act iterations sp tp lv w1 = Ok (Continue lv') w' ->
             loop_head iterations logdir tp w (S k) lv' w').
  { intros j lv1 w1 lv' w' Hj Hb. eapply proj1. eapply loop_head_step; eassumption. }
  specialize (Hinv iterations sp tp Hstep _ _ _ O k p H0 Hk).
  exact Hinv.
Qed.

(** What a pass of a run hands over. *)
Lemma train_handover (iterations : Z) (save_path logdir : option string)
    (tp : TrainingParam F) (w : world) (k : nat) (p : Pass) (lv' : Locals F) (w' : world) :
  nth_error (train_passes convert_act os_path_abspath iterations save_path logdir tp w) k
  = Some p ->
  p_result p = Ok (Continue lv') w' ->
  loop_head iterations logdir tp w (S k) lv' w' /\
  (lv_done lv' = false -> lv_epoch_num lv' < iterations).
Proof.
  intros Hk Hres.
  pose proof (train_loop_head _ _ _ _ _ _ Hk) as Hh.
  apply train_passes_nth in Hk as (_ & _ & _ & _ & _ & _ & Hbody).
  rewrite Hbody in Hres.
  eapply loop_head_step; eassumption.
Qed.

Lemma loop_head_events (iterations : Z) (logdir : option string) (tp : TrainingParam F)
    (w : world) (k : nat) (lv : Locals F) (w1 : world) :
  loop_head iterations logdir tp w k lv w1 ->
  trace w1 = trace w ++ skipn (List.length (trace w)) (trace w1) /\
  lv_total_reward lv
  = fold_left num_add (step_rewards (skipn (List.length (trace w)) (trace w1))) num_zero /\
  lv_alive_frame lv
  = steps_since_done (step_dones (skipn (List.length (trace w)) (trace w1))) /\
  lv_epoch_num lv = count_resets (skipn (List.length (trace w)) (trace w1)).
Proof.
  intros (evs & I1 & I2 & I3 & I4 & I5 & I6 & _).
  rewrite I1 at 2 3 4 5. rewrite skipn_app_exact. auto.
Qed.

(** ** More of [train], pass by pass *)

Lemma chunk_size_in_run (iterations n : Z) :
  0 < n < iterations -> chunk_size iterations n = 10000.
Proof.
  intros [H1 H2]. unfold chunk_size.
  assert (1 <= iterations / n) by (apply Z.div_le_lower_bound; lia).
  lia.
Qed.

(** X1. In a run of [train], a pass that ends without an exception sets the
    environment's chunk size exactly when its index is 999 modulo 1000, and
    the size it sets is then always 10000: the pass index is below
    [iterations], so [iterations // observation_num] is at least 1 and the
    [min] with 10000 decides. *)
Theorem chunk_size_is_10000_at_every_thousandth_pass
    (iterations : Z) (save_path logdir : option string)
    (tp : TrainingParam F) (w : world) (k : nat) (p : Pass) (ctl : LoopCtl F) (w' : world)
    (nb : Z) :
  nth_error (train_passes convert_act os_path_abspath iterations save_path logdir tp w) k
  = Some p ->
  p_result p = Ok ctl w' ->
  (In (EvSetChunk nb) (p_events p) <-> Z.of_nat k mod 1000 = 999 /\ nb = 10000).
Proof.
  intros Hk Hres.
  destruct (train_pass_ok _ _ _ _ _ _ Hk Hres)
    as (pd & b0 & _ & _ & _ & _ & _ & _ & _ & Hev & _).
  destruct (train_passes_nth _ _ _ _ _ _ Hk) as (_ & _ & Hn & _ & _ & Hlt & _).
  rewrite Hev. clear Hev. unfold pass_events, chunk_events. rewrite Hn.
  split.
  - unfold reset_events, init_events, learn_events, save_events, tensorboard_events.
    intro H. in_events H.
    match goal with E : (_ =? 999) = true |- _ => apply Z.eqb_eq in E; rename E into Hm end.
    split; [exact Hm |].
    apply chunk_size_in_run.
    pose proof (Z.mod_pos_bound (Z.of_nat k) 1000 ltac:(lia)).
    assert (Z.of_nat k <> 0) by (intro E0; rewrite E0 in Hm; discriminate Hm).
    lia.
  - intros [Hm Hnb]. apply Z.eqb_eq in Hm. rewrite Hm. subst nb.
    rewrite chunk_size_in_run.
    + in_find.
    + apply Z.eqb_eq in Hm.
      assert (Z.of_nat k <> 0) by (intro E0; rewrite E0 in Hm; discriminate Hm).
      lia.
Qed.

(** X2. [total_reward] is the sum of the rewards of all the environment steps
    the run has made so far, added up in the order of the steps from 0.0: it
    is never set back, not even when an episode ends and the environment is
    reset. *)
Theorem total_reward_sums_all_steps_of_the_run
    (iterations : Z) (save_path logdir : option string)
    (tp : TrainingParam F) (w : world) (k : nat) (p : Pass) :
  nth_error (train_passes convert_act os_path_abspath iterations save_path logdir tp w) k
  = Some p ->
  trace (p_world p) = trace w ++ events_before w p /\
  lv_total_reward (p_locals p)
  = fold_left num_add (step_rewards (events_before w p)) num_zero /\
  (forall lv' w', p_result p = Ok (Continue lv') w' ->
     lv_total_reward lv'
     = fold_left num_add (step_rewards (events_before w p ++ p_events p)) num_zero).
Proof.
  intro Hk.
  pose proof (train_loop_head _ _ _ _ _ _ Hk) as Hh.
  apply loop_head_events in Hh as (E1 & E2 & _).
  split; [exact E1 |]. split; [exact E2 |].
  intros lv' w' Hres.
  destruct (train_handover _ _ _ _ _ _ Hk Hres) as [Hh' _].
  apply loop_head_events in Hh' as (E1' & E2' & _).
  rewrite E2'. f_equal. f_equal.
  apply train_passes_nth in Hk as (_ & _ & _ & _ & _ & _ & Hbody).
  pose proof Hres as Hres2. rewrite Hbody in Hres2.
  pose proof (stable_ok (loop_body_grows _ _ _ _) Hres2) as (evs & Hevs & _).
  unfold p_events. rewrite Hres. cbn [world_of]. rewrite Hevs, skipn_app_exact.
  change (skipn (List.length (trace w)) (trace (p_world p))) with (events_before w p) in E1.
  remember (events_before w p) as eb.
  rewrite E1, <- app_assoc, skipn_app_exact. reflexivity.
Qed.

(** X3. [alive_frame] is the number of environment steps the run has made
    since the last step that reported [done] (since the start of the run when
    none did). *)
Theorem alive_frame_counts_the_steps_since_the_last_done
    (iterations : Z) (save_path logdir : option string)
    (tp : TrainingParam F) (w : world) (k : nat) (p : Pass) :
  nth_error (train_passes convert_act os_path_abspath iterations save_path logdir tp w) k
  = Some p ->
  lv_alive_frame (p_locals p) = steps_since_done (step_dones (events_before w p)) /\
  0 <= lv_alive_frame (p_locals p) <= Z.of_nat k.
Proof.
  intro Hk.
  pose proof (train_loop_head _ _ _ _ _ _ Hk) as Hh.
  apply loop_head_events in Hh as (_ & _ & E3 & _).
  split; [exact E3 |].
  split; [rewrite E3; apply steps_since_done_nonneg |].
  (* at most one more per pass *)
  revert p Hk E3. induction k as [| k IH]; intros p Hk E3.
  - unfold train_passes in Hk.
    destruct (train_prelude os_path_abspath iterations save_path logdir tp w)
      as [[sp lv] w0 | e w0] eqn:Hpre; [| discriminate].
    apply train_prelude_start in Hpre as (_ & _ & _ & _ & A0 & _).
    destruct (Z.to_nat iterations); simpl in Hk;
      destruct (lv_observation_num lv <? iterations); try discriminate.
    inversion Hk; subst p. simpl. lia.
  - destruct (nth_error (train_passes convert_act os_path_abspath iterations save_path
                           logdir tp w) k) as [q |] eqn:Hq.
    + pose proof (train_passes_step _ _ _ _ _ _ Hq Hk) as Hres.
      pose proof (train_loop_head _ _ _ _ _ _ Hq) as Hhq.
      apply loop_head_events in Hhq as (_ & _ & E3q & _).
      specialize (IH q eq_refl E3q).
      destruct (train_passes_nth _ _ _ _ _ _ Hq) as (Htp & _).
      destruct (train_pass_ok _ _ _ _ _ _ Hq Hres)
        as (pd & b0 & _ & _ & _ & _ & _ & _ & _ & _ & Hctl).
      unfold pass_ctl in Hctl. destruct (pass_stop tp pd); [discriminate |].
      inversion Hctl as [Hlv]. rewrite Hlv. cbn [pass_locals lv_alive_frame].
      destruct (pd_done pd); lia.
    + exfalso. apply nth_error_None in Hq.
      assert (Hsome : nth_error (train_passes convert_act os_path_abspath iterations
                                   save_path logdir tp w) (S k) <> None) by congruence.
      apply nth_error_Some in Hsome. lia.
Qed.

(** X4. [epoch_num] is the number of times the run has reset the environment
    so far; it is at least 1 from the second pass on, and never more than the
    number of passes made. *)
Theorem epoch_num_counts_the_resets
    (iterations : Z) (save_path logdir : option string)
    (tp : TrainingParam F) (w : world) (k : nat) (p : Pass) :
  nth_error (train_passes convert_act os_path_abspath iterations save_path logdir tp w) k
  = Some p ->
  lv_epoch_num (p_locals p) = count_resets (events_before w p) /\
  (k <> O -> 1 <= lv_epoch_num (p_locals p)) /\
  lv_epoch_num (p_locals p) <= Z.of_nat k.
Proof.
  intro Hk.
  pose proof (train_loop_head _ _ _ _ _ _ Hk) as Hh.
  pose proof Hh as (evs & _ & _ & _ & _ & _ & _ & I7 & _).
  apply loop_head_events in Hh as (_ & _ & _ & E4).
  split; [exact E4 |]. split; [intro Hk0; apply I7; lia |].
  clear I7 E4.
  revert p Hk. induction k as [| k IH]; intros p Hk.
  - unfold train_passes in Hk.
    destruct (train_prelude os_path_abspath iterations save_path logdir tp w)
      as [[sp lv] w0 | e w0] eqn:Hpre; [| discriminate].
    apply train_prelude_ok in Hpre as (_ & _ & Hep & _).
    destruct (Z.to_nat iterations); simpl in Hk;
      destruct (lv_observation_num lv <? iterations); try discriminate.
    inversion Hk; subst p. simpl. lia.
  - destruct (nth_error (train_passes convert_act os_path_abspath iterations save_path
                           logdir tp w) k) as [q |] eqn:Hq.
    + pose proof (train_passes_step _ _ _ _ _ _ Hq Hk) as Hres.
      specialize (IH q eq_refl).
      destruct (train_pass_ok _ _ _ _ _ _ Hq Hres)
        as (pd & b0 & _ & _ & _ & _ & _ & _ & _ & _ & Hctl).
      unfold pass_ctl in Hctl. destruct (pass_stop tp pd); [discriminate |].
      inversion Hctl as [Hlv]. rewrite Hlv. cbn [pass_locals lv_epoch_num].
      unfold pass_epoch. destruct (_ || _)%bool; lia.
    + exfalso. apply nth_error_None in Hq.
      assert (Hsome : nth_error (train_passes convert_act os_path_abspath iterations
                                   save_path logdir tp w) (S k) <> None) by congruence.
      apply nth_error_Some in Hsome. lia.
Qed.

(** X6. Cell 0 of [alive_frames] and of [total_rewards] is never written:
    [epoch_num] is already 1 when the arrays are first written, so both cells
    keep the 0.0 of [np.zeros] through the whole run, in the arrays a pass
    starts with and in those it hands over (and to [_save_tensorboard]). *)
Theorem epoch_arrays_never_written_at_index_0
    (iterations : Z) (save_path logdir : option string)
    (tp : TrainingParam F) (w : world) (k : nat) (p : Pass) :
  nth_error (train_passes convert_act os_path_abspath iterations save_path logdir tp w) k
  = Some p ->
  nth_error (lv_alive_frames (p_locals p)) 0 = Some num_zero /\
  nth_error (lv_total_rewards (p_locals p)) 0 = Some num_zero /\
  (forall lv' w', p_result p = Ok (Continue lv') w' ->
     nth_error (lv_alive_frames lv') 0 = Some num_zero /\
     nth_error (lv_total_rewards lv') 0 = Some num_zero /\
     List.length (lv_alive_frames lv') = Z.to_nat iterations /\
     List.length (lv_total_rewards lv') = Z.to_nat iterations).
Proof.
  intro Hk.
  pose proof (train_loop_head _ _ _ _ _ _ Hk)
    as (evs & _ & _ & _ & _ & _ & _ & _ & _ & _ & I10 & I11 & _).
  split; [exact I10 |]. split; [exact I11 |].
  intros lv' w' Hres.
  destruct (train_handover _ _ _ _ _ _ Hk Hres) as [Hh _].
  destruct Hh as (evs' & _ & _ & _ & _ & _ & _ & _ & J8 & J9 & J10 & J11 & _).
  auto.
Qed.

(** ** What any pass may save and log

    The facts below hold for a pass however it ends, so also for one that an
    exception cuts short. *)

Lemma writes_only_refl (iterations n : Z) (save_path : option string) (w : world) :
  writes_only iterations n save_path w w.
Proof.
  split; [reflexivity |]. split; [reflexivity |].
  exists []. split; [symmetry; apply app_nil_r | constructor].
Qed.

Lemma writes_only_trans (iterations n : Z) (save_path : option string) (a b c : world) :
  writes_only iterations n save_path a b -> writes_only iterations n save_path b c ->
  writes_only iterations n save_path a c.
Proof.
  intros (N1 & W1 & e1 & T1 & F1) (N2 & W2 & e2 & T2 & F2).
  split; [congruence |]. split; [congruence |].
  exists (e1 ++ e2). split; [rewrite T2, T1, app_assoc; reflexivity |].
  apply Forall_app. split; [exact F1 |]. rewrite N1, W1 in F2. exact F2.
Qed.

Ltac writes_write :=
  cbv beta; split; [reflexivity |]; split; [reflexivity |];
  first [ exists []; split; [symmetry; apply app_nil_r | constructor]
        | eexists; split; [reflexivity | constructor; [exact I | constructor]] ].

(** Lines 152-154, however they end: a save is written only at a pass whose
    index is a multiple of 1000 or [iterations - 1], and goes to the join of
    the save path and the agent's name. *)
Lemma save_block_writes (iterations n : Z) (save_path : option string) :
  stable (@writes_only F Action E N B iterations n save_path)
         (save_block iterations n save_path).
Proof.
  intro w. unfold save_block, SAVING_NUM.
  destruct ((n mod 1000 =? 0) || (n =? iterations - 1))%bool eqn:Hc;
    [| apply writes_only_refl].
  assert (Hc' : n mod 1000 = 0 \/ n = iterations - 1).
  { apply orb_true_iff in Hc as [Hc | Hc]; apply Z.eqb_eq in Hc; auto. }
  unfold save, attr, emit, bind, ret, raise, gets, modify.
  destruct save_path as [sp |]; cbn [world_of trace set_trace deep_q].
  - destruct (deep_q w) as [net |]; cbn [world_of].
    + split; [reflexivity |]. split; [reflexivity |].
      exists [EvPrint "Saving Network"; EvSaveNetwork (os_path_join sp (name w))].
      split; [cbn [trace set_trace set_deep_q name]; rewrite <- app_assoc; reflexivity |].
      constructor; [exact I |]. constructor; [| constructor].
      split; [exact Hc' |]. exists sp. split; reflexivity.
    + split; [reflexivity |]. split; [reflexivity |].
      exists [EvPrint "Saving Network"].
      split; [reflexivity |]. constructor; [exact I | constructor].
  - split; [reflexivity |]. split; [reflexivity |].
    exists [EvPrint "Saving Network"].
    split; [reflexivity |]. constructor; [exact I | constructor].
Qed.

(** [_save_tensorboard], however it ends: it logs only when there is a
    writer and the step is a multiple of [UPDATE_FREQ]. *)
Lemma _save_tensorboard_writes (iterations n epoch_num : Z) (save_path : option string)
    (epoch_rewards epoch_alive : list F) :
  stable (@writes_only F Action E N B iterations n save_path)
         (_save_tensorboard n epoch_num UPDATE_FREQ epoch_rewards epoch_alive).
Proof.
  intro w. unfold _save_tensorboard, UPDATE_FREQ, py_mod, emit, bind, ret, raise, gets, modify.
  destruct (tf_writer w) as [tw |] eqn:Htw; cbn [world_of]; [| apply writes_only_refl].
  change (100 =? 0) with false. cbn [world_of].
  destruct (n mod 100 =? 0) eqn:Hm; cbn [world_of]; [| apply writes_only_refl].
  apply Z.eqb_eq in Hm.
  split; [reflexivity |]. split; [reflexivity |].
  exists [EvTensorboard n epoch_num epoch_rewards epoch_alive].
  split; [reflexivity |]. constructor; [| constructor].
  rewrite Htw. split; [discriminate |]. split; [exact Hm | reflexivity].
Qed.

Lemma frame_loop_writes (iterations n : Z) (save_path : option string)
    (k : nat) (act : ActArg Action) (st : bool * F * F * Z) :
  stable (@writes_only F Action E N B iterations n save_path) (frame_loop k act st).
Proof.
  revert st. induction k as [| k IH]; intro st; simpl.
  - apply stable_ret, writes_only_refl.
  - stable_tac (@writes_only_refl iterations n save_path)
               (@writes_only_trans iterations n save_path)
               writes_write.
    apply IH.
Qed.

(** The loop body, however it ends. *)
Lemma loop_body_writes (iterations : Z) (save_path : option string)
    (tp : TrainingParam F) (lv : Locals F) :
  stable (@writes_only F Action E N B iterations (lv_observation_num lv) save_path)
         (loop_body convert_act iterations save_path tp lv).
Proof.
  unfold loop_body.
  repeat first
    [ apply save_block_writes
    | apply _save_tensorboard_writes
    | apply frame_loop_writes
    | stable_step (@writes_only_refl iterations (lv_observation_num lv) save_path)
                  (@writes_only_trans iterations (lv_observation_num lv) save_path)
                  writes_write ].
Qed.

(** So for the passes of a run. *)
Lemma train_pass_writes (iterations : Z) (save_path logdir : option string)
    (tp : TrainingParam F) (w : world) (k : nat) (p : Pass) :
  nth_error (train_passes convert_act os_path_abspath iterations save_path logdir tp w) k
  = Some p ->
  Forall (may_write iterations (Z.of_nat k) (option_map os_path_abspath save_path) (name w)
            (option_map (fun d => os_path_join d (name w)) logdir))
         (p_events p).
Proof.
  intro Hk.
  pose proof (train_loop_head _ _ _ _ _ _ Hk)
    as (evs0 & _ & _ & _ & _ & _ & _ & _ & _ & _ & _ & _ & I12 & _).
  destruct (train_passes_nth _ _ _ _ _ _ Hk) as (_ & Hname & Hn & _ & _ & _ & Hbody).
  pose proof (loop_body_writes iterations (option_map os_path_abspath save_path) tp
                (p_locals p) (p_world p)) as (_ & _ & evs & Hevs & Hall).
  rewrite <- Hbody in Hevs.
  unfold p_events. rewrite Hevs, skipn_app_exact.
  rewrite Hn, Hname, I12 in Hall. exact Hall.
Qed.

(** C7 (amended). The network is saved to [os.path.join] of the absolute save
    path and the agent's name.  Whatever way a pass of a run ends, it saves
    only if its index is a multiple of the saving interval (1000) or is
    [iterations - 1], and never when there is no save path.  A pass that ends
    without an exception saves exactly when, besides, it was not cut short by
    a loss that is not finite. *)
Theorem C7_save_every_1000_and_at_the_end_unless_aborted
    (iterations : Z) (save_path logdir : option string)
    (tp : TrainingParam F) (w : world) (k : nat) (p : Pass) (path : string) :
  nth_error (train_passes convert_act os_path_abspath iterations save_path logdir tp w) k
  = Some p ->
  (In (EvSaveNetwork path) (p_events p) ->
   (Z.of_nat k mod 1000 = 0 \/ Z.of_nat k = iterations - 1) /\
   exists sp, save_path = Some sp /\
              path = os_path_join (os_path_abspath sp) (name w)) /\
  (forall ctl w',
      p_result p = Ok ctl w' ->
      (In (EvSaveNetwork path) (p_events p) <->
       (exists lv', ctl = Continue lv') /\
       (Z.of_nat k mod 1000 = 0 \/ Z.of_nat k = iterations - 1) /\
       exists sp, save_path = Some sp /\
                  path = os_path_join (os_path_abspath sp) (name w))).
Proof.
  intro Hk. split.
  - intro Hin.
    pose proof Hk as Hall. apply train_pass_writes in Hall.
    rewrite Forall_forall in Hall. specialize (Hall _ Hin).
    destruct Hall as (Hc & sp & Hsp & Hpath).
    split; [exact Hc |].
    destruct save_path as [sp0 |]; [| discriminate].
    inversion Hsp; subst sp. exists sp0. auto.
  - intros ctl w' Hres.
    destruct (train_pass_ok _ _ _ _ _ _ Hk Hres)
      as (pd & b0 & _ & _ & _ & _ & _ & _ & _ & Hev & Hctl).
    destruct (train_passes_nth _ _ _ _ _ _ Hk) as (_ & Hname & Hn & _).
    rewrite Hev, in_pass_events_save, Hn, Hname. unfold SAVING_NUM.
    unfold pass_ctl in Hctl.
    split.
    + intros (Hs & Hc & sp & Hsp & Hpath). rewrite Hs in Hctl.
      split; [eexists; exact Hctl |]. split.
      * apply orb_true_iff in Hc as [Hc | Hc]; apply Z.eqb_eq in Hc; auto.
      * destruct save_path as [sp0 |]; [| discriminate]. inversion Hsp; subst sp.
        exists sp0. auto.
    + intros ((lv' & Hcont) & Hc & sp & Hsp & Hpath). subst save_path path.
      split; [destruct (pass_stop tp pd); [congruence | reflexivity] |]. split.
      * apply orb_true_iff. destruct Hc as [Hc | Hc]; [left | right]; now apply Z.eqb_eq.
      * exists (os_path_abspath sp). auto.
Qed.

(** X7. Whatever way a pass of a run ends, it logs the metrics only if
    [train] was given a [logdir] and the index of the pass is a multiple of
    100, and what it logs carries that index as its step.  A pass that ends
    without an exception logs exactly when, besides, it was not cut short by
    a loss that is not finite; it then reports the epoch counter and the two
    epoch arrays it hands over. *)
Theorem tensorboard_logs_every_100_passes_when_logdir_is_given
    (iterations : Z) (save_path logdir : option string)
    (tp : TrainingParam F) (w : world) (k : nat) (p : Pass)
    (s e : Z) (r a : list F) :
  nth_error (train_passes convert_act os_path_abspath iterations save_path logdir tp w) k
  = Some p ->
  (In (EvTensorboard s e r a) (p_events p) ->
   logdir <> None /\ Z.of_nat k mod 100 = 0 /\ s = Z.of_nat k) /\
  (forall ctl w',
      p_result p = Ok ctl w' ->
      (In (EvTensorboard s e r a) (p_events p) <->
       logdir <> None /\ Z.of_nat k mod 100 = 0 /\ s = Z.of_nat k /\
       exists lv', ctl = Continue lv' /\ e = lv_epoch_num lv' /\
                   r = lv_total_rewards lv' /\ a = lv_alive_frames lv')).
Proof.
  intro Hk. split.
  - intro Hin.
    pose proof Hk as Hall. apply train_pass_writes in Hall.
    rewrite Forall_forall in Hall. specialize (Hall _ Hin).
    destruct Hall as (Htw & Hm & Hs).
    split; [| split; [exact Hm | exact Hs]].
    destruct logdir; [discriminate | contradiction Htw; reflexivity].
  - intros ctl w' Hres.
    destruct (train_pass_ok _ _ _ _ _ _ Hk Hres)
      as (pd & b0 & _ & _ & _ & _ & _ & _ & _ & Hev & Hctl).
    destruct (train_passes_nth _ _ _ _ _ _ Hk) as (_ & _ & Hn & _).
    pose proof (train_loop_head _ _ _ _ _ _ Hk)
      as (evs & _ & _ & _ & _ & _ & _ & _ & _ & _ & _ & _ & I12 & _).
    rewrite Hev. clear Hev. unfold pass_events, tensorboard_events, pass_ctl in *.
    rewrite I12, Hn. unfold UPDATE_FREQ.
    split.
    + unfold chunk_events, reset_events, init_events, learn_events, save_events.
      intro H. in_events H.
      match goal with E : (_ =? 0) = true |- _ => apply Z.eqb_eq in E; rename E into Hm end.
      split; [destruct logdir; [discriminate | discriminate] |].
      split; [exact Hm |]. split; [reflexivity |].
      eexists. split; [reflexivity |]. repeat split.
    + intros (Hld & Hm & Hs & lv' & Hc & He & Hr & Ha).
      destruct (pass_stop tp pd); [subst ctl; discriminate |].
      subst ctl. inversion Hc; subst lv'. subst s e r a.
      cbn [pass_locals lv_epoch_num lv_total_rewards lv_alive_frames].
      destruct logdir as [d |]; [| contradiction]. cbn [option_map].
      apply Z.eqb_eq in Hm. rewrite Hm.
      right. do 6 (apply in_or_app; right). left. reflexivity.
Qed.

(** X8. A pass of a run that ends without an exception asks the network for
    a move once, makes one environment step, with the action converted from
    that move, and stores one record, holding that move and the [done] flag
    of that step; nothing else is asked of the network's prediction, the
    environment's step or the buffer's add. *)
Theorem one_prediction_one_step_one_record_per_pass
    (iterations : Z) (save_path logdir : option string)
    (tp : TrainingParam F) (w : world) (k : nat) (p : Pass) (ctl : LoopCtl F) (w' : world) :
  nth_error (train_passes convert_act os_path_abspath iterations save_path logdir tp w) k
  = Some p ->
  p_result p = Ok ctl w' ->
  exists pm_i reward done t,
    filter is_interaction_event (p_events p)
    = [EvPredict (epsilon_at tp (S k)) pm_i;
       EvStep (act_of convert_act pm_i) reward done;
       EvStore t] /\
    t_action t = pm_i /\ t_done t = done /\
    (forall i, pm_i = [i] -> act_of convert_act pm_i = OneAct (convert_act i)) /\
    (List.length pm_i <> 1%nat ->
     act_of convert_act pm_i = ActList (map convert_act pm_i)).
Proof.
  intros Hk Hres.
  destruct (train_pass_ok _ _ _ _ _ _ Hk Hres)
    as (pd & b0 & _ & _ & _ & Hta & _ & Htd & _ & Hev & _).
  destruct (train_passes_nth _ _ _ _ _ _ Hk) as (_ & _ & _ & Heps & _).
  exists (pd_pm_i pd), (pd_reward pd), (pd_done pd), (pd_stored pd).
  split; [| split; [exact Hta | split; [exact Htd | split]]].
  - rewrite Hev. unfold pass_events. rewrite Heps.
    change (epsilon_at tp (S k)) with (epsilon_step tp (epsilon_at tp k)).
    unfold chunk_events, reset_events, init_events, learn_events, save_events,
      tensorboard_events, pass_stop.
    repeat match goal with
           | |- context [if ?c then _ else _] => destruct c
           | |- context [match ?x with _ => _ end] => destruct x
           end; reflexivity.
  - intros i Hi. rewrite Hi. reflexivity.
  - intro Hlen. unfold act_of, _convert_all_act.
    destruct (pd_pm_i pd) as [| x [| y l]]; [reflexivity | | reflexivity].
    contradiction Hlen. reflexivity.
Qed.

(** ** The states a run stores *)

Lemma same_process_buffer_refl (w : world) : same_process_buffer w w.
Proof. reflexivity. Qed.

Lemma same_process_buffer_trans (a b c : world) :
  same_process_buffer a b -> same_process_buffer b c -> same_process_buffer a c.
Proof. unfold same_process_buffer. congruence. Qed.

Ltac pb_tac :=
  stable_tac same_process_buffer_refl same_process_buffer_trans
             ltac:(unfold same_process_buffer; reflexivity).

Ltac grows_tac :=
  stable_tac (@grows_refl F Action E N B (fun _ => True))
             (@grows_trans F Action E N B (fun _ => True))
             grows_solve.

Lemma frame_loop_one_buffer (act : ActArg Action) (st r : bool * F * F * Z) (w w9 : world) :
  frame_loop 1 act st w = Ok r w9 ->
  process_buffer w9
  = process_buffer w ++ [obs_vector (fst (fst (fst (env_step act (env w)))))].
Proof.
  simpl. unfold call_env_step, _update_process_buffer, convert_obs, obs_vector,
    _update_loop, emit.
  intro H. destruct st as [[[d0 r0] t0] a0]. run_inv H; run_done.
Qed.

(** The record a pass stores: its state is what the process buffer held when
    the pass began unless the pass resets the environment, and its next state
    is the one vector the pass leaves in the process buffer. *)
Lemma loop_body_states (iterations : Z) (save_path : option string) (tp : TrainingParam F)
    (lv : Locals F) (w w' : world) (ctl : LoopCtl F) :
  training_param w = Some tp ->
  loop_body convert_act iterations save_path tp lv w = Ok ctl w' ->
  exists t e1 e2,
    trace w' = trace w ++ e1 ++ EvStore t :: e2 /\
    ((lv_done lv || (lv_observation_num lv =? 0))%bool = false ->
     t_state t = List.concat (process_buffer w)) /\
    process_buffer w' = [t_next_state t].
Proof.
  intros Htp H. unfold loop_body in H.
  apply bind_ok_inv in H as (u1 & w1 & H1 & H).
  apply bind_ok_inv in H as (u2 & w2 & H2 & H).
  apply bind_ok_inv in H as (ep' & w3 & H3 & H).
  apply bind_ok_inv in H as (eps & w4 & H4 & H).
  apply bind_ok_inv in H as (st & w5 & H5 & H).
  apply bind_ok_inv in H as (u6 & w6 & H6 & H).
  apply bind_ok_inv in H as (u7 & w7 & H7 & H).
  apply bind_ok_inv in H as ([[pm_i pq_v] act] & w8 & H8 & H).
  unfold _init_local_train_loop in H.
  apply bind_ok_inv in H as ([[[d r] tr] af] & w9 & H9 & H).
  apply bind_ok_inv in H as (u10 & w10 & H10 & H).
  (* the trace *)
  assert (G1 : grows (fun _ => True) w w1)
    by (refine (stable_ok (R := @grows F Action E N B (fun _ => True)) _ H1); grows_tac).
  assert (G2 : grows (fun _ => True) w1 w2)
    by (refine (stable_ok (R := @grows F Action E N B (fun _ => True)) _ H2); grows_tac).
  assert (G3 : grows (fun _ => True) w2 w3)
    by (refine (stable_ok (R := @grows F Action E N B (fun _ => True)) _ H3); grows_tac).
  assert (G4 : grows (fun _ => True) w3 w4)
    by (refine (stable_ok (R := @grows F Action E N B (fun _ => True)) _ H4); grows_tac).
  assert (G5 : grows (fun _ => True) w4 w5)
    by (refine (stable_ok (R := @grows F Action E N B (fun _ => True)) _ H5); grows_tac).
  assert (G6 : grows (fun _ => True) w5 w6)
    by (refine (stable_ok (R := @grows F Action E N B (fun _ => True)) _ H6); grows_tac).
  assert (G7 : grows (fun _ => True) w6 w7)
    by (refine (stable_ok (R := @grows F Action E N B (fun _ => True)) _ H7); grows_tac).
  assert (G8 : grows (fun _ => True) w7 w8)
    by (refine (stable_ok (R := @grows F Action E N B (fun _ => True)) _ H8); grows_tac).
  assert (G9 : grows (fun _ => True) w8 w9)
    by (exact (stable_ok (frame_loop_grows _ _ _) H9)).
  assert (Gt : grows (fun _ => True) w10 w').
  { refine (stable_ok (R := @grows F Action E N B (fun _ => True)) _ H). grows_tac. }
  assert (Gpre : grows (fun _ => True) w w9).
  { do 8 (eapply grows_trans; [eassumption |]). exact G9. }
  destruct Gpre as (e1 & Te1 & _). destruct Gt as (e2 & Te2 & _).
  (* the process buffer *)
  assert (P1 : same_process_buffer w w1)
    by (refine (stable_ok (R := @same_process_buffer F Action E N B) _ H1); pb_tac).
  assert (P2 : same_process_buffer w1 w2)
    by (refine (stable_ok (R := @same_process_buffer F Action E N B) _ H2); pb_tac).
  assert (P8 : same_process_buffer w7 w8)
    by (refine (stable_ok (R := @same_process_buffer F Action E N B) _ H8); pb_tac).
  assert (P10 : same_process_buffer w9 w10)
    by (refine (stable_ok (R := @same_process_buffer F Action E N B) _ H10); pb_tac).
  assert (Pt : same_process_buffer w10 w').
  { refine (stable_ok (R := @same_process_buffer F Action E N B) _ H). pb_tac. }
  assert (P7 : process_buffer w7 = [])
    by (unfold _reset_process_buffer, modify in H7; inversion H7; reflexivity).
  pose proof (stable_ok (chunk_block_cfg _ _) H2) as [[_ [C2t _]] _].
  pose proof (stable_ok (_need_reset_cfg _ _ _) H3) as [[_ [C3t _]] _].
  assert (C1t : training_param w1 = training_param w)
    by (unfold emit, modify in H1; inversion H1; reflexivity).
  apply decay_epsilon_ok in H4 as [E4 _].
  apply _convert_process_buffer_ok in H5 as (E5 & Hst & _ & tp0 & Htp0 & Hnf).
  subst w4 w5.
  assert (tp0 = tp) by congruence. subst tp0.
  rewrite Hnf in H9. change (Z.to_nat 1) with 1%nat in H9.
  apply frame_loop_one_buffer in H9 as P9.
  apply _store_new_state_ok in H10 as (b & t & _ & _ & T10 & Hts & _ & _ & _ & Hnext).
  unfold same_process_buffer in *.
  exists t, e1, e2. split; [| split].
  - rewrite Te2, T10, Te1. rewrite <- !app_assoc. reflexivity.
  - intro Hc. rewrite Hts, Hst. unfold _need_reset in H3. rewrite Hc in H3.
    unfold ret in H3. inversion H3; subst. cbn [List.concat]. rewrite app_nil_r.
    congruence.
  - rewrite Pt, P10, Hnext, P9, P8, P7. cbn [app List.concat]. rewrite app_nil_r.
    reflexivity.
Qed.

Lemma in_pass_events_store (iterations : Z) (save_path : option string)
    (tp : TrainingParam F) (lv : Locals F) (w : world) (pd : PassData) (t : Transition F) :
  In (EvStore t) (pass_events convert_act iterations save_path tp lv w pd) ->
  t = pd_stored pd.
Proof.
  unfold pass_events, chunk_events, reset_events, init_events, learn_events, save_events,
    tensorboard_events.
  intro H. in_events H; reflexivity.
Qed.

(** The same for a pass of a run, with the record named by the trace. *)
Lemma train_pass_states (iterations : Z) (save_path logdir : option string)
    (tp : TrainingParam F) (w : world) (k : nat) (p : Pass) (ctl : LoopCtl F) (w' : world) :
  nth_error (train_passes convert_act os_path_abspath iterations save_path logdir tp w) k
  = Some p ->
  p_result p = Ok ctl w' ->
  exists t,
    stored (p_events p) = [t] /\
    ((lv_done (p_locals p) || (lv_observation_num (p_locals p) =? 0))%bool = false ->
     t_state t = List.concat (process_buffer (p_world p))) /\
    process_buffer w' = [t_next_state t] /\
    (forall lv', ctl = Continue lv' -> lv_done lv' = t_done t).
Proof.
  intros Hk Hres.
  destruct (train_pass_ok _ _ _ _ _ _ Hk Hres)
    as (pd & b0 & _ & _ & _ & _ & _ & Htd & _ & Hev & Hctl).
  destruct (train_passes_nth _ _ _ _ _ _ Hk) as (Htp & _ & _ & _ & _ & _ & Hbody).
  pose proof Hres as Hres2. rewrite Hbody in Hres2.
  apply loop_body_states in Hres2 as (t & e1 & e2 & Ht & Hst & Hpb); [| exact Htp].
  assert (Hin : In (EvStore t) (p_events p)).
  { unfold p_events. rewrite Hres. cbn [world_of]. rewrite Ht, skipn_app_exact.
    apply in_or_app. right. left. reflexivity. }
  rewrite Hev in Hin. apply in_pass_events_store in Hin. subst t.
  exists (pd_stored pd).
  split; [rewrite Hev; apply pass_events_readers |].
  split; [exact Hst |]. split; [exact Hpb |].
  intros lv' Hc. rewrite Hc in Hctl. unfold pass_ctl in Hctl.
  destruct (pass_stop tp pd); [discriminate |].
  inversion Hctl; subst lv'. cbn [pass_locals lv_done]. congruence.
Qed.

(** X9. Within an episode the stored records chain: when a pass stores a
    record whose [done] flag is false, the record the next pass stores has
    as its state the next state of that record (both are the converted
    observation the step returned, kept in the process buffer in between). *)
Theorem stored_states_chain_within_an_episode
    (iterations : Z) (save_path logdir : option string)
    (tp : TrainingParam F) (w : world) (k : nat) (p q : Pass) (ctl : LoopCtl F) (w' : world) :
  nth_error (train_passes convert_act os_path_abspath iterations save_path logdir tp w) k
  = Some p ->
  nth_error (train_passes convert_act os_path_abspath iterations save_path logdir tp w) (S k)
  = Some q ->
  p_result q = Ok ctl w' ->
  exists t1 t2,
    stored (p_events p) = [t1] /\ stored (p_events q) = [t2] /\
    process_buffer (p_world q) = [t_next_state t1] /\
    (t_done t1 = false -> t_state t2 = t_next_state t1).
Proof.
  intros Hp Hq Hres.
  pose proof (train_passes_step _ _ _ _ _ _ Hp Hq) as Hpres.
  destruct (train_pass_states _ _ _ _ _ _ Hp Hpres) as (t1 & S1 & _ & P1 & D1).
  destruct (train_pass_states _ _ _ _ _ _ Hq Hres) as (t2 & S2 & St2 & _ & _).
  destruct (train_passes_nth _ _ _ _ _ _ Hq) as (_ & _ & Hn & _).
  exists t1, t2. split; [exact S1 |]. split; [exact S2 |]. split; [exact P1 |].
  intro Hd. rewrite St2.
  - rewrite P1. cbn [List.concat]. apply app_nil_r.
  - rewrite (D1 _ eq_refl), Hd, Hn. reflexivity.
Qed.

(** ** The edges of [train] *)

(** Lines 73-103 raise only at [np.zeros], on a negative [iterations]; by
    then the replay buffer has been replaced and the save directory made. *)
Lemma train_prelude_run (iterations : Z) (save_path logdir : option string)
    (tp : TrainingParam F) (w : world) :
  exists w0,
    trace w0 = trace w ++ match save_path with
                          | Some p => [EvMakedirs (os_path_abspath p)]
                          | None => []
                          end /\
    replay_buffer w0 = Some (rb_new (BUFFER_SIZE tp)) /\
    ((iterations < 0 /\
      train_prelude os_path_abspath iterations save_path logdir tp w = Raise ValueError w0) \/
     (0 <= iterations /\
      exists sp lv,
        train_prelude os_path_abspath iterations save_path logdir tp w = Ok (sp, lv) w0)).
Proof.
  unfold train_prelude, _init_replay_buffer, np_zeros, attr, emit,
    _init_global_train_loop, _init_local_train_loop.
  unfold bind, ret, raise, gets, modify. wsimpl.
  destruct (iterations <? 0) eqn:G; [apply Z.ltb_lt in G | apply Z.ltb_ge in G].
  - destruct save_path; eexists; (split; [| split; [| left; split; [exact G | reflexivity]]]);
      wsimpl; rewrite ?app_nil_r; reflexivity.
  - destruct save_path; eexists;
      (split; [| split; [| right; split; [exact G | eexists; eexists; reflexivity]]]);
      wsimpl; rewrite ?app_nil_r; reflexivity.
Qed.

(** X10. [train] with [iterations] at most 0 makes no pass through the loop
    and no call to the environment or the network, but it has already
    replaced the replay buffer by an empty one of [BUFFER_SIZE] and made the
    save directory; with 0 it returns, with a negative number it raises
    [ValueError] (from [np.zeros]). *)
Theorem train_without_iterations
    (iterations : Z) (save_path logdir : option string) (tp : TrainingParam F) (w : world) :
  iterations <= 0 ->
  train_passes convert_act os_path_abspath iterations save_path logdir tp w = [] /\
  trace (world_of (train convert_act os_path_abspath iterations save_path logdir tp w))
  = trace w ++ match save_path with
               | Some p => [EvMakedirs (os_path_abspath p)]
               | None => []
               end /\
  replay_buffer (world_of (train convert_act os_path_abspath iterations save_path logdir tp w))
  = Some (rb_new (BUFFER_SIZE tp)) /\
  (iterations = 0 ->
   returns (train convert_act os_path_abspath iterations save_path logdir tp w) = true) /\
  (iterations < 0 ->
   exists w', train convert_act os_path_abspath iterations save_path logdir tp w
              = Raise ValueError w').
Proof.
  intro Hit.
  destruct (train_prelude_run iterations save_path logdir tp w)
    as (w0 & T0 & B0 & [[Hneg Hpre] | [Hpos (sp & lv & Hpre)]]).
  - unfold train_passes, train, bind. rewrite Hpre. cbn [world_of].
    split; [reflexivity |]. split; [exact T0 |]. split; [exact B0 |].
    split; [lia |]. intros _. eexists. reflexivity.
  - assert (iterations = 0) by lia. subst iterations.
    pose proof (train_prelude_ok _ _ _ _ _ Hpre) as (_ & Hn & _).
    unfold train_passes, train, bind. rewrite Hpre.
    change (Z.to_nat 0) with O. cbn [passes train_loop]. rewrite Hn.
    cbn [Z.ltb Z.compare]. unfold ret. cbn [world_of].
    split; [reflexivity |]. split; [exact T0 |]. split; [exact B0 |].
    split; [reflexivity |]. lia.
Qed.

(** ** [train] when it returns *)

Lemma iter_marks_app (a b : list event) :
  iter_marks (a ++ b) = iter_marks a ++ iter_marks b.
Proof.
  induction a as [| e a IH]; [reflexivity |].
  destruct e; simpl; rewrite ?IH; reflexivity.
Qed.

Lemma pass_events_iter_marks (iterations : Z) (save_path : option string)
    (tp : TrainingParam F) (lv : Locals F) (w : world) (pd : PassData) :
  iter_marks (pass_events convert_act iterations save_path tp lv w pd)
  = [lv_observation_num lv].
Proof.
  unfold pass_events, chunk_events, reset_events, init_events, learn_events, save_events,
    tensorboard_events, pass_stop.
  repeat match goal with
         | |- context [if ?c then _ else _] => destruct c
         | |- context [match ?x with _ => _ end] => destruct x
         end; reflexivity.
Qed.

Lemma pass_stop_prints (iterations : Z) (save_path : option string)
    (tp : TrainingParam F) (lv : Locals F) (w : world) (pd : PassData) :
  pass_stop tp pd = true ->
  In (EvPrint "ERROR INFINITE LOSS")
     (pass_events convert_act iterations save_path tp lv w pd).
Proof.
  intro Hs. unfold pass_events, learn_events. rewrite Hs.
  unfold pass_stop in Hs. apply andb_true_iff in Hs as [Hsize Hfin].
  apply negb_true_iff in Hfin. rewrite Hsize, Hfin.
  right. do 4 (apply in_or_app; right). apply in_or_app. left.
  do 3 right. left. reflexivity.
Qed.

(** The [while] loop when it returns: an invariant of the loop head that
    every pass carries over holds at the end, where either the loop
    condition is false or the last pass left the loop by [break]. *)
Lemma train_loop_ok (I : nat -> Locals F -> world -> Prop)
    (iterations : Z) (save_path : option string) (tp : TrainingParam F) :
  (forall k lv w lv' w',
      I k lv w ->
      lv_observation_num lv < iterations ->
      loop_body convert_act iterations save_path tp lv w = Ok (Continue lv') w' ->
      I (S k) lv' w') ->
  forall fuel k lv w lvf wf,
    I k lv w ->
    train_loop convert_act fuel iterations save_path tp lv w = Ok lvf wf ->
    (exists k', I k' lvf wf /\ iterations <= lv_observation_num lvf) \/
    (exists k' lv1 w1,
        I k' lv1 w1 /\ lv_observation_num lv1 < iterations /\
        loop_body convert_act iterations save_path tp lv1 w1 = Ok (Break lvf) wf).
Proof.
  intro Hstep. induction fuel as [| fuel IH]; intros k lv w lvf wf HI H.
  - simpl in H. destruct (lv_observation_num lv <? iterations) eqn:G; [discriminate |].
    unfold ret in H. inversion H; subst lvf wf.
    left. exists k. split; [exact HI |]. apply Z.ltb_ge in G. exact G.
  - rewrite train_loop_unfold in H.
    destruct (lv_observation_num lv <? iterations) eqn:G.
    + apply Z.ltb_lt in G.
      destruct (loop_body convert_act iterations save_path tp lv w)
        as [[lv' | lv'] w' | e w'] eqn:Hb; [| | discriminate].
      * eapply IH; [| exact H]. eapply Hstep; eassumption.
      * inversion H; subst lvf wf. right. exists k, lv, w. auto.
    + inversion H; subst lvf wf.
      left. exists k. split; [exact HI |]. apply Z.ltb_ge in G. exact G.
Qed.

(** The loop head invariant holds when the loop is entered. *)
Lemma train_prelude_loop_head (iterations : Z) (save_path logdir : option string)
    (tp : TrainingParam F) (w w0 : world) (sp : option string) (lv : Locals F) :
  0 < iterations ->
  train_prelude os_path_abspath iterations save_path logdir tp w = Ok (sp, lv) w0 ->
  loop_head iterations logdir tp w O lv w0.
Proof.
  intros Hlt Hpre.
  pose proof (train_prelude_ok _ _ _ _ _ Hpre) as (Hsp & Hn & Hep & _ & Hd & Htp & _ & _).
  apply train_prelude_start in Hpre as (Hit & T0 & W0 & _ & A0 & R0 & L1 & L2 & L3).
  exists (match save_path with
          | Some p => [EvMakedirs (os_path_abspath p)]
          | None => []
          end).
  rewrite A0, R0, Hep, Hn, L1, L2, !repeat_length.
  assert (Hz : nth_error (repeat (@num_zero F num) (Z.to_nat iterations)) 0 = Some num_zero).
  { destruct (Z.to_nat iterations) eqn:Hz; [lia | reflexivity]. }
  assert (Hl : exists ls, losses w0 = Some ls /\ List.length ls = Z.to_nat iterations)
    by (eexists; split; [exact L3 | apply repeat_length]).
  split; [exact T0 |]. split; [exact Htp |]. split; [reflexivity |].
  split; [destruct save_path; reflexivity |]. split; [destruct save_path; reflexivity |].
  split; [destruct save_path; reflexivity |]. split; [lia |].
  split; [reflexivity |]. split; [reflexivity |]. split; [exact Hz |].
  split; [exact Hz |]. split; [exact W0 | exact Hl].
Qed.

(** How a call of [train] for at least one iteration that returns has left
    the loop: by [break], with the counter below [iterations]; or at the loop
    condition, after a last pass that handed over. *)
Lemma train_returns (iterations : Z) (save_path logdir : option string)
    (tp : TrainingParam F) (w : world) (lvf : Locals F) (wf : world) :
  0 < iterations ->
  train convert_act os_path_abspath iterations save_path logdir tp w = Ok lvf wf ->
  0 <= lv_observation_num lvf < iterations \/
  (lv_observation_num lvf = iterations /\
   1 <= lv_epoch_num lvf /\
   (lv_done lvf = false -> lv_epoch_num lvf < iterations)).
Proof.
  intros Hpos H. unfold train in H.
  apply bind_ok_inv in H as ([sp lv] & w0 & Hpre & H).
  pose proof (train_prelude_loop_head _ _ _ _ Hpos Hpre) as H0.
  pose (I := fun (k : nat) (lv1 : Locals F) (w1 : world) =>
               loop_head iterations logdir tp w k lv1 w1 /\
               Z.of_nat k <= iterations /\
               (k <> O -> lv_done lv1 = false -> lv_epoch_num lv1 < iterations)).
  assert (Hstep : forall k lv1 w1 lv' w',
             I k lv1 w1 ->
             lv_observation_num lv1 < iterations ->
             loop_body convert_act iterations sp tp lv1 w1 = Ok (Continue lv') w' ->
             I (S k) lv' w').
  { intros k lv1 w1 lv' w' (Hh & Hle & _) Hg Hb.
    pose proof Hh as (evs & _ & _ & I3 & _).
    pose proof Hb as Hb2. eapply loop_head_step in Hb2; [| exact Hh].
    destruct Hb2 as [Hh' Hlive].
    split; [exact Hh' |]. split; [lia |]. intros _. exact Hlive. }
  assert (HI0 : I O lv w0) by (split; [exact H0 |]; split; [lia | intro Hc; contradiction]).
  pose proof (train_loop_ok I) as Hloop.
  specialize (Hloop iterations sp tp Hstep _ _ _ _ _ _ HI0 H).
  destruct Hloop
    as [(k' & (Hh & Hle & Hlive) & Hge) | (k' & lv1 & w1 & (Hh & Hle & _) & Hg & Hb)].
  - right. destruct Hh as (evs & _ & _ & I3 & _ & _ & _ & I7 & _).
    split; [lia |]. split; [apply I7; lia |]. apply Hlive. lia.
  - left. destruct Hh as (evs & _ & I2 & I3 & _).
    apply loop_body_ok in Hb as (pd & b0 & _ & _ & _ & _ & _ & _ & _ & _ & Hctl);
      [| exact I2].
    unfold pass_ctl in Hctl. destruct (pass_stop tp pd) eqn:Hs; [| discriminate].
    inversion Hctl; subst lvf. cbn [pass_locals lv_observation_num]. rewrite Hs. lia.
Qed.

(** X5. The two epoch arrays have [iterations] cells and are written at
    index [epoch_num], so a pass can only hand over to the loop condition
    with the episode still alive when [epoch_num] is below [iterations].
    Hence a call of [train] for at least one iteration that returns either
    left the loop by [break] (the counter is below [iterations]) or made its
    last step with [done] reported or with [epoch_num] below [iterations];
    with one iteration asked for: it left the loop by [break], or its one
    step reported [done]. *)
Theorem alive_pass_needs_epoch_num_below_iterations
    (iterations : Z) (save_path logdir : option string) (tp : TrainingParam F) (w : world) :
  (forall k p lv' w',
      nth_error (train_passes convert_act os_path_abspath iterations save_path logdir tp w) k
      = Some p ->
      p_result p = Ok (Continue lv') w' ->
      1 <= lv_epoch_num lv' /\
      (lv_done lv' = false -> lv_epoch_num lv' < iterations)) /\
  (forall lvf wf,
      0 < iterations ->
      train convert_act os_path_abspath iterations save_path logdir tp w = Ok lvf wf ->
      0 <= lv_observation_num lvf < iterations \/
      (lv_observation_num lvf = iterations /\
       (lv_done lvf = true \/ lv_epoch_num lvf < iterations))) /\
  (forall lvf wf,
      iterations = 1 ->
      train convert_act os_path_abspath iterations save_path logdir tp w = Ok lvf wf ->
      lv_observation_num lvf = 0 \/ lv_done lvf = true).
Proof.
  split; [| split].
  - intros k p lv' w' Hk Hres.
    destruct (train_handover _ _ _ _ _ _ Hk Hres) as [Hh Hlive].
    destruct Hh as (evs & _ & _ & _ & _ & _ & _ & I7 & _).
    split; [apply I7; lia | exact Hlive].
  - intros lvf wf Hpos H.
    pose proof H as Hr. apply train_returns in Hr; [| exact Hpos].
    destruct Hr as [Hb | (Hn & _ & Hlive)]; [left; exact Hb | right].
    split; [exact Hn |].
    destruct (lv_done lvf); [left; reflexivity | right; apply Hlive; reflexivity].
  - intros lvf wf Hit H.
    assert (Hpos : 0 < iterations) by lia.
    pose proof H as Hr. apply train_returns in Hr; [| exact Hpos].
    destruct Hr as [Hb | (Hn & Hep & Hlive)]; [left; lia | right].
    destruct (lv_done lvf); [reflexivity |].
    specialize (Hlive eq_refl). lia.
Qed.

(** X11. A call of [train] that returns has entered the body of the loop
    with [observation_num] 0, 1, 2, ... in this order and nothing else:
    [iterations] times, returning with the counter at [iterations], when the
    loop ended at its condition; and [k + 1] times, with the counter left at
    [k], when the pass of index [k] left it by [break] after the message for
    a loss that is not finite. *)
Theorem train_runs_the_loop_body_iterations_times
    (iterations : Z) (save_path logdir : option string) (tp : TrainingParam F)
    (w : world) (lvf : Locals F) (wf : world) :
  train convert_act os_path_abspath iterations save_path logdir tp w = Ok lvf wf ->
  exists evs,
    trace wf = trace w ++ evs /\
    ((lv_observation_num lvf = iterations /\
      iter_marks evs = map Z.of_nat (seq 0 (Z.to_nat iterations))) \/
     (0 <= lv_observation_num lvf < iterations /\
      iter_marks evs = map Z.of_nat (seq 0 (S (Z.to_nat (lv_observation_num lvf)))) /\
      In (EvPrint "ERROR INFINITE LOSS") evs)).
Proof.
  intro H. unfold train in H.
  apply bind_ok_inv in H as ([sp lv] & w0 & Hpre & H).
  pose proof (train_prelude_ok _ _ _ _ _ Hpre) as (_ & Hn & _ & _ & _ & Htp & _ & _).
  pose proof (train_prelude_start _ _ _ _ _ Hpre) as (Hit & T0 & _).
  pose (I := fun (k : nat) (lv1 : Locals F) (w1 : world) =>
               exists evs,
                 trace w1 = trace w ++ evs /\
                 iter_marks evs = map Z.of_nat (seq 0 k) /\
                 training_param w1 = Some tp /\
                 lv_observation_num lv1 = Z.of_nat k /\
                 Z.of_nat k <= iterations).
  assert (Hstep : forall k lv1 w1 lv' w',
             I k lv1 w1 ->
             lv_observation_num lv1 < iterations ->
             loop_body convert_act iterations sp tp lv1 w1 = Ok (Continue lv') w' ->
             I (S k) lv' w').
  { intros k lv1 w1 lv' w' (evs & I1 & I2 & I3 & I4 & I5) Hg Hb.
    pose proof (stable_ok (loop_body_cfg _ _ _ _) Hb) as (_ & C2 & _).
    pose proof (loop_body_continue_num _ _ _ _ _ Hb) as Hnum.
    apply loop_body_ok in Hb as (pd & b0 & _ & _ & _ & _ & _ & _ & _ & Htr & _);
      [| exact I3].
    exists (evs ++ pass_events convert_act iterations sp tp lv1 w1 pd).
    split; [rewrite Htr, I1, app_assoc; reflexivity |].
    split; [| split; [congruence | split; lia]].
    rewrite iter_marks_app, pass_events_iter_marks, I2, I4, seq_S, map_app.
    reflexivity. }
  assert (HI0 : I O lv w0).
  { exists (match save_path with
            | Some p => [EvMakedirs (os_path_abspath p)]
            | None => []
            end).
    split; [exact T0 |]. split; [destruct save_path; reflexivity |].
    split; [exact Htp |]. split; [exact Hn | exact Hit]. }
  pose proof (train_loop_ok I) as Hloop.
  specialize (Hloop iterations sp tp Hstep _ _ _ _ _ _ HI0 H).
  destruct Hloop
    as [(k' & (evs & I1 & I2 & I3 & I4 & I5) & Hge)
       | (k' & lv1 & w1 & (evs & I1 & I2 & I3 & I4 & I5) & Hg & Hb)].
  - exists evs. split; [exact I1 |]. left.
    assert (Hk' : Z.of_nat k' = iterations) by lia.
    split; [lia |]. rewrite <- Hk', Nat2Z.id. exact I2.
  - apply loop_body_ok in Hb as (pd & b0 & _ & _ & _ & _ & _ & _ & _ & Htr & Hctl);
      [| exact I3].
    unfold pass_ctl in Hctl. destruct (pass_stop tp pd) eqn:Hs; [| discriminate].
    inversion Hctl; subst lvf. cbn [pass_locals lv_observation_num]. rewrite Hs.
    exists (evs ++ pass_events convert_act iterations sp tp lv1 w1 pd).
    split; [rewrite Htr, I1, app_assoc; reflexivity |]. right.
    split; [lia |]. split.
    + rewrite iter_marks_app, pass_events_iter_marks, I2, I4, Nat2Z.id, seq_S, map_app.
      reflexivity.
    + apply in_or_app. right. apply pass_stop_prints. exact Hs.
Qed.

(** The first pass on an environment that has no chronics. *)
Lemma loop_body_no_chronics (iterations : Z) (save_path : option string)
    (tp : TrainingParam F) (lv : Locals F) (w : world) :
  lv_observation_num lv = 0 ->
  env_subpaths_len (snd (env_reset (env w))) = 0 ->
  exists w',
    loop_body convert_act iterations save_path tp lv w = Raise ZeroDivisionError w' /\
    trace w' = trace w ++ [EvIter 0; EvReset].
Proof.
  intros Hn Hlen.
  unfold loop_body, chunk_block, _need_reset, _reset_process_buffer, call_env_reset,
    convert_obs, py_mod, emit.
  rewrite Hn. change (0 mod 1000 =? 999) with false. change (0 =? 0) with true.
  rewrite orb_true_r.
  unfold bind, ret, raise, gets, modify. wsimpl.
  destruct (env_reset (env w)) as [obs e'] eqn:He. wsimpl.
  rewrite Hlen. cbn [Z.eqb]. eexists. split; [reflexivity |].
  wsimpl. rewrite <- app_assoc. reflexivity.
Qed.

(** X12. On an environment that has no chronics ([subpaths] is empty),
    [train] with at least one iteration raises [ZeroDivisionError] in its
    first pass, from the [%] of [_need_reset], right after the first
    [env.reset]; nothing is predicted, stepped, stored or saved. *)
Theorem train_raises_when_there_are_no_chronics
    (iterations : Z) (save_path logdir : option string) (tp : TrainingParam F) (w : world) :
  0 < iterations ->
  env_subpaths_len (snd (env_reset (env w))) = 0 ->
  exists w',
    train convert_act os_path_abspath iterations save_path logdir tp w
    = Raise ZeroDivisionError w' /\
    trace w' = trace w ++ match save_path with
                          | Some p => [EvMakedirs (os_path_abspath p)]
                          | None => []
                          end ++ [EvIter 0; EvReset].
Proof.
  intros Hit Hlen.
  destruct (train_prelude_run iterations save_path logdir tp w)
    as (w0 & T0 & _ & [[Hneg _] | [_ (sp & lv & Hpre)]]); [lia |].
  pose proof (train_prelude_ok _ _ _ _ _ Hpre) as (_ & Hn & _).
  pose proof (train_prelude_start _ _ _ _ _ Hpre) as (_ & _ & _ & He & _).
  rewrite <- He in Hlen.
  destruct (loop_body_no_chronics iterations sp tp lv w0 Hn Hlen) as (w' & Hb & Tb).
  exists w'. split.
  - unfold train, bind. rewrite Hpre.
    destruct (Z.to_nat iterations) as [| fuel] eqn:Hf; [lia |].
    rewrite train_loop_unfold, Hn.
    assert (G : (0 <? iterations) = true) by (apply Z.ltb_lt; lia).
    rewrite G, Hb. reflexivity.
  - rewrite Tb, T0, <- app_assoc. reflexivity.
Qed.

(** ** [my_act], [load] and [save] *)

(** X13. [my_act] builds the network on first use only: two calls in a row
    write one [init_deep_q] when the agent had no network and none when it
    had one, followed by the two predictions, both made with epsilon 0.0. *)
Theorem my_act_builds_the_network_once
    (o1 o2 : list F) (r1 r2 : F) (d1 d2 : bool) (w w1 w2 : world) (a1 a2 : Z) :
  my_act o1 r1 d1 w = Ok a1 w1 ->
  my_act o2 r2 d2 w1 = Ok a2 w2 ->
  deep_q w1 <> None /\
  trace w2 = trace w
             ++ match deep_q w with None => [EvInitDeepQ] | Some _ => [] end
             ++ [EvPredict num_zero [a1]; EvPredict num_zero [a2]].
Proof.
  intros H1 H2.
  assert (Hdq : deep_q w1 <> None).
  { unfold my_act, init_deep_q, call_predict_movement, py_int, attr, emit in H1.
    run_inv H1; discriminate. }
  split; [exact Hdq |].
  apply my_act_ok in H1, H2. rewrite H2, H1.
  destruct (deep_q w1); [| contradiction].
  rewrite <- !app_assoc. reflexivity.
Qed.

(** X14. [load] and [save] to a path call a method of [self.deep_q]: on an
    agent whose network has not been built yet they raise [AttributeError]
    and leave the agent as it is, while [save(None)] does nothing; once
    [my_act] has returned, both go through. *)
Theorem load_and_save_need_the_network (path : string) (w : world) :
  deep_q w = None ->
  load path w = Raise AttributeError w /\
  save (Some path) w = Raise AttributeError w /\
  save None w = Ok tt w /\
  (forall o r d a w1,
      my_act o r d w = Ok a w1 ->
      exists n,
        deep_q w1 = Some n /\
        load path w1
        = Ok tt (set_trace (trace w1 ++ [EvLoadNetwork path])
                   (set_deep_q (Some (load_network path n)) w1)) /\
        save (Some path) w1
        = Ok tt (set_trace (trace w1 ++ [EvSaveNetwork (os_path_join path (name w1))])
                   (set_deep_q (Some (save_network (os_path_join path (name w1)) n)) w1))).
Proof.
  intro Hnone.
  unfold load, save, attr, emit, bind, ret, raise, gets, modify. rewrite Hnone.
  split; [reflexivity |]. split; [reflexivity |]. split; [reflexivity |].
  intros o r d a w1 H.
  assert (Hdq : exists n, deep_q w1 = Some n).
  { unfold my_act, init_deep_q, call_predict_movement, py_int, attr, emit in H.
    run_inv H; eexists; reflexivity. }
  destruct Hdq as [n Hdq]. exists n. rewrite Hdq. wsimpl.
  split; [reflexivity |]. split; reflexivity.
Qed.

(** ** [self.losses] and [init_deep_q] along a run *)

(** X16. [self.losses] has one cell per iteration.  A pass that ends without
    an exception leaves every cell but its own as it was; its own cell, of
    index [observation_num], receives the loss of the training step when the
    pass makes one and is left as it was when it makes none. *)
Theorem losses_keeps_the_loss_of_each_pass
    (iterations : Z) (save_path logdir : option string)
    (tp : TrainingParam F) (w : world) (k : nat) (p : Pass) (ctl : LoopCtl F) (w' : world) :
  nth_error (train_passes convert_act os_path_abspath iterations save_path logdir tp w) k
  = Some p ->
  p_result p = Ok ctl w' ->
  exists ls ls',
    losses (p_world p) = Some ls /\ losses w' = Some ls' /\
    List.length ls = Z.to_nat iterations /\ List.length ls' = Z.to_nat iterations /\
    (forall j, j <> k -> nth_error ls' j = nth_error ls j) /\
    (forall batch step loss,
        In (EvTrain batch step loss) (p_events p) -> nth_error ls' k = Some loss) /\
    ((forall batch step loss, ~ In (EvTrain batch step loss) (p_events p)) -> ls' = ls).
Proof.
  intros Hk Hres.
  pose proof (train_loop_head _ _ _ _ _ _ Hk)
    as (evs & _ & _ & I3 & _ & _ & _ & _ & _ & _ & _ & _ & _ & ls & I13 & I14).
  destruct (train_passes_nth _ _ _ _ _ _ Hk) as (_ & _ & _ & _ & _ & Hklt & Hbody).
  pose proof Hres as Hres2. rewrite Hbody in Hres2.
  apply (@loop_body_losses _ _ _ _ _ _ _ ls) in Hres2; [| lia | exact I13].
  assert (Hev : p_events p = skipn (List.length (trace (p_world p))) (trace w')).
  { unfold p_events. rewrite Hres. reflexivity. }
  rewrite <- Hev in Hres2. rewrite I3, Nat2Z.id in Hres2.
  destruct Hres2 as [(L & Fq) | (batch & loss & pre & post & Hlt & L & Hsplit & Fpre & Fpost)].
  - exists ls, ls. split; [exact I13 |]. split; [exact L |].
    split; [exact I14 |]. split; [exact I14 |]. split; [reflexivity |].
    split; [| reflexivity].
    intros batch step loss Hin. exfalso.
    rewrite Forall_forall in Fq. exact (Fq _ Hin).
  - exists ls, (set_nth ls k loss). split; [exact I13 |]. split; [exact L |].
    split; [exact I14 |]. split; [rewrite set_nth_length; exact I14 |].
    split; [intros j Hj; apply set_nth_other; exact Hj |].
    split.
    + intros batch' step' loss' Hin. rewrite Hsplit in Hin.
      rewrite Forall_forall in Fpre, Fpost.
      apply in_app_or in Hin as [Hin | [Hin | Hin]].
      * exfalso. exact (Fpre _ Hin).
      * inversion Hin; subst. apply set_nth_same. lia.
      * exfalso. exact (Fpost _ Hin).
    + intro Hno. exfalso. apply (Hno batch (Z.of_nat k) loss).
      rewrite Hsplit. apply in_or_app. right. left. reflexivity.
Qed.

(** X17. [train] calls [init_deep_q] in the first pass of a run and in no
    other: exactly once per run that gets through its first pass, whether or
    not the agent already had a network (unlike [my_act], which only builds
    one when there is none). *)
Theorem train_calls_init_deep_q_in_the_first_pass_only
    (iterations : Z) (save_path logdir : option string)
    (tp : TrainingParam F) (w : world) (k : nat) (p : Pass) (ctl : LoopCtl F) (w' : world) :
  nth_error (train_passes convert_act os_path_abspath iterations save_path logdir tp w) k
  = Some p ->
  p_result p = Ok ctl w' ->
  (In EvInitDeepQ (p_events p) <-> k = O) /\
  List.length (filter (fun e => match e with EvInitDeepQ => true | _ => false end)
                 (p_events p))
  = (if Nat.eqb k 0 then 1%nat else 0%nat).
Proof.
  intros Hk Hres.
  destruct (train_pass_ok _ _ _ _ _ _ Hk Hres)
    as (pd & b0 & _ & _ & _ & _ & _ & _ & _ & Hev & _).
  destruct (train_passes_nth _ _ _ _ _ _ Hk) as (_ & _ & Hn & _).
  rewrite Hev. clear Hev. unfold pass_events, init_events. rewrite Hn.
  assert (Hz : (Z.of_nat k =? 0) = Nat.eqb k 0) by (destruct k; reflexivity).
  rewrite Hz.
  split; [split |].
  - unfold chunk_events, reset_events, learn_events, save_events, tensorboard_events.
    intro H. in_events H. destruct k; [reflexivity | discriminate].
  - intro Hk0. subst k. cbn [Nat.eqb]. in_find.
  - unfold chunk_events, reset_events, learn_events, save_events, tensorboard_events,
      pass_stop.
    repeat match goal with
           | |- context [if ?c then _ else _] => destruct c
           | |- context [match ?x with _ => _ end] => destruct x
           end; reflexivity.
Qed.

End AgentFacts.

Unset Implicit Arguments.

(** C2, at a failing input.  Along every run, a pass finds in [epsilon] the
    value [epsilon_at] gives for its index and hands the next one to the
    action selection: the configured initial value before the first pass,
    and from one pass to the next the value less the whole constant
    [(INITIAL_EPSILON - FINAL_EPSILON) / EPSILON_DECAY] whenever it is
    strictly above the final value, with no test of where the subtraction
    leaves it.  In binary64, with initial value 1.0, final value 0.0 and
    [EPSILON_DECAY] 3, a run of four passes ends without an exception and
    selects its actions with 0.67, 0.33, 1.1e-16 and -0.33: the third
    decrement leaves a value that is still above the final one, and the
    fourth takes epsilon strictly below it. *)
Theorem C2_epsilon_falls_below_the_final_value :
  (forall (F : Type) (num : PyNumber F) (Action E N B : Type)
          (env_ops : Environment F Action E) (net_ops : QNetwork F N)
          (rb_ops : ReplayBufferOps F B)
          (convert_act : Z -> Action) (os_path_abspath : string -> string)
          (iterations : Z) (save_path logdir : option string) (tp : TrainingParam F)
          (w : World F Action E N B) (k : nat) (p : Pass),
      nth_error (train_passes convert_act os_path_abspath iterations save_path logdir tp w) k
      = Some p ->
      lv_epsilon (p_locals p) = epsilon_at tp k /\
      epsilon_at tp O = INITIAL_EPSILON tp /\
      epsilon_at tp (S k)
      = (if num_gtb (epsilon_at tp k) (FINAL_EPSILON tp)
         then num_sub (epsilon_at tp k)
                (num_quot (num_sub (INITIAL_EPSILON tp) (FINAL_EPSILON tp))
                          (EPSILON_DECAY tp))
         else epsilon_at tp k) /\
      (forall ctl w', p_result p = Ok ctl w' ->
                      predict_epsilons (p_events p) = [epsilon_at tp (S k)])) /\
  returns (demo_train [] 2 [] 4 None (demo_param 50 3%float)) = true /\
  predict_epsilons (demo_trace [] 2 [] 4 None (demo_param 50 3%float))
  = [(1 - 1 / 3)%float; (1 - 1 / 3 - 1 / 3)%float; (1 - 1 / 3 - 1 / 3 - 1 / 3)%float;
     (1 - 1 / 3 - 1 / 3 - 1 / 3 - 1 / 3)%float] /\
  PrimFloat.ltb (FINAL_EPSILON (demo_param 50 3%float)) (1 - 1 / 3 - 1 / 3 - 1 / 3)%float
  = true /\
  PrimFloat.ltb (1 - 1 / 3 - 1 / 3 - 1 / 3 - 1 / 3)%float
    (FINAL_EPSILON (demo_param 50 3%float)) = true.
Proof.
  split.
  - intros F num Action E N B env_ops net_ops rb_ops convert_act os_path_abspath
      iterations save_path logdir tp w k p Hk.
    destruct (epsilon_of_passes _ _ _ _ _ _ _ _ Hk) as [Heps Hpred].
    repeat split; auto.
  - repeat split; vm_compute; reflexivity.
Qed.

(** C2 at work: the fourth pass of that run starts with the epsilon the
    schedule gives for index 3. *)
Lemma C2_witness :
  exists p,
    nth_error (demo_passes [] 2 [] 4 None (demo_param 50 3%float)) 3 = Some p /\
    lv_epsilon (p_locals p) = epsilon_at (demo_param 50 3%float) 3.
Proof.
  assert (Hk : exists p,
             nth_error (demo_passes [] 2 [] 4 None (demo_param 50 3%float)) 3 = Some p).
  { eexists. vm_compute. reflexivity. }
  destruct Hk as (p & Hk).
  exists p. split; [exact Hk |]. unfold demo_passes in Hk.
  exact (proj1 (proj1 C2_epsilon_falls_below_the_final_value _ _ _ _ _ _ _ _ _ _ _
                  _ _ _ _ _ _ _ Hk)).
Defined.

(** C1, at a failing input.  Two passes on an environment whose steps return
    the rewards 1.0 and 2.0 (and never end the episode): the run ends without
    an exception, the steps did return those rewards, and both records handed
    to the replay buffer carry the reward 0.0. *)
Theorem C1_stored_reward_ignores_the_step_rewards :
  returns (demo_train [(1%float, false); (2%float, false)] 2 [] 2 None
             (demo_param 50 3%float)) = true /\
  step_rewards (demo_trace [(1%float, false); (2%float, false)] 2 [] 2 None
                  (demo_param 50 3%float))
  = [1%float; 2%float] /\
  stored_rewards (demo_trace [(1%float, false); (2%float, false)] 2 [] 2 None
                    (demo_param 50 3%float))
  = [0%float; 0%float] /\
  PrimFloat.eqb 0 1 = false.
Proof. repeat split; vm_compute; reflexivity. Qed.



(** ** Concrete runs *)

(** C3 at work: three iterations are asked for, the first training step
    reports a NaN loss, and the run has no second pass. *)
Lemma C3_witness :
  nth_error (demo_passes [] 2 [PrimFloat.nan] 3 (Some "out"%string) (demo_param 0 3%float)) 1
  = None.
Proof.
  assert (Hk : exists p,
             nth_error (demo_passes [] 2 [PrimFloat.nan] 3 (Some "out"%string)
                          (demo_param 0 3%float)) 0 = Some p /\
             In (EvTrain [{| t_state := [0.5%float; 1%float; 1%float];
                             t_action := [0]; t_reward := 0%float; t_done := false;
                             t_next_state := [0.5%float; 1%float; 1%float] |}]
                         0 PrimFloat.nan)
                (p_events p)).
  { eexists. split; [vm_compute; reflexivity |].
    vm_compute. do 7 right. left. reflexivity. }
  destruct Hk as (p & Hk & Hin). unfold demo_passes in Hk.
  exact (proj1 (proj2 (C3_nonfinite_loss_ends_the_loop _ _ _ _ _ _ _ _ _ _ _
                         Hk Hin eq_refl))).
Defined.

(** C4 at work: the first pass of a run resets the environment. *)
Lemma C4_witness :
  exists p,
    nth_error (demo_passes [(1%float, false); (2%float, false)] 2 [] 2 None
                 (demo_param 50 3%float)) 0 = Some p /\
    In EvReset (p_events p).
Proof.
  assert (Hk : exists p ctl w',
             nth_error (demo_passes [(1%float, false); (2%float, false)] 2 [] 2 None
                          (demo_param 50 3%float)) 0 = Some p /\
             p_result p = Ok ctl w' /\
             lv_observation_num (p_locals p) = 0).
  { eexists. eexists. eexists. split; [vm_compute; reflexivity |].
    split; reflexivity. }
  destruct Hk as (p & ctl & w' & Hk & Hres & Hn).
  exists p. split; [exact Hk |]. unfold demo_passes in Hk.
  exact (proj1 (C4_reset_then_reshuffle_every_len_epochs _ _ _ _ _ _ _ _
                  Hk Hres (or_intror Hn))).
Defined.

(** C4 as stated fails: on an environment with two chronics the first pass
    resets the environment and does not reshuffle the chronics. *)
Lemma C4_counterexample_reset_without_reshuffle :
  exists p,
    nth_error (demo_passes [(1%float, false); (2%float, false)] 2 [] 2 None
                 (demo_param 50 3%float)) 0 = Some p /\
    returns (p_result p) = true /\
    lv_observation_num (p_locals p) = 0 /\
    In EvReset (p_events p) /\
    ~ In EvShuffle (p_events p).
Proof.
  eexists. split; [vm_compute; reflexivity |].
  split; [reflexivity |]. split; [reflexivity |]. split.
  - vm_compute. right. left. reflexivity.
  - vm_compute. intuition discriminate.
Qed.

(** C5 at work: the only step of the first pass reports [done], and the second
    pass resets the environment. *)
Lemma C5_witness :
  exists p,
    nth_error (demo_passes [(0%float, true)] 1 [] 3 (Some "out"%string) (demo_param 0 3%float)) 1
    = Some p /\
    In EvReset (p_events p).
Proof.
  assert (Hk : exists p ctl w' q,
             nth_error (demo_passes [(0%float, true)] 1 [] 3 (Some "out"%string)
                          (demo_param 0 3%float)) 1 = Some p /\
             p_result p = Ok ctl w' /\
             nth_error (demo_passes [(0%float, true)] 1 [] 3 (Some "out"%string)
                          (demo_param 0 3%float)) 0 = Some q /\
             last_step_done (p_events q) = true).
  { eexists. eexists. eexists. eexists. split; [vm_compute; reflexivity |].
    split; [reflexivity |]. split; [vm_compute; reflexivity |].
    vm_compute. reflexivity. }
  destruct Hk as (p & ctl & w' & q & Hk & Hres & Hq & Hdone).
  exists p. split; [exact Hk |]. unfold demo_passes in Hk, Hq.
  apply (proj1 (proj2 (C5_reset_iff_done_or_first _ _ _ _ _ _ _ _ Hk Hres))).
  right. exists q. split; [exact Hq |]. split; [discriminate | exact Hdone].
Defined.

(** C6 at work: with [MIN_OBSERVATION] 0 the first pass already learns. *)
Lemma C6_witness :
  exists p b0,
    nth_error (demo_passes [(0%float, true)] 1 [] 3 (Some "out"%string) (demo_param 0 3%float)) 0
    = Some p /\
    replay_buffer (p_world p) = Some b0 /\
    In EvTargetTrain (p_events p).
Proof.
  assert (Hk : exists p ctl w',
             nth_error (demo_passes [(0%float, true)] 1 [] 3 (Some "out"%string)
                          (demo_param 0 3%float)) 0 = Some p /\
             p_result p = Ok ctl w' /\
             In EvTargetTrain (p_events p)).
  { eexists. eexists. eexists. split; [vm_compute; reflexivity |].
    split; [reflexivity |]. vm_compute. do 9 right. left. reflexivity. }
  destruct Hk as (p & ctl & w' & Hk & Hres & Hin).
  pose proof Hk as Hk'. unfold demo_passes in Hk'.
  destruct (C6_one_learning_step_when_buffer_large_enough _ _ _ _ _ _ _ _ Hk' Hres)
    as (b0 & t & loss & pre & post & Hb0 & _).
  exists p, b0. auto.
Defined.

(** The replay buffer of the spec returns the number of records asked for
    only when it holds that many. *)
Lemma ReplayBuffer_sample_length {F : Type} (batch_size : Z) (b : ReplayBuffer F) :
  List.length (fst (ReplayBuffer_sample batch_size b))
  = Nat.min (Z.to_nat batch_size) (List.length (rb_items b)).
Proof.
  unfold ReplayBuffer_sample. cbn [fst].
  rewrite length_firstn, length_app, length_skipn, length_firstn.
  destruct (List.length (rb_items b)) as [| n] eqn:Hn; [lia |].
  pose proof (Nat.mod_upper_bound (rb_seed b) (S n)). lia.
Qed.

(** C6 as stated fails with the replay buffer of the spec: with
    [MIN_OBSERVATION] 0 and [MINIBATCH_SIZE] 2 the first pass trains, on the
    one record the buffer holds. *)
Lemma C6_counterexample_batch_smaller_than_minibatch :
  exists p batch step loss,
    nth_error (demo_passes [(0%float, true)] 1 [] 3 (Some "out"%string)
                 (demo_param 0 3%float)) 0 = Some p /\
    returns (p_result p) = true /\
    In (EvTrain batch step loss) (p_events p) /\
    List.length batch = 1%nat /\
    MINIBATCH_SIZE (demo_param 0 3%float) = 2.
Proof.
  eexists. eexists. eexists. eexists. split; [vm_compute; reflexivity |].
  split; [reflexivity |]. split.
  - vm_compute. do 8 right. left. reflexivity.
  - split; reflexivity.
Qed.

(** C7 at work: the last pass of a run saves the network under the agent's
    name. *)
Lemma C7_witness :
  exists p,
    nth_error (demo_passes [(1%float, false); (2%float, false)] 2 [] 2 (Some "out"%string)
                 (demo_param 50 3%float)) 1 = Some p /\
    In (EvSaveNetwork "out/DeepQAgent") (p_events p).
Proof.
  assert (Hk : exists p lv' w',
             nth_error (demo_passes [(1%float, false); (2%float, false)] 2 [] 2
                          (Some "out"%string) (demo_param 50 3%float)) 1 = Some p /\
             p_result p = Ok (Continue lv') w').
  { eexists. eexists. eexists. split; [vm_compute; reflexivity |]. reflexivity. }
  destruct Hk as (p & lv' & w' & Hk & Hres).
  exists p. split; [exact Hk |]. unfold demo_passes in Hk.
  apply (proj2 (proj2 (C7_save_every_1000_and_at_the_end_unless_aborted _ _ _ _ _ _ _ _
                         "out/DeepQAgent" Hk) _ _ Hres)).
  split; [exists lv'; reflexivity |]. split; [right; reflexivity |].
  exists "out"%string. split; reflexivity.
Defined.

(** C7 as stated fails: a run of one iteration whose training step reports a
    NaN loss makes its pass, of index 0 (a multiple of 1000, and the final
    iteration), without an exception, and saves nothing. *)
Lemma C7_counterexample_no_save_after_nonfinite_loss :
  exists p,
    nth_error (demo_passes [] 2 [PrimFloat.nan] 1 (Some "out"%string) (demo_param 0 3%float)) 0
    = Some p /\
    returns (p_result p) = true /\
    lv_observation_num (p_locals p) mod 1000 = 0 /\
    lv_observation_num (p_locals p) = 1 - 1 /\
    forallb (fun e => negb (is_save_event e)) (p_events p) = true /\
    forallb (fun e => negb (is_save_event e))
      (demo_trace [] 2 [PrimFloat.nan] 1 (Some "out"%string) (demo_param 0 3%float)) = true.
Proof.
  eexists. split; [vm_compute; reflexivity |].
  repeat split; vm_compute; reflexivity.
Qed.

(** C9 at work: with four frames the conversion raises. *)
Lemma C9_witness :
  exists msg,
    _convert_process_buffer (set_training_param (Some four_frames_param) (demo_world [] 1))
    = Raise (RuntimeError msg)
        (set_training_param (Some four_frames_param) (demo_world [] 1)).
Proof.
  refine (proj1 (@C9_only_one_frame_is_supported float _ Z (ScriptEnv float)
                   (ScriptNet float) (ReplayBuffer float) (@ScriptEnv_ops float Z _)
                   (@ScriptNet_ops_with float _ []) _ (fun i => i) (fun path => path))
            (set_training_param (Some four_frames_param) (demo_world [] 1))
            four_frames_param eq_refl _).
  discriminate.
Defined.

(** ** More concrete runs *)

(** X1 at work: in a run of a thousand iterations the pass of index 999 sets
    the chunk size, to 10000. *)
Lemma chunk_size_witness :
  exists p,
    nth_error (demo_passes [] 2 [] 1000 None (demo_param 5000 3%float)) 999 = Some p /\
    In (EvSetChunk 10000) (p_events p).
Proof.
  assert (Hk : exists p ctl w',
             nth_error (demo_passes [] 2 [] 1000 None (demo_param 5000 3%float)) 999
             = Some p /\
             p_result p = Ok ctl w').
  { eexists. eexists. eexists. split; [vm_compute; reflexivity |]. reflexivity. }
  destruct Hk as (p & ctl & w' & Hk & Hres).
  exists p. split; [exact Hk |]. unfold demo_passes in Hk.
  apply (proj2 (chunk_size_is_10000_at_every_thousandth_pass _ _ _ _ _ _ _ _ 10000 Hk Hres)).
  split; reflexivity.
Defined.

(** X2 at work: the episode ends at the second step of this run, and the
    fourth pass still starts with the sum of the three rewards so far. *)
Lemma total_reward_witness :
  exists p,
    nth_error (demo_passes [(1%float, false); (2%float, true); (3%float, false)] 1 [] 4 None
                 (demo_param 50 3%float)) 3 = Some p /\
    lv_total_reward (p_locals p) = 6%float.
Proof.
  assert (Hk : exists p,
             nth_error (demo_passes [(1%float, false); (2%float, true); (3%float, false)]
                          1 [] 4 None (demo_param 50 3%float)) 3 = Some p /\
             fold_left num_add
               (step_rewards
                  (events_before
                     (demo_world [(1%float, false); (2%float, true); (3%float, false)] 1) p))
               num_zero = 6%float).
  { eexists. split; [vm_compute; reflexivity |]. vm_compute. reflexivity. }
  destruct Hk as (p & Hk & Hsum).
  exists p. split; [exact Hk |]. unfold demo_passes in Hk.
  rewrite <- Hsum.
  exact (proj1 (proj2 (total_reward_sums_all_steps_of_the_run _ _ _ _ _ _ _ _ Hk))).
Defined.

(** X3 at work: the second step of this run reports [done], two more steps
    follow, and the fifth pass starts with [alive_frame] 2. *)
Lemma alive_frame_witness :
  exists p,
    nth_error (demo_passes [(1%float, false); (2%float, true); (3%float, false)] 1 [] 6 None
                 (demo_param 50 3%float)) 4 = Some p /\
    lv_alive_frame (p_locals p) = 2.
Proof.
  assert (Hk : exists p,
             nth_error (demo_passes [(1%float, false); (2%float, true); (3%float, false)]
                          1 [] 6 None (demo_param 50 3%float)) 4 = Some p /\
             steps_since_done
               (step_dones
                  (events_before
                     (demo_world [(1%float, false); (2%float, true); (3%float, false)] 1) p))
             = 2).
  { eexists. split; [vm_compute; reflexivity |]. vm_compute. reflexivity. }
  destruct Hk as (p & Hk & Hcount).
  exists p. split; [exact Hk |]. unfold demo_passes in Hk.
  rewrite <- Hcount.
  exact (proj1 (alive_frame_counts_the_steps_since_the_last_done _ _ _ _ _ _ _ _ Hk)).
Defined.

(** X4 at work: the same run has reset the environment twice when its fourth
    pass starts. *)
Lemma epoch_num_witness :
  exists p,
    nth_error (demo_passes [(1%float, false); (2%float, true); (3%float, false)] 1 [] 6 None
                 (demo_param 50 3%float)) 3 = Some p /\
    lv_epoch_num (p_locals p) = 2.
Proof.
  assert (Hk : exists p,
             nth_error (demo_passes [(1%float, false); (2%float, true); (3%float, false)]
                          1 [] 6 None (demo_param 50 3%float)) 3 = Some p /\
             count_resets
               (events_before
                  (demo_world [(1%float, false); (2%float, true); (3%float, false)] 1) p)
             = 2).
  { eexists. split; [vm_compute; reflexivity |]. vm_compute. reflexivity. }
  destruct Hk as (p & Hk & Hcount).
  exists p. split; [exact Hk |]. unfold demo_passes in Hk.
  rewrite <- Hcount.
  exact (proj1 (epoch_num_counts_the_resets _ _ _ _ _ _ _ _ Hk)).
Defined.

(** [demo_train] is [train] on the scripted world. *)
Lemma demo_train_eq (script : list (float * bool)) (chronics : Z) (losses : list float)
    (iterations : Z) (save_path : option string) (tp : TrainingParam float) :
  demo_train script chronics losses iterations save_path tp
  = @train float _ Z _ _ _ (@ScriptEnv_ops float Z _) (@ScriptNet_ops_with float _ losses) _
      (fun i => i) (fun path => path) iterations save_path None tp
      (demo_world script chronics).
Proof. reflexivity. Qed.

(** X5 at work: a call for one iteration that returns without a [break];
    its one step reported [done]. *)
Lemma alive_pass_witness :
  match demo_train [(1%float, true)] 1 [] 1 None (demo_param 50 3%float) with
  | Ok lvf _ => lv_observation_num lvf = 0 \/ lv_done lvf = true
  | Raise _ _ => False
  end.
Proof.
  assert (Hret : returns (demo_train [(1%float, true)] 1 [] 1 None (demo_param 50 3%float))
                 = true) by (vm_compute; reflexivity).
  destruct (demo_train [(1%float, true)] 1 [] 1 None (demo_param 50 3%float))
    as [lvf wf | e wf] eqn:H; [| discriminate Hret].
  rewrite demo_train_eq in H.
  exact (proj2 (proj2 (alive_pass_needs_epoch_num_below_iterations
                         _ _ _ _ _ _ _)) _ _ eq_refl H).
Defined.

(** And a run of one iteration whose step does not report [done] ends in an
    [IndexError], raised by the write at index 1 of arrays of one cell. *)
Lemma one_iteration_alive_raises :
  exists w',
    demo_train [(1%float, false)] 1 [] 1 None (demo_param 50 3%float) = Raise IndexError w'.
Proof. eexists. vm_compute. reflexivity. Qed.

(** X6 at work: after three passes, two of them alive, cell 0 of
    [alive_frames] still holds 0.0. *)
Lemma epoch_arrays_witness :
  exists p,
    nth_error (demo_passes [(1%float, false); (2%float, true); (3%float, false)] 1 [] 4 None
                 (demo_param 50 3%float)) 3 = Some p /\
    nth_error (lv_alive_frames (p_locals p)) 0 = Some 0%float.
Proof.
  assert (Hk : exists p,
             nth_error (demo_passes [(1%float, false); (2%float, true); (3%float, false)]
                          1 [] 4 None (demo_param 50 3%float)) 3 = Some p).
  { eexists. vm_compute. reflexivity. }
  destruct Hk as (p & Hk).
  exists p. split; [exact Hk |]. unfold demo_passes in Hk.
  exact (proj1 (epoch_arrays_never_written_at_index_0 _ _ _ _ _ _ _ _ Hk)).
Defined.

(** X7 at work: with a log directory the first pass of a run logs. *)
Lemma tensorboard_witness :
  exists p e r a,
    nth_error (demo_passes_logged [(1%float, false); (2%float, false)] 2 [] 2
                 (Some "logs"%string) (demo_param 50 3%float)) 0 = Some p /\
    In (EvTensorboard 0 e r a) (p_events p).
Proof.
  assert (Hk : exists p lv' w',
             nth_error (demo_passes_logged [(1%float, false); (2%float, false)] 2 [] 2
                          (Some "logs"%string) (demo_param 50 3%float)) 0 = Some p /\
             p_result p = Ok (Continue lv') w').
  { eexists. eexists. eexists. split; [vm_compute; reflexivity |]. reflexivity. }
  destruct Hk as (p & lv' & w' & Hk & Hres).
  exists p, (lv_epoch_num lv'), (lv_total_rewards lv'), (lv_alive_frames lv').
  split; [exact Hk |]. unfold demo_passes_logged in Hk.
  apply (proj2 (proj2 (tensorboard_logs_every_100_passes_when_logdir_is_given
                         _ _ _ _ _ _ _ _ 0 (lv_epoch_num lv') (lv_total_rewards lv')
                         (lv_alive_frames lv') Hk) _ _ Hres)).
  split; [discriminate |]. split; [reflexivity |]. split; [reflexivity |].
  exists lv'. repeat split.
Defined.

(** X8 at work: the three calls of the first pass of a run. *)
Lemma one_prediction_witness :
  exists p pm_i reward done t,
    nth_error (demo_passes [(1%float, false); (2%float, false)] 2 [] 2 None
                 (demo_param 50 3%float)) 0 = Some p /\
    filter is_interaction_event (p_events p)
    = [EvPredict (epsilon_at (demo_param 50 3%float) 1) pm_i;
       EvStep (act_of (fun i => i) pm_i) reward done;
       EvStore t].
Proof.
  assert (Hk : exists p ctl w',
             nth_error (demo_passes [(1%float, false); (2%float, false)] 2 [] 2 None
                          (demo_param 50 3%float)) 0 = Some p /\
             p_result p = Ok ctl w').
  { eexists. eexists. eexists. split; [vm_compute; reflexivity |]. reflexivity. }
  destruct Hk as (p & ctl & w' & Hk & Hres).
  pose proof Hk as Hk'. unfold demo_passes in Hk'.
  destruct (one_prediction_one_step_one_record_per_pass _ _ _ _ _ _ _ _ Hk' Hres)
    as (pm_i & reward & done & t & Hf & _).
  exists p, pm_i, reward, done, t. split; [exact Hk | exact Hf].
Defined.

(** X9 at work: the first two passes of a run whose first step does not end
    the episode. *)
Lemma stored_states_witness :
  exists p q t1 t2,
    nth_error (demo_passes [(1%float, false); (2%float, false)] 2 [] 2 None
                 (demo_param 50 3%float)) 0 = Some p /\
    nth_error (demo_passes [(1%float, false); (2%float, false)] 2 [] 2 None
                 (demo_param 50 3%float)) 1 = Some q /\
    stored (p_events p) = [t1] /\ stored (p_events q) = [t2] /\
    t_state t2 = t_next_state t1.
Proof.
  assert (Hk : exists p q ctl w',
             nth_error (demo_passes [(1%float, false); (2%float, false)] 2 [] 2 None
                          (demo_param 50 3%float)) 0 = Some p /\
             nth_error (demo_passes [(1%float, false); (2%float, false)] 2 [] 2 None
                          (demo_param 50 3%float)) 1 = Some q /\
             p_result q = Ok ctl w' /\
             forall t, stored (p_events p) = [t] -> t_done t = false).
  { eexists. eexists. eexists. eexists. split; [vm_compute; reflexivity |].
    split; [vm_compute; reflexivity |]. split; [reflexivity |].
    intros t Ht. vm_compute in Ht. inversion Ht. reflexivity. }
  destruct Hk as (p & q & ctl & w' & Hp & Hq & Hres & Hdone).
  pose proof Hp as Hp'. pose proof Hq as Hq'. unfold demo_passes in Hp', Hq'.
  destruct (stored_states_chain_within_an_episode _ _ _ _ _ _ _ _ Hp' Hq' Hres)
    as (t1 & t2 & S1 & S2 & _ & Hchain).
  exists p, q, t1, t2.
  split; [exact Hp |]. split; [exact Hq |]. split; [exact S1 |]. split; [exact S2 |].
  exact (Hchain (Hdone t1 S1)).
Defined.

(** X10 at work: a negative number of iterations. *)
Lemma train_without_iterations_witness :
  exists w', demo_train [] 2 [] (-1) (Some "out"%string) (demo_param 50 3%float)
             = Raise ValueError w'.
Proof.
  refine (proj2 (proj2 (proj2 (proj2
            (@train_without_iterations float _ Z (ScriptEnv float) (ScriptNet float)
               (ReplayBuffer float) (@ScriptEnv_ops float Z _)
               (@ScriptNet_ops_with float _ []) _ (fun i => i) (fun path => path)
               (-1) (Some "out"%string) None (demo_param 50 3%float) (demo_world [] 2) _)))) _);
    lia.
Defined.

(** X11 at work: a call for two iterations that returns. *)
Lemma train_passes_witness :
  match demo_train [(1%float, false); (2%float, false)] 2 [] 2 None
          (demo_param 50 3%float) with
  | Ok lvf wf =>
      exists evs,
        trace wf = trace (demo_world [(1%float, false); (2%float, false)] 2) ++ evs /\
        ((lv_observation_num lvf = 2 /\
          iter_marks evs = map Z.of_nat (seq 0 (Z.to_nat 2))) \/
         (0 <= lv_observation_num lvf < 2 /\
          iter_marks evs = map Z.of_nat (seq 0 (S (Z.to_nat (lv_observation_num lvf)))) /\
          In (EvPrint "ERROR INFINITE LOSS") evs))
  | Raise _ _ => False
  end.
Proof.
  assert (Hret : returns (demo_train [(1%float, false); (2%float, false)] 2 [] 2 None
                            (demo_param 50 3%float)) = true) by (vm_compute; reflexivity).
  destruct (demo_train [(1%float, false); (2%float, false)] 2 [] 2 None
              (demo_param 50 3%float)) as [lvf wf | e wf] eqn:H; [| discriminate Hret].
  rewrite demo_train_eq in H.
  exact (train_runs_the_loop_body_iterations_times _ _ _ _ _ _ _ H).
Defined.

(** X12 at work: an environment without chronics. *)
Lemma no_chronics_witness :
  exists w', demo_train [] 0 [] 3 (Some "out"%string) (demo_param 50 3%float)
             = Raise ZeroDivisionError w' /\
             trace w' = [EvMakedirs "out"%string; EvIter 0; EvReset].
Proof.
  refine (@train_raises_when_there_are_no_chronics float _ Z (ScriptEnv float)
            (ScriptNet float) (ReplayBuffer float) (@ScriptEnv_ops float Z _)
            (@ScriptNet_ops_with float _ []) _ (fun i => i) (fun path => path)
            3 (Some "out"%string) None (demo_param 50 3%float) (demo_world [] 0) _ _).
  - lia.
  - reflexivity.
Defined.

(** X13 at work: two calls of [my_act] on a new agent. *)
Lemma my_act_twice_witness :
  exists a1 a2 w1 w2,
    @my_act float _ Z unit (EpsGreedyNet float) unit (EpsGreedy_ops greedy_net)
      [0.5%float] 0%float false (DeepQAgent_init "DeepQAgent"%string tt) = Ok a1 w1 /\
    @my_act float _ Z unit (EpsGreedyNet float) unit (EpsGreedy_ops greedy_net)
      [0.25%float] 0%float false w1 = Ok a2 w2 /\
    trace w2 = [EvInitDeepQ; EvPredict 0%float [a1]; EvPredict 0%float [a2]].
Proof.
  assert (H : exists a1 a2 w1 w2,
             @my_act float _ Z unit (EpsGreedyNet float) unit (EpsGreedy_ops greedy_net)
               [0.5%float] 0%float false (DeepQAgent_init "DeepQAgent"%string tt) = Ok a1 w1 /\
             @my_act float _ Z unit (EpsGreedyNet float) unit (EpsGreedy_ops greedy_net)
               [0.25%float] 0%float false w1 = Ok a2 w2).
  { eexists. eexists. eexists. eexists. split; vm_compute; reflexivity. }
  destruct H as (a1 & a2 & w1 & w2 & H1 & H2).
  exists a1, a2, w1, w2. split; [exact H1 |]. split; [exact H2 |].
  exact (proj2 (my_act_builds_the_network_once _ _ _ _ _ _ _ H1 H2)).
Defined.

(** X14 at work: [load] on a new agent. *)
Lemma load_witness :
  @load float Z unit (EpsGreedyNet float) unit (EpsGreedy_ops greedy_net) "weights"%string
    (DeepQAgent_init "DeepQAgent"%string tt)
  = Raise AttributeError (DeepQAgent_init "DeepQAgent"%string tt).
Proof.
  exact (proj1 (@load_and_save_need_the_network float _ Z unit (EpsGreedyNet float) unit
                  (EpsGreedy_ops greedy_net) "weights"%string (DeepQAgent_init "DeepQAgent"%string tt)
                  eq_refl)).
Defined.

(** X16 at work: with [MIN_OBSERVATION] 0 the first pass trains, and its loss
    is in cell 0 of [self.losses]. *)
Lemma losses_witness :
  exists p w' ls',
    nth_error (demo_passes [(0%float, true)] 1 [0.75%float] 3 (Some "out"%string)
                 (demo_param 0 3%float)) 0 = Some p /\
    world_of (p_result p) = w' /\
    losses w' = Some ls' /\ nth_error ls' 0 = Some 0.75%float.
Proof.
  assert (Hk : exists p ctl w',
             nth_error (demo_passes [(0%float, true)] 1 [0.75%float] 3 (Some "out"%string)
                          (demo_param 0 3%float)) 0 = Some p /\
             p_result p = Ok ctl w' /\
             In (EvTrain [{| t_state := [0.5%float; 1%float; 1%float];
                             t_action := [0]; t_reward := 0%float; t_done := true;
                             t_next_state := [0.5%float; 1%float; 1%float] |}]
                         0 0.75%float)
                (p_events p)).
  { eexists. eexists. eexists. split; [vm_compute; reflexivity |].
    split; [reflexivity |]. vm_compute. do 8 right. left. reflexivity. }
  destruct Hk as (p & ctl & w' & Hk & Hres & Hin).
  pose proof Hk as Hk'. unfold demo_passes in Hk'.
  destruct (losses_keeps_the_loss_of_each_pass _ _ _ _ _ _ _ _ Hk' Hres)
    as (ls & ls' & _ & L' & _ & _ & _ & Hloss & _).
  exists p, w', ls'. split; [exact Hk |]. split; [rewrite Hres; reflexivity |].
  split; [exact L' |]. exact (Hloss _ _ _ Hin).
Defined.

(** X17 at work: the second pass of a run does not call [init_deep_q]. *)
Lemma init_deep_q_witness :
  exists p,
    nth_error (demo_passes [(1%float, false); (2%float, false)] 2 [] 2 None
                 (demo_param 50 3%float)) 1 = Some p /\
    ~ In EvInitDeepQ (p_events p).
Proof.
  assert (Hk : exists p ctl w',
             nth_error (demo_passes [(1%float, false); (2%float, false)] 2 [] 2 None
                          (demo_param 50 3%float)) 1 = Some p /\
             p_result p = Ok ctl w').
  { eexists. eexists. eexists. split; [vm_compute; reflexivity |]. reflexivity. }
  destruct Hk as (p & ctl & w' & Hk & Hres).
  exists p. split; [exact Hk |]. unfold demo_passes in Hk.
  intro Hin.
  pose proof (proj1 (proj1 (train_calls_init_deep_q_in_the_first_pass_only
                              _ _ _ _ _ _ _ _ Hk Hres)) Hin) as H0.
  discriminate H0.
Defined.
